(** * Credit-card recommendation pipeline: scoring, routing, fan-out and aggregation

    A shallow embedding of the orchestration core of the repository
    (src/nodes/card_managers.py, src/nodes/summary.py, src/nodes/extractor.py,
    src/nodes/error_handler.py, src/graph/credit_card_graph.py and the mock
    catalog of src/tools/mock_tools.py) together with the properties the
    specification states about it.

    Modelling conventions
    - Python floats are exact rationals ([Q]); IEEE rounding is not modelled,
      so "equal" scores are [Qeq]-equal.
    - Python dicts whose iteration order matters (manager_results) are
      association lists in insertion order, updated in place.
    - Code that may raise returns [result A]; [try/except Exception] is a
      match on it.  The session state is mutated in place in Python, so the
      state an exception handler sees is the one mutated so far.
    - Wall-clock fields (timestamps, execution_time, session_id) are not
      modelled. *)

From Stdlib Require Import List String Ascii Bool Arith Lia.
From Stdlib Require Import ZArith QArith Qminmax Lqa.
From Stdlib Require Import Permutation Sorted DecimalString.
Import ListNotations.

Local Open Scope string_scope.
Local Open Scope list_scope.

(* ================================================================== *)
(** ** Python built-ins used by the source *)
(* ================================================================== *)

(** Exceptions that the modelled code can raise. *)
Inductive exn : Type :=
| ValueError (msg : string)
| AttributeError (msg : string)
| TypeError (msg : string)
| ZeroDivisionError (msg : string).

(** [str(e)] *)
Definition str_exn (e : exn) : string :=
  match e with
  | ValueError m | AttributeError m | TypeError m | ZeroDivisionError m => m
  end.

(** A computation that returns a value or raises. *)
Inductive result (A : Type) : Type :=
| Ok (a : A)
| Raise (e : exn).
Arguments Ok {A} a.
Arguments Raise {A} e.

Definition bind {A B} (c : result A) (k : A -> result B) : result B :=
  match c with
  | Ok a => k a
  | Raise e => Raise e
  end.

Notation "x <- c ;; k" := (bind c (fun x => k))
  (at level 61, c at next level, right associativity).

Fixpoint mapM {A B} (f : A -> result B) (l : list A) : result (list B) :=
  match l with
  | [] => Ok []
  | a :: t => b <- f a ;; bs <- mapM f t ;; Ok (b :: bs)
  end.

Module Py.

(** [a / b] on floats: raises on a zero divisor. *)
Definition div (a b : Q) : result Q :=
  if Qeq_bool b 0 then Raise (ZeroDivisionError "float division by zero")
  else Ok (a / b)%Q.

(** [min(a, b)]: the first argument unless the second is strictly smaller. *)
Definition min (a b : Q) : Q := if Qle_bool a b then a else b.

(** [sum(l)] *)
Definition sum (l : list Q) : Q := fold_left Qplus l 0%Q.

(** [float(len(l))] *)
Definition len {A} (l : list A) : Q := inject_Z (Z.of_nat (List.length l)).

(** [s.lower()], on the ASCII range. *)
Definition lower_ascii (c : ascii) : ascii :=
  let n := nat_of_ascii c in
  if (65 <=? n)%nat && (n <=? 90)%nat then ascii_of_nat (n + 32) else c.

Fixpoint lower (s : string) : string :=
  match s with
  | EmptyString => EmptyString
  | String c t => String (lower_ascii c) (lower t)
  end.

(** [needle in hay] on strings: substring test. *)
Fixpoint contains (needle hay : string) : bool :=
  match hay with
  | EmptyString => prefix needle EmptyString
  | String _ t => prefix needle hay || contains needle t
  end.

(** [x in l] on lists of strings. *)
Definition mem (x : string) (l : list string) : bool :=
  existsb (String.eqb x) l.

(** [sep.join(l)] *)
Fixpoint join (sep : string) (l : list string) : string :=
  match l with
  | [] => ""
  | [x] => x
  | x :: t => (x ++ sep ++ join sep t)%string
  end.

(** [str(n)] for a non-negative int. *)
Definition str_nat (n : nat) : string :=
  NilEmpty.string_of_uint (Nat.to_uint n).

(** [l.sort(key=key, reverse=True)]: Python's sort is stable, also with
    [reverse=True]; elements are placed by decreasing key and elements with
    equal keys keep their relative order. *)
Section Sort.
Context {A : Type} (key : A -> Q).

Fixpoint insert_desc (x : A) (l : list A) : list A :=
  match l with
  | [] => [x]
  | y :: t =>
      if Qle_bool (key y) (key x) then x :: y :: t
      else y :: insert_desc x t
  end.

Fixpoint sort_desc (l : list A) : list A :=
  match l with
  | [] => []
  | x :: t => insert_desc x (sort_desc t)
  end.
End Sort.

(** A dict with string keys, in insertion order. *)
Definition dict (V : Type) : Type := list (string * V).

(** [d.get(k)] *)
Fixpoint get {V} (d : dict V) (k : string) : option V :=
  match d with
  | [] => None
  | (k', v) :: t => if String.eqb k k' then Some v else get t k
  end.

(** [d[k] = v]: overwrite in place, or append a new key. *)
Fixpoint set {V} (d : dict V) (k : string) (v : V) : dict V :=
  match d with
  | [] => [(k, v)]
  | (k', v') :: t =>
      if String.eqb k k' then (k', v) :: t else (k', v') :: set t k v
  end.

Definition keys {V} (d : dict V) : list string := map fst d.
Definition values {V} (d : dict V) : list V := map snd d.

End Py.


(* ================================================================== *)
(** ** Data model (src/models/state.py, src/nodes/card_managers.py) *)
(* ================================================================== *)

(** [RequestParsed]: constraint and spend maps hold numbers. *)
Record RequestParsed : Type := {
  intent : string;
  constraints : Py.dict Q;
  goals : list string;
  priority : list string;
  spend_focus : Py.dict Q;
  jurisdiction : string;
  risk_tolerance : string;
  must_have : list string;
  nice_to_have : list string;
  time_horizon : string
}.

Record Consent : Type := {
  personalization : bool;
  data_sharing : bool;
  credit_pull : string
}.

(** A catalog entry: the dict the catalog collaborator returns, with the ten
    keys [rank_cards] reads, in the catalog's key order. *)
Module CardDict.
Record t : Type := {
  card_id : string;
  card_name : string;
  card_type : string;
  issuer : string;
  annual_fee : Q;
  rewards_rate : string;
  signup_bonus : string;
  credit_score_required : string;
  pros : list string;
  cons : list string
}.
End CardDict.

(** The dataclass [CardRecommendation]. *)
Module CardRecommendation.
Record t : Type := {
  card_id : string;
  card_name : string;
  card_type : string;
  issuer : string;
  annual_fee : Q;
  rewards_rate : string;
  signup_bonus : string;
  credit_score_required : string;
  pros : list string;
  cons : list string;
  match_score : Q;
  reasoning : string
}.
End CardRecommendation.

(** The dataclass [ManagerResult] (without [execution_time]). *)
Module ManagerResult.
Record t : Type := {
  manager_type : string;
  recommendations : list CardRecommendation.t;
  total_cards_found : nat;
  best_match : option CardRecommendation.t;
  reasoning : string
}.
End ManagerResult.

(** Python's [repr] of a str and of a float and the [.2f] format are taken
    from the run-time: quoting, escaping and shortest round-trip printing are
    not modelled. *)
Class PyRepr : Type := {
  repr_str : string -> string;
  repr_float : Q -> string;
  format_2f : Q -> string
}.

Section Rendering.
Context `{PyRepr}.

(** [str(l)] for a list of str *)
Definition str_list (l : list string) : string :=
  ("[" ++ Py.join ", " (map repr_str l) ++ "]")%string.

(** [str(card)] for a catalog dict: [{'card_id': ..., ..., 'cons': [...]}] *)
Definition str_card (card : CardDict.t) : string :=
  ("{'card_id': " ++ repr_str (CardDict.card_id card)
   ++ ", 'card_name': " ++ repr_str (CardDict.card_name card)
   ++ ", 'card_type': " ++ repr_str (CardDict.card_type card)
   ++ ", 'issuer': " ++ repr_str (CardDict.issuer card)
   ++ ", 'annual_fee': " ++ repr_float (CardDict.annual_fee card)
   ++ ", 'rewards_rate': " ++ repr_str (CardDict.rewards_rate card)
   ++ ", 'signup_bonus': " ++ repr_str (CardDict.signup_bonus card)
   ++ ", 'credit_score_required': "
   ++ repr_str (CardDict.credit_score_required card)
   ++ ", 'pros': " ++ str_list (CardDict.pros card)
   ++ ", 'cons': " ++ str_list (CardDict.cons card) ++ "}")%string.

(** [str(rec)] for the dataclass: [CardRecommendation(card_id=..., ...)] *)
Definition str_recommendation (r : CardRecommendation.t) : string :=
  ("CardRecommendation(card_id=" ++ repr_str (CardRecommendation.card_id r)
   ++ ", card_name=" ++ repr_str (CardRecommendation.card_name r)
   ++ ", card_type=" ++ repr_str (CardRecommendation.card_type r)
   ++ ", issuer=" ++ repr_str (CardRecommendation.issuer r)
   ++ ", annual_fee=" ++ repr_float (CardRecommendation.annual_fee r)
   ++ ", rewards_rate=" ++ repr_str (CardRecommendation.rewards_rate r)
   ++ ", signup_bonus=" ++ repr_str (CardRecommendation.signup_bonus r)
   ++ ", credit_score_required="
   ++ repr_str (CardRecommendation.credit_score_required r)
   ++ ", pros=" ++ str_list (CardRecommendation.pros r)
   ++ ", cons=" ++ str_list (CardRecommendation.cons r)
   ++ ", match_score=" ++ repr_float (CardRecommendation.match_score r)
   ++ ", reasoning=" ++ repr_str (CardRecommendation.reasoning r)
   ++ ")")%string.
End Rendering.

(* ================================================================== *)
(** ** Category handlers: scoring (src/nodes/card_managers.py) *)
(* ================================================================== *)

(** The handler classes: [BaseCardManager] and its five subclasses. *)
Inductive Manager : Type :=
| BaseCardManager
| TravelManager
| CashbackManager
| BusinessManager
| StudentManager
| GeneralManager.

(** [self.manager_type] *)
Definition manager_type (m : Manager) : string :=
  match m with
  | BaseCardManager => "base"
  | TravelManager => "travel_manager"
  | CashbackManager => "cashback_manager"
  | BusinessManager => "business_manager"
  | StudentManager => "student_manager"
  | GeneralManager => "general_manager"
  end.

Section Scoring.
Context `{PyRepr}.
Local Open Scope Q_scope.

(** [sum(1 for goal in request.goals if goal.lower() in str(card).lower())] *)
Definition goal_matches (card : CardDict.t) (request : RequestParsed) : nat :=
  List.length
    (filter (fun goal => Py.contains (Py.lower goal) (Py.lower (str_card card)))
            (goals request)).

(** [BaseCardManager._calculate_match_score] *)
Definition base_calculate_match_score
    (card : CardDict.t) (request : RequestParsed) : result Q :=
  let score := 0 in
  (* Goal matching (40% of score) *)
  goal_term <-
    match goals request with
    | [] => Ok 0
    | _ :: _ =>
        ratio <- Py.div (inject_Z (Z.of_nat (goal_matches card request)))
                        (Py.len (goals request)) ;;
        Ok (ratio * 0.4)
    end ;;
  let score := score + goal_term in
  (* Risk tolerance matching (30% of score) *)
  let score :=
    if String.eqb (risk_tolerance request) "conservative"
       && Qle_bool (CardDict.annual_fee card) 50 then score + 0.3
    else if String.eqb (risk_tolerance request) "standard"
            && Qle_bool (CardDict.annual_fee card) 150 then score + 0.3
    else if String.eqb (risk_tolerance request) "aggressive" then score + 0.3
    else score in
  (* Time horizon matching (20% of score) *)
  let score :=
    if String.eqb (time_horizon request) "12m"
       && Py.contains "signup_bonus" (str_card card) then score + 0.2
    else score in
  (* Constraint matching (10% of score) *)
  let score :=
    match constraints request with
    | [] => score + 0.1
    | _ :: _ => score
    end in
  Ok (Py.min score 1).

(** [TravelManager._calculate_match_score] *)
Definition travel_calculate_match_score
    (card : CardDict.t) (request : RequestParsed) : result Q :=
  base_score <- base_calculate_match_score card request ;;
  let card_text := Py.lower (str_card card) in
  let base_score :=
    if existsb (fun word => Py.contains word card_text)
               ["miles"; "airline"; "travel"]%string
    then base_score + 0.2 else base_score in
  let base_score :=
    if Py.contains "no foreign transaction fee" card_text
    then base_score + 0.1 else base_score in
  Ok (Py.min base_score 1).

(** [CashbackManager._calculate_match_score] *)
Definition cashback_calculate_match_score
    (card : CardDict.t) (request : RequestParsed) : result Q :=
  base_score <- base_calculate_match_score card request ;;
  let card_text := Py.lower (str_card card) in
  let base_score :=
    if Py.contains "cashback" card_text
    then base_score + 0.2 else base_score in
  let base_score :=
    if Py.contains "%" (CardDict.rewards_rate card)
    then base_score + 0.1 else base_score in
  Ok (Py.min base_score 1).

(** [StudentManager._calculate_match_score] *)
Definition student_calculate_match_score
    (card : CardDict.t) (request : RequestParsed) : result Q :=
  base_score <- base_calculate_match_score card request ;;
  let card_text := Py.lower (str_card card) in
  let base_score :=
    if Py.contains "student" card_text || Py.contains "first" card_text
    then base_score + 0.3 else base_score in
  let base_score :=
    if Qle_bool (CardDict.annual_fee card) 0
    then base_score + 0.2 else base_score in
  Ok (Py.min base_score 1).

(** Method resolution of [self._calculate_match_score]: the business and
    general handlers inherit the base method. *)
Definition _calculate_match_score (self : Manager) :
    CardDict.t -> RequestParsed -> result Q :=
  match self with
  | TravelManager => travel_calculate_match_score
  | CashbackManager => cashback_calculate_match_score
  | StudentManager => student_calculate_match_score
  | BaseCardManager | BusinessManager | GeneralManager =>
      base_calculate_match_score
  end.

(** [BaseCardManager._generate_reasoning] *)
Definition _generate_reasoning
    (card : CardDict.t) (request : RequestParsed) (match_score : Q) : string :=
  let reasons :=
    [ if negb (Qle_bool match_score 0.8) then "Excellent match for your goals"
      else if negb (Qle_bool match_score 0.6)
           then "Good match for your preferences"
      else if negb (Qle_bool match_score 0.4)
           then "Moderate match, consider alternatives"
      else "Basic match, may not be optimal" ]%string in
  let reasons :=
    match filter (fun goal =>
                    Py.contains (Py.lower goal) (Py.lower (str_card card)))
                 (goals request) with
    | [] => reasons
    | matched =>
        (reasons ++ [("Supports your goals: " ++ Py.join ", " matched)%string])%list
    end in
  let reasons :=
    (reasons ++
     [ if Qle_bool (CardDict.annual_fee card) 50 then "Low annual fee"
       else if Qle_bool (CardDict.annual_fee card) 150
            then "Moderate annual fee"
       else "Premium card with higher annual fee" ]%string)%list in
  Py.join ". " reasons.

(** The recommendation [rank_cards] builds for one catalog entry. *)
Definition make_recommendation
    (self : Manager) (request : RequestParsed) (card_data : CardDict.t)
    : result CardRecommendation.t :=
  match_score <- _calculate_match_score self card_data request ;;
  Ok {| CardRecommendation.card_id := CardDict.card_id card_data;
        CardRecommendation.card_name := CardDict.card_name card_data;
        CardRecommendation.card_type := CardDict.card_type card_data;
        CardRecommendation.issuer := CardDict.issuer card_data;
        CardRecommendation.annual_fee := CardDict.annual_fee card_data;
        CardRecommendation.rewards_rate := CardDict.rewards_rate card_data;
        CardRecommendation.signup_bonus := CardDict.signup_bonus card_data;
        CardRecommendation.credit_score_required :=
          CardDict.credit_score_required card_data;
        CardRecommendation.pros := CardDict.pros card_data;
        CardRecommendation.cons := CardDict.cons card_data;
        CardRecommendation.match_score := match_score;
        CardRecommendation.reasoning :=
          _generate_reasoning card_data request match_score |}.

(** [BaseCardManager.rank_cards] *)
Definition rank_cards
    (self : Manager) (cards : list CardDict.t) (request : RequestParsed)
    : result (list CardRecommendation.t) :=
  ranked_cards <- mapM (make_recommendation self request) cards ;;
  Ok (Py.sort_desc CardRecommendation.match_score ranked_cards).
End Scoring.

(* ================================================================== *)
(** ** Aggregation data (src/nodes/summary.py, src/nodes/error_handler.py) *)
(* ================================================================== *)

(** The dataclass [FinalRecommendation]. *)
Module FinalRecommendation.
Record t : Type := {
  card_id : string;
  card_name : string;
  card_type : string;
  issuer : string;
  annual_fee : Q;
  rewards_rate : string;
  signup_bonus : string;
  credit_score_required : string;
  pros : list string;
  cons : list string;
  overall_score : Q;
  manager_scores : Py.dict Q;
  reasoning : string;
  best_for : list string
}.
End FinalRecommendation.

(** The dataclass [SummaryResult] (without [execution_time]): the final
    answer of a run. *)
Module SummaryResult.
Record t : Type := {
  total_cards_analyzed : nat;
  final_recommendations : list FinalRecommendation.t;
  top_recommendation : option FinalRecommendation.t;
  summary_text : string;
  confidence_score : Q
}.
End SummaryResult.

(** The dataclass [ErrorHandlingResult]; a fallback recommendation is a dict
    with the twelve keys of a [CardRecommendation]. *)
Module ErrorHandlingResult.
Record t : Type := {
  errors_handled : nat;
  user_friendly_message : string;
  recovery_actions : list string;
  can_continue : bool;
  fallback_recommendations : list CardRecommendation.t
}.
End ErrorHandlingResult.

(** An entry of [state.errors]: the dict [{"node", "error", "timestamp"}],
    with the optional ["type"] key some stages add. *)
Record ErrorInfo : Type := {
  node : string;
  error : string;
  type : option string
}.

(** [GraphState], the pydantic model of src/models/state.py.
    [telemetry] keeps the names of the recorded events.  The model declares
    no field [error_handling]. *)
Record GraphState : Type := {
  user_query : string;
  locale : string;
  consent : Consent;
  request : option RequestParsed;
  fanout_plan : option (list string);
  manager_results : Py.dict ManagerResult.t;
  final_recommendations : option SummaryResult.t;
  telemetry : list string;
  errors : list ErrorInfo;
  current_node : option string;
  completed_nodes : list string;
  next_nodes : list string
}.

(** Field assignment [state.f = v]. *)
Definition set_request (v : option RequestParsed) (state : GraphState) : GraphState :=
  {| user_query := user_query state;
     locale := locale state;
     consent := consent state;
     request := v;
     fanout_plan := fanout_plan state;
     manager_results := manager_results state;
     final_recommendations := final_recommendations state;
     telemetry := telemetry state;
     errors := errors state;
     current_node := current_node state;
     completed_nodes := completed_nodes state;
     next_nodes := next_nodes state |}.

Definition set_fanout_plan (v : option (list string)) (state : GraphState) : GraphState :=
  {| user_query := user_query state;
     locale := locale state;
     consent := consent state;
     request := request state;
     fanout_plan := v;
     manager_results := manager_results state;
     final_recommendations := final_recommendations state;
     telemetry := telemetry state;
     errors := errors state;
     current_node := current_node state;
     completed_nodes := completed_nodes state;
     next_nodes := next_nodes state |}.

Definition set_manager_results (v : Py.dict ManagerResult.t) (state : GraphState) : GraphState :=
  {| user_query := user_query state;
     locale := locale state;
     consent := consent state;
     request := request state;
     fanout_plan := fanout_plan state;
     manager_results := v;
     final_recommendations := final_recommendations state;
     telemetry := telemetry state;
     errors := errors state;
     current_node := current_node state;
     completed_nodes := completed_nodes state;
     next_nodes := next_nodes state |}.

Definition set_final_recommendations (v : option SummaryResult.t) (state : GraphState) : GraphState :=
  {| user_query := user_query state;
     locale := locale state;
     consent := consent state;
     request := request state;
     fanout_plan := fanout_plan state;
     manager_results := manager_results state;
     final_recommendations := v;
     telemetry := telemetry state;
     errors := errors state;
     current_node := current_node state;
     completed_nodes := completed_nodes state;
     next_nodes := next_nodes state |}.

Definition set_telemetry (v : list string) (state : GraphState) : GraphState :=
  {| user_query := user_query state;
     locale := locale state;
     consent := consent state;
     request := request state;
     fanout_plan := fanout_plan state;
     manager_results := manager_results state;
     final_recommendations := final_recommendations state;
     telemetry := v;
     errors := errors state;
     current_node := current_node state;
     completed_nodes := completed_nodes state;
     next_nodes := next_nodes state |}.

Definition set_errors (v : list ErrorInfo) (state : GraphState) : GraphState :=
  {| user_query := user_query state;
     locale := locale state;
     consent := consent state;
     request := request state;
     fanout_plan := fanout_plan state;
     manager_results := manager_results state;
     final_recommendations := final_recommendations state;
     telemetry := telemetry state;
     errors := v;
     current_node := current_node state;
     completed_nodes := completed_nodes state;
     next_nodes := next_nodes state |}.

Definition set_current_node (v : option string) (state : GraphState) : GraphState :=
  {| user_query := user_query state;
     locale := locale state;
     consent := consent state;
     request := request state;
     fanout_plan := fanout_plan state;
     manager_results := manager_results state;
     final_recommendations := final_recommendations state;
     telemetry := telemetry state;
     errors := errors state;
     current_node := v;
     completed_nodes := completed_nodes state;
     next_nodes := next_nodes state |}.

Definition set_completed_nodes (v : list string) (state : GraphState) : GraphState :=
  {| user_query := user_query state;
     locale := locale state;
     consent := consent state;
     request := request state;
     fanout_plan := fanout_plan state;
     manager_results := manager_results state;
     final_recommendations := final_recommendations state;
     telemetry := telemetry state;
     errors := errors state;
     current_node := current_node state;
     completed_nodes := v;
     next_nodes := next_nodes state |}.

Definition set_next_nodes (v : list string) (state : GraphState) : GraphState :=
  {| user_query := user_query state;
     locale := locale state;
     consent := consent state;
     request := request state;
     fanout_plan := fanout_plan state;
     manager_results := manager_results state;
     final_recommendations := final_recommendations state;
     telemetry := telemetry state;
     errors := errors state;
     current_node := current_node state;
     completed_nodes := completed_nodes state;
     next_nodes := v |}.

(** [state.name = v] for a [name] that [GraphState] does not declare:
    pydantic's [BaseModel.__setattr__] refuses the assignment, and
    [hasattr(state, name)] is false. *)
Definition double_quote : string := String (ascii_of_nat 34) EmptyString.

Definition setattr_undeclared (name : string) : result unit :=
  Raise (ValueError (double_quote ++ "GraphState" ++ double_quote
                     ++ " object has no field "
                     ++ double_quote ++ name ++ double_quote)%string).

(* ================================================================== *)
(** ** Collaborators (src/tools/base.py, src/tools/mock_tools.py) *)
(* ================================================================== *)

(** What the text-understanding collaborator hands back for an analysis
    prompt: a dict (of which only the keys are kept) or some other object. *)
Inductive Analysis : Type :=
| AnalysisDict (keys : list string)
| AnalysisOther.

(** [LLMTool.nlu_extract] on the analysis prompt a handler formats from the
    request's goals, constraints, risk tolerance and time horizon. *)
Class LLMTool : Type := {
  nlu_extract : RequestParsed -> result Analysis
}.

(** The search criteria dict of [BaseCardManager.execute]. *)
Record SearchCriteria : Type := {
  criteria_goals : list string;
  criteria_risk_tolerance : string;
  criteria_constraints : Py.dict Q;
  criteria_jurisdiction : string
}.

(** [catalog_tool.search_cards] *)
Class CatalogTool : Type := {
  search_cards : SearchCriteria -> result (list CardDict.t)
}.

Section MockCatalog.
Local Open Scope Q_scope.

Definition travel_001 : CardDict.t :=
  {| CardDict.card_id := "travel_001";
     CardDict.card_name := "Singapore Airlines KrisFlyer Credit Card";
     CardDict.card_type := "travel";
     CardDict.issuer := "DBS Bank";
     CardDict.annual_fee := 192.60;
     CardDict.rewards_rate := "1.2 miles per S$1";
     CardDict.signup_bonus := "15,000 KrisFlyer miles";
     CardDict.credit_score_required := "excellent";
     CardDict.pros := ["High miles earning"; "No foreign transaction fees";
                       "Travel insurance"]%string;
     CardDict.cons := ["High annual fee"; "Limited cashback options"]%string |}.

Definition travel_002 : CardDict.t :=
  {| CardDict.card_id := "travel_002";
     CardDict.card_name := "Citi PremierMiles Card";
     CardDict.card_type := "travel";
     CardDict.issuer := "Citibank";
     CardDict.annual_fee := 192.60;
     CardDict.rewards_rate := "1.2 miles per S$1";
     CardDict.signup_bonus := "10,000 miles";
     CardDict.credit_score_required := "good";
     CardDict.pros := ["Flexible miles"; "Good signup bonus";
                       "Travel benefits"]%string;
     CardDict.cons := ["Annual fee"; "Limited category bonuses"]%string |}.

Definition cashback_001 : CardDict.t :=
  {| CardDict.card_id := "cashback_001";
     CardDict.card_name := "DBS Live Fresh Card";
     CardDict.card_type := "cashback";
     CardDict.issuer := "DBS Bank";
     CardDict.annual_fee := 0;
     CardDict.rewards_rate := "5% cashback on online spending";
     CardDict.signup_bonus := "S$100 cashback";
     CardDict.credit_score_required := "good";
     CardDict.pros := ["No annual fee"; "High online cashback";
                       "Easy to use"]%string;
     CardDict.cons := ["Limited offline benefits";
                       "Category restrictions"]%string |}.

Definition cashback_002 : CardDict.t :=
  {| CardDict.card_id := "cashback_002";
     CardDict.card_name := "OCBC 365 Credit Card";
     CardDict.card_type := "cashback";
     CardDict.issuer := "OCBC Bank";
     CardDict.annual_fee := 0;
     CardDict.rewards_rate := "6% cashback on dining";
     CardDict.signup_bonus := "S$80 cashback";
     CardDict.credit_score_required := "good";
     CardDict.pros := ["No annual fee"; "High dining cashback";
                       "Weekend bonuses"]%string;
     CardDict.cons := ["Complex bonus structure";
                       "Minimum spending requirements"]%string |}.

Definition business_001 : CardDict.t :=
  {| CardDict.card_id := "business_001";
     CardDict.card_name := "UOB Business Card";
     CardDict.card_type := "business";
     CardDict.issuer := "UOB Bank";
     CardDict.annual_fee := 96.30;
     CardDict.rewards_rate := "1% cashback on all spending";
     CardDict.signup_bonus := "S$200 cashback";
     CardDict.credit_score_required := "good";
     CardDict.pros := ["Business expense tracking"; "Employee cards";
                       "Corporate benefits"]%string;
     CardDict.cons := ["Annual fee"; "Limited rewards";
                       "Business verification required"]%string |}.

Definition student_001 : CardDict.t :=
  {| CardDict.card_id := "student_001";
     CardDict.card_name := "POSB Everyday Card";
     CardDict.card_type := "student";
     CardDict.issuer := "DBS Bank";
     CardDict.annual_fee := 0;
     CardDict.rewards_rate := "0.3% cashback on all spending";
     CardDict.signup_bonus := "S$20 cashback";
     CardDict.credit_score_required := "fair";
     CardDict.pros := ["No annual fee"; "Easy approval";
                       "Credit building"]%string;
     CardDict.cons := ["Low rewards rate"; "Limited benefits";
                       "Low credit limit"]%string |}.

Definition general_001 : CardDict.t :=
  {| CardDict.card_id := "general_001";
     CardDict.card_name := "Standard Rewards Card";
     CardDict.card_type := "rewards";
     CardDict.issuer := "Generic Bank";
     CardDict.annual_fee := 48.15;
     CardDict.rewards_rate := "1% cashback on all spending";
     CardDict.signup_bonus := "S$50 cashback";
     CardDict.credit_score_required := "good";
     CardDict.pros := ["Simple rewards"; "Moderate annual fee";
                       "Widely accepted"]%string;
     CardDict.cons := ["Basic benefits"; "No category bonuses";
                       "Limited perks"]%string |}.

(** [any(goal in goals for goal in words)] *)
Definition any_goal_in (goals words : list string) : bool :=
  existsb (fun goal => Py.mem goal goals) words.

(** [MockCatalogTool.search_cards] *)
Definition mock_search_cards (criteria : SearchCriteria)
    : result (list CardDict.t) :=
  let goals := criteria_goals criteria in
  let risk_tolerance := criteria_risk_tolerance criteria in
  let mock_cards := [] in
  let mock_cards :=
    if any_goal_in goals ["miles"; "travel"; "airline"]%string
    then mock_cards ++ [travel_001; travel_002] else mock_cards in
  let mock_cards :=
    if any_goal_in goals ["cashback"; "rewards"]%string
    then mock_cards ++ [cashback_001; cashback_002] else mock_cards in
  let mock_cards :=
    if any_goal_in goals ["business"; "corporate"]%string
    then mock_cards ++ [business_001] else mock_cards in
  let mock_cards :=
    if any_goal_in goals ["student"; "building_credit"]%string
    then mock_cards ++ [student_001] else mock_cards in
  let mock_cards :=
    match mock_cards with
    | [] => mock_cards ++ [general_001]
    | _ :: _ => mock_cards
    end in
  let mock_cards :=
    if String.eqb risk_tolerance "conservative"
    then filter (fun card => Qle_bool (CardDict.annual_fee card) 50) mock_cards
    else if String.eqb risk_tolerance "standard"
    then filter (fun card => Qle_bool (CardDict.annual_fee card) 200) mock_cards
    else mock_cards in
  Ok (firstn 5 mock_cards).
End MockCatalog.

(** [MockCatalogTool] *)
Definition MockCatalogTool : CatalogTool :=
  {| search_cards := mock_search_cards |}.

(* ================================================================== *)
(** ** Category handlers: execution (src/nodes/card_managers.py) *)
(* ================================================================== *)

Section Handlers.
Context `{PyRepr} `{LLMTool} `{CatalogTool}.
Local Open Scope Q_scope.

(** [analysis[key] = ...] on what the collaborator returned. *)
Definition analysis_setitem (analysis : Analysis) (key : string)
    : result Analysis :=
  match analysis with
  | AnalysisDict keys =>
      Ok (AnalysisDict (if Py.mem key keys then keys else keys ++ [key]))
  | AnalysisOther =>
      Raise (TypeError "object does not support item assignment")
  end.

(** [BaseCardManager.analyze_request]: formatting the prompt reads the
    request's attributes; a collaborator failure yields the static
    fallback analysis. *)
Definition base_analyze_request (request : option RequestParsed)
    : result Analysis :=
  match request with
  | None => Raise (AttributeError "'NoneType' object has no attribute 'goals'")
  | Some request =>
      match nlu_extract request with
      | Ok analysis => Ok analysis
      | Raise _ =>
          Ok (AnalysisDict ["priority_categories"; "reward_preferences";
                            "constraint_analysis"; "risk_assessment"]%string)
      end
  end.

(** [analyze_request] of each handler class: the subclasses add one key to
    the base analysis. *)
Definition analyze_request (self : Manager) (request : option RequestParsed)
    : result Analysis :=
  analysis <- base_analyze_request request ;;
  match self with
  | BaseCardManager => Ok analysis
  | TravelManager => analysis_setitem analysis "travel_specific"
  | CashbackManager => analysis_setitem analysis "cashback_specific"
  | BusinessManager => analysis_setitem analysis "business_specific"
  | StudentManager => analysis_setitem analysis "student_specific"
  | GeneralManager => analysis_setitem analysis "general_specific"
  end.

(** [BaseCardManager._get_mock_cards] *)
Definition _get_mock_cards : list CardDict.t :=
  [ {| CardDict.card_id := "mock_001";
       CardDict.card_name := "Mock Premium Card";
       CardDict.card_type := "rewards";
       CardDict.issuer := "Mock Bank";
       CardDict.annual_fee := 95.0;
       CardDict.rewards_rate := "2% on all purchases";
       CardDict.signup_bonus := "50,000 points";
       CardDict.credit_score_required := "excellent";
       CardDict.pros := ["High rewards rate"; "Good signup bonus"]%string;
       CardDict.cons := ["High annual fee";
                         "Foreign transaction fees"]%string |} ].

(** [BaseCardManager.search_catalog] *)
Definition search_catalog (criteria : SearchCriteria) : list CardDict.t :=
  match search_cards criteria with
  | Ok results => results
  | Raise _ => _get_mock_cards
  end.

(** The body of the [try] block of [BaseCardManager.execute] after the two
    bookkeeping assignments: analyze, search, rank, keep the top three. *)
Definition execute_steps (self : Manager) (state : GraphState)
    : result ManagerResult.t :=
  let request := request state in
  analysis <- analyze_request self request ;;
  match request with
  | None => Raise (AttributeError "'NoneType' object has no attribute 'goals'")
  | Some request =>
      let search_criteria :=
        {| criteria_goals := goals request;
           criteria_risk_tolerance := risk_tolerance request;
           criteria_constraints := constraints request;
           criteria_jurisdiction := jurisdiction request |} in
      let raw_cards := search_catalog search_criteria in
      recommendations <- rank_cards self raw_cards request ;;
      let top_recommendations := firstn 3 recommendations in
      Ok {| ManagerResult.manager_type := manager_type self;
            ManagerResult.recommendations := top_recommendations;
            ManagerResult.total_cards_found := List.length raw_cards;
            ManagerResult.best_match := hd_error top_recommendations;
            ManagerResult.reasoning :=
              ("Found " ++ Py.str_nat (List.length raw_cards)
               ++ " cards, ranked by relevance to your goals")%string |}
  end.

(** [BaseCardManager.execute] *)
Definition execute (self : Manager) (state : GraphState) : GraphState :=
  let state := set_current_node (Some (manager_type self)) state in
  let state :=
    set_completed_nodes (completed_nodes state ++ [manager_type self]) state in
  match execute_steps self state with
  | Ok manager_result =>
      let state :=
        set_manager_results
          (Py.set (manager_results state) (manager_type self) manager_result)
          state in
      set_next_nodes ["summary"%string] state
  | Raise e =>
      let error_info :=
        {| node := manager_type self; error := str_exn e; type := None |} in
      let state := set_errors (errors state ++ [error_info]) state in
      set_next_nodes ["summary"%string] state
  end.
End Handlers.

(* ================================================================== *)
(** ** Aggregation stage (src/nodes/summary.py) *)
(* ================================================================== *)

Module SummaryAgent.
Section SummaryAgent.
Context `{PyRepr}.
Local Open Scope Q_scope.

Definition agent_type : string := "summary".

(** [aggregate_manager_results]: the pool of all recommendations, in the
    order of the result map. *)
Definition aggregate_manager_results
    (manager_results : Py.dict ManagerResult.t) : list CardRecommendation.t :=
  fold_left
    (fun all_recommendations (item : string * ManagerResult.t) =>
       match ManagerResult.recommendations (snd item) with
       | [] => all_recommendations
       | recs => all_recommendations ++ recs
       end)
    manager_results [].

(** [calculate_overall_score]: the loop adds 0.1 for every recommendation
    of every manager that carries the card's identifier.  (The locals
    [manager_count] and [manager_scores] of the source are never read.) *)
Definition calculate_overall_score
    (card : CardRecommendation.t) (manager_results : Py.dict ManagerResult.t)
    : Q :=
  let overall_score := CardRecommendation.match_score card in
  let overall_score :=
    fold_left
      (fun overall_score (item : string * ManagerResult.t) =>
         fold_left
           (fun overall_score rec =>
              if String.eqb (CardRecommendation.card_id rec)
                            (CardRecommendation.card_id card)
              then overall_score + 0.1 else overall_score)
           (ManagerResult.recommendations (snd item)) overall_score)
      manager_results overall_score in
  Py.min overall_score 1.

(** [identify_best_features] (the request argument is not read). *)
Definition identify_best_features
    (card : CardRecommendation.t) (request : option RequestParsed)
    : list string :=
  let text := Py.lower (str_recommendation card) in
  let rate := CardRecommendation.rewards_rate card in
  let fee := CardRecommendation.annual_fee card in
  let add (b : bool) (s : string) (l : list string) :=
    if b then l ++ [s] else l in
  let best_features := [] in
  let best_features :=
    if String.eqb (CardRecommendation.card_type card) "travel" then
      add (Py.contains "travel insurance" text) "Travel protection"
        (add (Py.contains "no foreign transaction fee" text)
             "International travel"
           (add (Py.contains "miles" (Py.lower rate)) "Airline miles earning"
                best_features))
    else if String.eqb (CardRecommendation.card_type card) "cashback" then
      add (Py.contains "dining" (Py.lower rate)) "Dining rewards"
        (add (Py.contains "online" (Py.lower rate)) "Online shopping"
           (add (Py.contains "%" rate) "Cashback rewards" best_features))
    else if String.eqb (CardRecommendation.card_type card) "business" then
      add (Py.contains "employee" text) "Employee cards"
          (best_features ++ ["Business expenses"%string])
    else if String.eqb (CardRecommendation.card_type card) "student" then
      add (Qeq_bool fee 0) "No annual fee"
          (best_features ++ ["Credit building"%string])
    else best_features in
  let best_features :=
    if Qeq_bool fee 0 then best_features ++ ["Cost-effective"%string]
    else if Qle_bool fee 50 then best_features ++ ["Low cost"%string]
    else best_features in
  add (Py.contains "signup bonus" text) "Signup bonus" best_features.

(** [generate_reasoning] *)
Definition generate_reasoning
    (card : CardRecommendation.t) (overall_score : Q)
    (best_features : list string) : string :=
  let fee := CardRecommendation.annual_fee card in
  let reasoning_parts :=
    [ if negb (Qle_bool overall_score 0.9) then "Excellent overall match"
      else if negb (Qle_bool overall_score 0.7) then "Strong recommendation"
      else if negb (Qle_bool overall_score 0.5) then "Good option to consider"
      else "Basic match" ]%string in
  let reasoning_parts :=
    match best_features with
    | [] => reasoning_parts
    | _ :: _ =>
        reasoning_parts
        ++ [("Best for: " ++ Py.join ", " best_features)%string]
    end in
  let reasoning_parts :=
    if Qeq_bool fee 0
    then reasoning_parts ++ ["No annual fee makes it cost-effective"%string]
    else if Qle_bool fee 50
    then reasoning_parts ++ ["Low annual fee for good value"%string]
    else reasoning_parts in
  Py.join ". " reasoning_parts.

(** The inner loop of [create_final_recommendations] that collects
    [manager_scores]: the last matching recommendation of each manager. *)
Definition collect_manager_scores
    (card : CardRecommendation.t) (manager_results : Py.dict ManagerResult.t)
    : Py.dict Q :=
  fold_left
    (fun manager_scores (item : string * ManagerResult.t) =>
       fold_left
         (fun manager_scores rec =>
            if String.eqb (CardRecommendation.card_id rec)
                          (CardRecommendation.card_id card)
            then Py.set manager_scores (fst item)
                        (CardRecommendation.match_score rec)
            else manager_scores)
         (ManagerResult.recommendations (snd item)) manager_scores)
    manager_results [].

(** One iteration of the loop of [create_final_recommendations]. *)
Definition final_recommendation
    (manager_results : Py.dict ManagerResult.t)
    (request : option RequestParsed) (card : CardRecommendation.t)
    : FinalRecommendation.t :=
  let overall_score := calculate_overall_score card manager_results in
  let best_features := identify_best_features card request in
  let reasoning := generate_reasoning card overall_score best_features in
  let manager_scores := collect_manager_scores card manager_results in
  {| FinalRecommendation.card_id := CardRecommendation.card_id card;
     FinalRecommendation.card_name := CardRecommendation.card_name card;
     FinalRecommendation.card_type := CardRecommendation.card_type card;
     FinalRecommendation.issuer := CardRecommendation.issuer card;
     FinalRecommendation.annual_fee := CardRecommendation.annual_fee card;
     FinalRecommendation.rewards_rate := CardRecommendation.rewards_rate card;
     FinalRecommendation.signup_bonus := CardRecommendation.signup_bonus card;
     FinalRecommendation.credit_score_required :=
       CardRecommendation.credit_score_required card;
     FinalRecommendation.pros := CardRecommendation.pros card;
     FinalRecommendation.cons := CardRecommendation.cons card;
     FinalRecommendation.overall_score := overall_score;
     FinalRecommendation.manager_scores := manager_scores;
     FinalRecommendation.reasoning := reasoning;
     FinalRecommendation.best_for := best_features |}.

(** [create_final_recommendations]: one entry per pooled card, then the
    sort by overall score, highest first. *)
Definition create_final_recommendations
    (all_cards : list CardRecommendation.t)
    (manager_results : Py.dict ManagerResult.t)
    (request : option RequestParsed)
    : list FinalRecommendation.t :=
  let final_recommendations :=
    map (final_recommendation manager_results request) all_cards in
  Py.sort_desc FinalRecommendation.overall_score final_recommendations.

(** The two decorations of the summary lines, byte for byte, and the
    newline. *)
Definition trophy : string :=
  string_of_list_ascii
    (map ascii_of_nat [195; 176; 197; 184; 226; 128; 160]%nat).
Definition bullet : string :=
  string_of_list_ascii
    (map ascii_of_nat [195; 162; 226; 130; 172; 194; 162]%nat).
Definition newline : string := String (ascii_of_nat 10) EmptyString.

(** [generate_summary_text]: naming the goals reads the request. *)
Definition generate_summary_text
    (final_recommendations : list FinalRecommendation.t)
    (request : option RequestParsed) : result string :=
  match final_recommendations with
  | [] => Ok "No suitable credit cards found based on your requirements."%string
  | top_card :: others =>
      match request with
      | None =>
          Raise (AttributeError "'NoneType' object has no attribute 'goals'")
      | Some request =>
          let summary_parts :=
            [ "Based on your goals of " ++ Py.join ", " (goals request)
              ++ ", I've analyzed "
              ++ Py.str_nat (List.length final_recommendations)
              ++ " credit cards.";
              "Here's my top recommendation:";
              trophy ++ " " ++ FinalRecommendation.card_name top_card
              ++ " by " ++ FinalRecommendation.issuer top_card;
              "   " ++ bullet ++ " "
              ++ FinalRecommendation.rewards_rate top_card;
              "   " ++ bullet ++ " Annual fee: S$"
              ++ repr_float (FinalRecommendation.annual_fee top_card);
              "   " ++ bullet ++ " Signup bonus: "
              ++ FinalRecommendation.signup_bonus top_card;
              "   " ++ bullet ++ " Best for: "
              ++ Py.join ", " (FinalRecommendation.best_for top_card);
              "   " ++ bullet ++ " Overall score: "
              ++ format_2f (FinalRecommendation.overall_score top_card)
              ++ "/1.0" ]%string in
          let summary_parts :=
            match others with
            | [] => summary_parts
            | _ :: _ =>
                summary_parts
                ++ [(newline ++ "I also found "
                     ++ Py.str_nat (List.length final_recommendations - 1)
                     ++ " other good options to consider.")%string]
            end in
          Ok (Py.join newline summary_parts)
      end
  end.

(** The [SummaryResult] of the two early returns of [execute]. *)
Definition empty_summary (text : string) : SummaryResult.t :=
  {| SummaryResult.total_cards_analyzed := 0;
     SummaryResult.final_recommendations := [];
     SummaryResult.top_recommendation := None;
     SummaryResult.summary_text := text;
     SummaryResult.confidence_score := 0.0 |}.

(** The body of the [try] block of [execute] after the two bookkeeping
    assignments: the [SummaryResult] stored in the state. *)
Definition execute_steps (state : GraphState) : result SummaryResult.t :=
  let manager_results := manager_results state in
  match manager_results with
  | [] =>
      Ok (empty_summary "No card manager results available for summarization.")
  | _ :: _ =>
      let all_cards := aggregate_manager_results manager_results in
      match all_cards with
      | [] =>
          Ok (empty_summary
                "No credit card recommendations found from managers.")
      | _ :: _ =>
          let final_recommendations :=
            create_final_recommendations all_cards manager_results
                                         (request state) in
          summary_text <-
            generate_summary_text final_recommendations (request state) ;;
          confidence_score <-
            match final_recommendations with
            | [] => Ok 0.0
            | _ :: _ =>
                let top_scores :=
                  map FinalRecommendation.overall_score
                      (firstn 3 final_recommendations) in
                Py.div (Py.sum top_scores) (Py.len top_scores)
            end ;;
          Ok {| SummaryResult.total_cards_analyzed := List.length all_cards;
                SummaryResult.final_recommendations := final_recommendations;
                SummaryResult.top_recommendation :=
                  hd_error final_recommendations;
                SummaryResult.summary_text := summary_text;
                SummaryResult.confidence_score := confidence_score |}
      end
  end.

(** [SummaryAgent.execute] *)
Definition execute (state : GraphState) : GraphState :=
  let state := set_current_node (Some agent_type) state in
  let state :=
    set_completed_nodes (completed_nodes state ++ [agent_type]) state in
  match execute_steps state with
  | Ok summary_result =>
      let state := set_final_recommendations (Some summary_result) state in
      set_next_nodes [] state
  | Raise e =>
      let error_info :=
        {| node := agent_type; error := str_exn e; type := None |} in
      let state := set_errors (errors state ++ [error_info]) state in
      set_next_nodes [] state
  end.
End SummaryAgent.
End SummaryAgent.

(* ================================================================== *)
(** ** Error / fallback stage (src/nodes/error_handler.py) *)
(* ================================================================== *)

Module ErrorHandlerNode.
Local Open Scope Q_scope.

Definition node_type : string := "error_handler".

(** [generate_user_friendly_message] *)
Definition generate_user_friendly_message (errors : list ErrorInfo) : string :=
  match errors with
  | [] => "No errors occurred during processing."
  | _ :: _ =>
      "We encountered some issues but your recommendations are still available below."
  end.

(** [generate_recovery_actions] *)
Definition generate_recovery_actions (errors : list ErrorInfo) : list string :=
  ["Review the recommendations below"; "Contact support if issues persist"]%string.

(** [generate_fallback_recommendations] *)
Definition generate_fallback_recommendations (request : RequestParsed)
    : list CardRecommendation.t :=
  [ {| CardRecommendation.card_id := "fallback_001";
       CardRecommendation.card_name := "Standard Rewards Card";
       CardRecommendation.card_type := "rewards";
       CardRecommendation.issuer := "Major Bank";
       CardRecommendation.annual_fee := 49.0;
       CardRecommendation.rewards_rate := "1% cashback on all purchases";
       CardRecommendation.signup_bonus := "$100 cashback";
       CardRecommendation.credit_score_required := "good";
       CardRecommendation.pros := ["Simple rewards"; "Moderate annual fee"]%string;
       CardRecommendation.cons := ["Basic benefits"; "No category bonuses"]%string;
       CardRecommendation.match_score := 0.6;
       CardRecommendation.reasoning := "Fallback recommendation" |} ].

(** [can_continue_execution] *)
Definition can_continue_execution (errors : list ErrorInfo) : bool := true.

(** The [try] block of [ErrorHandlerNode.execute] after the two state
    updates.  [GraphState] has no attribute [error_handling], so the guard
    [not hasattr(state, 'error_handling')] holds and [state.error_handling
    = {}] is an assignment to an undeclared field. *)
Definition execute_steps (state : GraphState) : result ErrorHandlingResult.t :=
  let errors := errors state in
  let user_friendly_message := generate_user_friendly_message errors in
  let recovery_actions := generate_recovery_actions errors in
  let can_continue := can_continue_execution errors in
  let fallback_recommendations :=
    match can_continue, request state with
    | true, Some request => generate_fallback_recommendations request
    | _, _ => []
    end in
  let error_handling_result :=
    {| ErrorHandlingResult.errors_handled := List.length errors;
       ErrorHandlingResult.user_friendly_message := user_friendly_message;
       ErrorHandlingResult.recovery_actions := recovery_actions;
       ErrorHandlingResult.can_continue := can_continue;
       ErrorHandlingResult.fallback_recommendations :=
         fallback_recommendations |} in
  bind (setattr_undeclared "error_handling")
       (fun _ => Ok error_handling_result).

(** [ErrorHandlerNode.execute]: the handler of the source appends a
    [critical] error record and empties [next_nodes]. *)
Definition execute (state : GraphState) : GraphState :=
  let state := set_current_node (Some node_type) state in
  let state :=
    set_completed_nodes (completed_nodes state ++ [node_type]) state in
  match execute_steps state with
  | Ok _ => set_next_nodes ["summary"%string] state
  | Raise e =>
      let error_info :=
        {| node := node_type;
           error := ("Error handler failed: " ++ str_exn e)%string;
           type := Some "critical"%string |} in
      let state := set_errors (errors state ++ [error_info]) state in
      set_next_nodes [] state
  end.
End ErrorHandlerNode.

(* ================================================================== *)
(** ** Extraction stage (src/nodes/extractor.py) *)
(* ================================================================== *)

(** What a node function does to the session state: it returns it, or it
    raises, leaving the mutations made so far on the state object. *)
Inductive NodeResult : Type :=
| Returned (state : GraphState)
| Raised (e : exn) (state : GraphState).

(** [_extract_structured_data] followed by [_validate_request]: driven by the
    text-understanding and policy collaborators on a non-empty text. *)
Class Extraction : Type := {
  extract_and_validate : string -> Consent -> string -> result RequestParsed
}.

Section Extractor.
Context `{Extraction}.

(** [extractor_node]: the handler records the error, names the error
    handler as next node and re-raises. *)
Definition extractor_node (state : GraphState) : NodeResult :=
  let state := set_current_node (Some "extractor"%string) state in
  let raw_text := user_query state in
  let consent := consent state in
  let locale := locale state in
  let steps :=
    match raw_text with
    | EmptyString => Raise (ValueError "No user query provided")
    | String _ _ => extract_and_validate raw_text consent locale
    end in
  match steps with
  | Ok validated_request =>
      let state := set_request (Some validated_request) state in
      let state :=
        set_telemetry (telemetry state ++ ["extractor.ok"%string]) state in
      let state :=
        set_completed_nodes (completed_nodes state ++ ["extractor"%string])
                            state in
      Returned (set_next_nodes ["router"%string] state)
  | Raise e =>
      let state :=
        set_errors
          (errors state
           ++ [{| node := "extractor"; error := str_exn e; type := None |}])
          state in
      Raised e (set_next_nodes ["error_handler"%string] state)
  end.
End Extractor.

(* ================================================================== *)
(** ** Routing stage and stage graph (src/graph/credit_card_graph.py) *)
(* ================================================================== *)

(** [_determine_manager_categories] *)
Definition _determine_manager_categories (request : RequestParsed) : list string :=
  let manager_categories := [] in
  let goals := goals request in
  let manager_categories :=
    if any_goal_in goals ["miles"; "travel"; "airline"; "hotel"]%string
    then manager_categories ++ ["travel_manager"%string]
    else manager_categories in
  let manager_categories :=
    if any_goal_in goals ["cashback"; "cash"; "rewards"; "money"]%string
    then manager_categories ++ ["cashback_manager"%string]
    else manager_categories in
  let manager_categories :=
    if any_goal_in goals ["business"; "corporate"; "expense"; "employee"]%string
    then manager_categories ++ ["business_manager"%string]
    else manager_categories in
  let manager_categories :=
    if any_goal_in goals ["student"; "building_credit"; "first"; "college"]%string
    then manager_categories ++ ["student_manager"%string]
    else manager_categories in
  match manager_categories with
  | [] => manager_categories ++ ["general_manager"%string]
  | _ :: _ => manager_categories
  end.

(** [router_node]; nothing in the [try] block raises. *)
Definition router_node (state : GraphState) : GraphState :=
  let state := set_current_node (Some "router"%string) state in
  let state :=
    set_completed_nodes (completed_nodes state ++ ["router"%string]) state in
  match request state with
  | None =>
      let state :=
        set_errors
          (errors state
           ++ [{| node := "router"; error := "No parsed request available";
                  type := None |}])
          state in
      set_next_nodes ["error_handler"%string] state
  | Some request =>
      let manager_categories := _determine_manager_categories request in
      let state := set_fanout_plan (Some manager_categories) state in
      match manager_categories with
      | _ :: _ => set_next_nodes manager_categories state
      | [] => set_next_nodes ["general_manager"%string] state
      end
  end.

(** langgraph's [END] sentinel. *)
Definition END : string := "__end__".

(** [_should_continue_to_router] *)
Definition _should_continue_to_router (state : GraphState) : string :=
  match errors state with
  | _ :: _ => "error_handler"
  | [] =>
      match request state with
      | Some _ => "router"
      | None => END
      end
  end.

(** [_should_continue_to_managers] *)
Definition _should_continue_to_managers (state : GraphState) : string :=
  match errors state with
  | _ :: _ => "error_handler"
  | [] =>
      match fanout_plan state with
      | Some (first :: _) => first
      | Some [] | None => "general_manager"
      end
  end.

(** [create_initial_state] *)
Definition create_initial_state (user_query : string) : GraphState :=
  {| user_query := user_query;
     locale := "en-SG";
     consent := {| personalization := true; data_sharing := false;
                   credit_pull := "none" |};
     request := None;
     fanout_plan := None;
     manager_results := [];
     final_recommendations := None;
     telemetry := [];
     errors := [];
     current_node := None;
     completed_nodes := [];
     next_nodes := [] |}.

(** The enrichment stages (src/nodes/support_agents.py) as far as the
    session state modelled here goes: each records itself, appends the error
    and warning records its collaborators give rise to, and names its
    successor. *)
Class Enrichment : Type := {
  online_search_errors : GraphState -> list ErrorInfo;
  policy_validation_errors : GraphState -> list ErrorInfo
}.

Module Graph.

(** The nodes added by [create_credit_card_graph]. *)
Inductive Node : Type :=
| extractor
| router
| travel_manager
| cashback_manager
| business_manager
| student_manager
| general_manager
| online_search
| policy_validation
| error_handler
| summary.

(** Where an edge leads: a node, or langgraph's [END]. *)
Inductive Target : Type :=
| Goto (n : Node)
| Finish.

(** The path maps of the two [add_conditional_edges] calls. *)
Definition extractor_path_map : Py.dict Target :=
  [ ("router", Goto router); ("error_handler", Goto error_handler);
    (END, Finish) ]%string.

Definition router_path_map : Py.dict Target :=
  [ ("travel_manager", Goto travel_manager);
    ("cashback_manager", Goto cashback_manager);
    ("business_manager", Goto business_manager);
    ("student_manager", Goto student_manager);
    ("general_manager", Goto general_manager);
    ("error_handler", Goto error_handler);
    (END, Finish) ]%string.

(** The edges of [create_credit_card_graph]: the successor of a node on the
    state it returned; [None] when a conditional edge returns a key that its
    path map does not hold. *)
Definition successor (n : Node) (state : GraphState) : option Target :=
  match n with
  | extractor => Py.get extractor_path_map (_should_continue_to_router state)
  | router => Py.get router_path_map (_should_continue_to_managers state)
  | travel_manager | cashback_manager | business_manager
  | student_manager | general_manager => Some (Goto online_search)
  | online_search => Some (Goto policy_validation)
  | policy_validation => Some (Goto summary)
  | error_handler => Some (Goto summary)
  | summary => Some Finish
  end.

(** The handler class behind a node, for the five handler nodes. *)
Definition handler_of (n : Node) : option Manager :=
  match n with
  | travel_manager => Some TravelManager
  | cashback_manager => Some CashbackManager
  | business_manager => Some BusinessManager
  | student_manager => Some StudentManager
  | general_manager => Some GeneralManager
  | _ => None
  end.

(** How a run of the compiled graph ends. *)
Inductive RunResult : Type :=
| Completed (state : GraphState)
| Aborted (at_node : Node) (e : exn) (state : GraphState)
| UnknownBranch (at_node : Node) (state : GraphState)
| RecursionLimit.

Section Run.
Context `{PyRepr} `{LLMTool} `{Extraction} `{Enrichment}.

(** [online_search_node] and [policy_validation_node] *)
Definition online_search_node (state : GraphState) : GraphState :=
  let state := set_current_node (Some "online_search"%string) state in
  let state :=
    set_completed_nodes (completed_nodes state ++ ["online_search"%string])
                        state in
  let state := set_errors (errors state ++ online_search_errors state) state in
  set_next_nodes ["policy_validation"%string] state.

Definition policy_validation_node (state : GraphState) : GraphState :=
  let state := set_current_node (Some "policy_validation"%string) state in
  let state :=
    set_completed_nodes
      (completed_nodes state ++ ["policy_validation"%string]) state in
  let state :=
    set_errors (errors state ++ policy_validation_errors state) state in
  set_next_nodes ["summary"%string] state.

(** [create_card_manager_node]: every handler node runs on the mock
    catalog. *)
Definition card_manager_node (manager_class : Manager) (state : GraphState)
    : GraphState :=
  execute (H1 := MockCatalogTool) manager_class state.

(** The function registered for each node by [add_node]. *)
Definition node_function (n : Node) (state : GraphState) : NodeResult :=
  match n with
  | extractor => extractor_node state
  | router => Returned (router_node state)
  | travel_manager => Returned (card_manager_node TravelManager state)
  | cashback_manager => Returned (card_manager_node CashbackManager state)
  | business_manager => Returned (card_manager_node BusinessManager state)
  | student_manager => Returned (card_manager_node StudentManager state)
  | general_manager => Returned (card_manager_node GeneralManager state)
  | online_search => Returned (online_search_node state)
  | policy_validation => Returned (policy_validation_node state)
  | error_handler => Returned (ErrorHandlerNode.execute state)
  | summary => Returned (SummaryAgent.execute state)
  end.

(** A run from node [n]: the nodes executed, in order, and how the run
    ends.  An exception leaving a node ends the run. *)
Fixpoint run (steps : nat) (n : Node) (state : GraphState)
    : list Node * RunResult :=
  match steps with
  | O => ([], RecursionLimit)
  | S steps =>
      match node_function n state with
      | Raised e state => ([n], Aborted n e state)
      | Returned state =>
          match successor n state with
          | None => ([n], UnknownBranch n state)
          | Some Finish => ([n], Completed state)
          | Some (Goto n') =>
              let (trace, outcome) := run steps n' state in
              (n :: trace, outcome)
          end
      end
  end.

(** [graph.ainvoke(initial_state)]: entry point [extractor], langgraph's
    default recursion limit. *)
Definition ainvoke (initial_state : GraphState) : list Node * RunResult :=
  run 25 extractor initial_state.
End Run.

End Graph.

(* ================================================================== *)
(** ** The specification's formulas *)
(* ================================================================== *)

(** Non-increasing order of a list by a score. *)
Definition sorted_desc {A} (key : A -> Q) (l : list A) : Prop :=
  StronglySorted (fun a b => (key b <= key a)%Q) l.

(** Same score, as a boolean test. *)
Definition has_score {A} (key : A -> Q) (q : Q) (a : A) : bool :=
  Qeq_bool (key a) q.

Module Spec.
Section Spec.
Context `{PyRepr}.
Local Open Scope Q_scope.

(** The fixed routing table of the specification: goal-tag group and the
    category it selects, in table order. *)
Definition routing_table : list (list string * string) :=
  [ (["miles"; "travel"; "airline"; "hotel"], "travel_manager");
    (["cashback"; "cash"; "rewards"; "money"], "cashback_manager");
    (["business"; "corporate"; "expense"; "employee"], "business_manager");
    (["student"; "building_credit"; "first"; "college"], "student_manager")
  ]%string.

(** A goal list matches a group when one of its tags belongs to it. *)
Definition matches_group (goals group : list string) : bool :=
  existsb (fun goal => Py.mem goal group) goals.

(** The fan-out plan in the specification's words: the categories of the
    matching groups in table order, or the single general category. *)
Definition fanout_plan_of (goals : list string) : list string :=
  match map snd (filter (fun row => matches_group goals (fst row))
                        routing_table) with
  | [] => ["general_manager"%string]
  | plan => plan
  end.

(** A goal tag overlaps a card when its lower-cased text occurs in the
    card's lower-cased text. *)
Definition goal_overlaps (card : CardDict.t) (goal : string) : bool :=
  Py.contains (Py.lower goal) (Py.lower (str_card card)).

(** Goal-tag overlap, weight 0.4, normalised by the number of goals. *)
Definition goal_term (card : CardDict.t) (request : RequestParsed) : Q :=
  match goals request with
  | [] => 0
  | _ :: _ =>
      0.4 * inject_Z (Z.of_nat (count_occ bool_dec
                                  (map (goal_overlaps card) (goals request))
                                  true))
      / inject_Z (Z.of_nat (List.length (goals request)))
  end.

(** Risk-tolerance / fee-band fit. *)
Definition fee_band_fits (card : CardDict.t) (request : RequestParsed) : bool :=
  let fee := CardDict.annual_fee card in
  let risk := risk_tolerance request in
  (String.eqb risk "conservative" && Qle_bool fee 50)
  || (String.eqb risk "standard" && Qle_bool fee 150)
  || String.eqb risk "aggressive".

Definition risk_term (card : CardDict.t) (request : RequestParsed) : Q :=
  if fee_band_fits card request then 0.3 else 0.

(** A signup bonus is present when the card offers one: its
    [signup_bonus] text is not empty. *)
Definition signup_bonus_present (card : CardDict.t) : bool :=
  negb (String.eqb (CardDict.signup_bonus card) "").

Definition horizon_term (card : CardDict.t) (request : RequestParsed) : Q :=
  if String.eqb (time_horizon request) "12m" && signup_bonus_present card
  then 0.2 else 0.

(** Flexibility bonus for an empty constraint map. *)
Definition flexibility_term (request : RequestParsed) : Q :=
  match constraints request with
  | [] => 0.1
  | _ :: _ => 0
  end.

Definition weighted_sum (card : CardDict.t) (request : RequestParsed) : Q :=
  goal_term card request + risk_term card request
  + horizon_term card request + flexibility_term request.

(** The travel handler's own bonus terms. *)
Definition travel_bonus (card : CardDict.t) : Q :=
  let card_text := Py.lower (str_card card) in
  (if Py.contains "miles" card_text || Py.contains "airline" card_text
      || Py.contains "travel" card_text then 0.2 else 0)
  + (if Py.contains "no foreign transaction fee" card_text then 0.1 else 0).

(** Sum and mean in the specification's sense. *)
Definition total (scores : list Q) : Q := fold_right Qplus 0 scores.

Definition mean_of_top3 (scores : list Q) : Q :=
  match firstn 3 scores with
  | [] => 0
  | top => total top / inject_Z (Z.of_nat (List.length top))
  end.

(** All recommendation entries of a category-result map. *)
Definition all_entries (manager_results : Py.dict ManagerResult.t)
    : list CardRecommendation.t :=
  flat_map (fun item => ManagerResult.recommendations (snd item))
           manager_results.

(** The number of entries, over all categories, with a given identifier. *)
Definition entries_with_id
    (id : string) (manager_results : Py.dict ManagerResult.t) : nat :=
  List.length
    (filter (fun rec => String.eqb (CardRecommendation.card_id rec) id)
            (all_entries manager_results)).

(** The number of categories other than [own] whose list holds a candidate
    with a given identifier. *)
Definition other_categories_with_id
    (own id : string) (manager_results : Py.dict ManagerResult.t) : nat :=
  List.length
    (filter
       (fun item =>
          negb (String.eqb (fst item) own)
          && existsb (fun rec => String.eqb (CardRecommendation.card_id rec) id)
                     (ManagerResult.recommendations (snd item)))
       manager_results).

(** The aggregate score as the specification words it: the candidate's own
    score plus 0.1 for every additional category, capped at 1. *)
Definition aggregate_score_additional
    (own : string) (card : CardRecommendation.t)
    (manager_results : Py.dict ManagerResult.t) : Q :=
  Qmin (CardRecommendation.match_score card
        + 0.1 * inject_Z (Z.of_nat
                  (other_categories_with_id
                     own (CardRecommendation.card_id card) manager_results)))
       1.

(** The sum of the recommendation-list lengths over all categories. *)
Definition pool_size (manager_results : Py.dict ManagerResult.t) : nat :=
  fold_right
    (fun item n => (List.length (ManagerResult.recommendations (snd item)) + n)%nat)
    0%nat manager_results.

(** The number of final entries with a given identifier. *)
Definition final_entries_with_id
    (id : string) (final : list FinalRecommendation.t) : nat :=
  List.length
    (filter (fun f => String.eqb (FinalRecommendation.card_id f) id) final).
End Spec.
End Spec.

(* ================================================================== *)
(** ** The match score in closed form *)
(* ================================================================== *)

(** The terms [_calculate_match_score] adds up, read off the source: the
    goal, fee-band and flexibility terms are those of the specification;
    the time-horizon term uses the test of the source, which looks for the
    text [signup_bonus] in [str(card)]. *)
Module Computed.
Section Computed.
Context `{PyRepr}.
Local Open Scope Q_scope.

Definition signup_bonus_in_text (card : CardDict.t) : bool :=
  Py.contains "signup_bonus" (str_card card).

Definition horizon_term (card : CardDict.t) (request : RequestParsed) : Q :=
  if String.eqb (time_horizon request) "12m" && signup_bonus_in_text card
  then 0.2 else 0.

Definition weighted_sum (card : CardDict.t) (request : RequestParsed) : Q :=
  Spec.goal_term card request + Spec.risk_term card request
  + horizon_term card request + Spec.flexibility_term request.
End Computed.
End Computed.

(* ================================================================== *)
(** ** Worked inputs *)
(* ================================================================== *)

Module Demo.
Local Open Scope Q_scope.

(** A plain rendering used to run the examples: single-quoted strings and
    numbers printed with two decimals. *)
Definition two_decimals (q : Q) : string :=
  let cents := (Qnum q * 100 / Zpos (Qden q))%Z in
  let frac := Z.to_nat (cents mod 100) in
  (Py.str_nat (Z.to_nat (cents / 100)) ++ "."
   ++ (if (frac <? 10)%nat then "0" else "") ++ Py.str_nat frac)%string.

Definition repr : PyRepr :=
  {| repr_str := fun s => ("'" ++ s ++ "'")%string;
     repr_float := two_decimals;
     format_2f := two_decimals |}.

(** A text-understanding collaborator that always fails, so that every
    handler takes its static fallback analysis. *)
Definition failing_llm : LLMTool :=
  {| nlu_extract := fun _ => Raise (ValueError "collaborator unavailable") |}.

(** A text-understanding collaborator that answers with something that is
    not a dict (a JSON array, say). *)
Definition array_llm : LLMTool :=
  {| nlu_extract := fun _ => Ok AnalysisOther |}.

(** An extraction collaborator that yields the minimal valid request. *)
Definition minimal_request : RequestParsed :=
  {| intent := "recommend_card"; constraints := []; goals := ["rewards"%string];
     priority := []; spend_focus := []; jurisdiction := "SG";
     risk_tolerance := "standard"; must_have := []; nice_to_have := [];
     time_horizon := "12m" |}.

Definition minimal_extraction : Extraction :=
  {| extract_and_validate := fun _ _ _ => Ok minimal_request |}.

(** Enrichment stages that record nothing. *)
Definition quiet_enrichment : Enrichment :=
  {| online_search_errors := fun _ => [];
     policy_validation_errors := fun _ => [] |}.

(** Scenario C: the request with goals [miles] and [cashback], and the
    state the extraction stage hands to the router. *)
Definition scenario_c_request : RequestParsed :=
  {| intent := "recommend_card"; constraints := [];
     goals := ["miles"; "cashback"]%string;
     priority := []; spend_focus := []; jurisdiction := "SG";
     risk_tolerance := "standard"; must_have := []; nice_to_have := [];
     time_horizon := "12m" |}.

Definition scenario_c_state : GraphState :=
  set_next_nodes ["router"%string]
    (set_completed_nodes ["extractor"%string]
       (set_telemetry ["extractor.ok"%string]
          (set_request (Some scenario_c_request)
             (set_current_node (Some "extractor"%string)
                (create_initial_state "miles and cashback please"))))).

(** A request without goals. *)
Definition no_goal_request : RequestParsed :=
  {| intent := "recommend_card"; constraints := []; goals := [];
     priority := []; spend_focus := []; jurisdiction := "SG";
     risk_tolerance := "standard"; must_have := []; nice_to_have := [];
     time_horizon := "12m" |}.

(** A recommendation with a given identifier, category and score. *)
Definition candidate (id kind : string) (score : Q) : CardRecommendation.t :=
  {| CardRecommendation.card_id := id;
     CardRecommendation.card_name := "Card";
     CardRecommendation.card_type := kind;
     CardRecommendation.issuer := "Bank";
     CardRecommendation.annual_fee := 0;
     CardRecommendation.rewards_rate := "1 point per dollar";
     CardRecommendation.signup_bonus := "none";
     CardRecommendation.credit_score_required := "good";
     CardRecommendation.pros := [];
     CardRecommendation.cons := [];
     CardRecommendation.match_score := score;
     CardRecommendation.reasoning := "Basic match, may not be optimal" |}.

Definition category_result (name : string) (recs : list CardRecommendation.t)
    : ManagerResult.t :=
  {| ManagerResult.manager_type := name;
     ManagerResult.recommendations := recs;
     ManagerResult.total_cards_found := List.length recs;
     ManagerResult.best_match := hd_error recs;
     ManagerResult.reasoning := "Found cards" |}.

(** A catalog record of a card that offers no signup bonus. *)
Definition no_bonus_card : CardDict.t :=
  {| CardDict.card_id := "plain_001";
     CardDict.card_name := "Plain Card";
     CardDict.card_type := "general";
     CardDict.issuer := "Bank";
     CardDict.annual_fee := 500;
     CardDict.rewards_rate := "none";
     CardDict.signup_bonus := "";
     CardDict.credit_score_required := "good";
     CardDict.pros := [];
     CardDict.cons := [] |}.

(** One category recommending one card with score 0.5. *)
Definition single_category : Py.dict ManagerResult.t :=
  [ ("travel_manager"%string,
     category_result "travel_manager" [candidate "card_a" "travel" 0.5]) ].

(** Two categories recommending the same card. *)
Definition shared_card : Py.dict ManagerResult.t :=
  [ ("travel_manager"%string,
     category_result "travel_manager" [candidate "card_a" "travel" 0.5]);
    ("cashback_manager"%string,
     category_result "cashback_manager" [candidate "card_a" "cashback" 0.4]) ].

(** The state the aggregation stage receives when both handlers of
    scenario C have recommended the same card. *)
Definition shared_card_state : GraphState :=
  set_manager_results shared_card scenario_c_state.
End Demo.

(* ================================================================== *)
(** ** Extraction helpers (src/nodes/extractor.py) *)
(* ================================================================== *)

(** The dict handed from the text-understanding collaborator to
    [_validate_request]: the keys of the extraction schema and
    ["confidence"], each present or missing, with values of the schema's
    types.  Keys outside the schema are not kept (the request model ignores
    them). *)
Record ParsedData : Type := {
  pd_intent : option string;
  pd_constraints : option (Py.dict Q);
  pd_goals : option (list string);
  pd_priority : option (list string);
  pd_spend_focus : option (Py.dict Q);
  pd_jurisdiction : option string;
  pd_risk_tolerance : option string;
  pd_must_have : option (list string);
  pd_nice_to_have : option (list string);
  pd_time_horizon : option string;
  pd_confidence : option Q
}.

(** [LLMTool.nlu_extract] on the user text and the extraction schema. *)
Class LLMExtractor : Type := {
  nlu_extract_request : string -> result ParsedData
}.

(** [locale.split("-")[-1]]: the text after the last hyphen, scanning with
    the segment read so far. *)
Fixpoint last_segment_from (segment s : string) : string :=
  match s with
  | EmptyString => segment
  | String c t =>
      if Ascii.eqb c "-" then last_segment_from EmptyString t
      else last_segment_from (segment ++ String c EmptyString) t
  end.

Definition last_segment (s : string) : string :=
  last_segment_from EmptyString s.

(** [_parse_jurisdiction_from_locale] *)
Definition _parse_jurisdiction_from_locale (locale : string) : string :=
  match locale with
  | EmptyString => "SG"
  | String _ _ =>
      if Py.contains "-" locale then last_segment locale
      else if (String.length locale =? 2)%nat then locale
      else if (2 <? String.length locale)%nat then
        if prefix "en" locale
        then substring 2 (String.length locale - 2) locale
        else locale
      else "SG"
  end.

(** [any(word in text for word in words)] *)
Definition any_word_in (text : string) (words : list string) : bool :=
  existsb (fun word => Py.contains word text) words.

(** [_fallback_parsing] *)
Definition _fallback_parsing (text locale : string) : ParsedData :=
  let text_lower := Py.lower text in
  let goals := [] in
  let goals :=
    if any_word_in text_lower ["miles"; "travel"; "airline"]
    then goals ++ ["miles"; "travel"] else goals in
  let goals :=
    if any_word_in text_lower ["cashback"; "cash back"; "money"]
    then goals ++ ["cashback"] else goals in
  let goals :=
    if any_word_in text_lower ["rewards"; "points"]
    then goals ++ ["rewards"] else goals in
  let constraints := [] in
  let constraints :=
    if Py.contains "no fee" text_lower || Py.contains "no annual fee" text_lower
    then Py.set constraints "annual_fee_max" 0%Q else constraints in
  let jurisdiction := _parse_jurisdiction_from_locale locale in
  {| pd_intent := Some "recommend_card";
     pd_constraints := Some constraints;
     pd_goals := Some (match goals with [] => ["rewards"] | _ :: _ => goals end);
     pd_priority := None;
     pd_spend_focus := None;
     pd_jurisdiction := Some jurisdiction;
     pd_risk_tolerance := Some "standard";
     pd_must_have := None;
     pd_nice_to_have := None;
     pd_time_horizon := Some "12m";
     pd_confidence := Some 0.5%Q |}.

(** [parsed_data["confidence"] = v] and [parsed_data["jurisdiction"] = v] *)
Definition set_pd_confidence (v : Q) (pd : ParsedData) : ParsedData :=
  {| pd_intent := pd_intent pd;
     pd_constraints := pd_constraints pd;
     pd_goals := pd_goals pd;
     pd_priority := pd_priority pd;
     pd_spend_focus := pd_spend_focus pd;
     pd_jurisdiction := pd_jurisdiction pd;
     pd_risk_tolerance := pd_risk_tolerance pd;
     pd_must_have := pd_must_have pd;
     pd_nice_to_have := pd_nice_to_have pd;
     pd_time_horizon := pd_time_horizon pd;
     pd_confidence := Some v |}.

Definition set_pd_jurisdiction (v : string) (pd : ParsedData) : ParsedData :=
  {| pd_intent := pd_intent pd;
     pd_constraints := pd_constraints pd;
     pd_goals := pd_goals pd;
     pd_priority := pd_priority pd;
     pd_spend_focus := pd_spend_focus pd;
     pd_jurisdiction := Some v;
     pd_risk_tolerance := pd_risk_tolerance pd;
     pd_must_have := pd_must_have pd;
     pd_nice_to_have := pd_nice_to_have pd;
     pd_time_horizon := pd_time_horizon pd;
     pd_confidence := pd_confidence pd |}.

(** [parsed_data.pop("spend_focus", None); parsed_data.pop("priority", None)] *)
Definition pop_personalization (pd : ParsedData) : ParsedData :=
  {| pd_intent := pd_intent pd;
     pd_constraints := pd_constraints pd;
     pd_goals := pd_goals pd;
     pd_priority := None;
     pd_spend_focus := None;
     pd_jurisdiction := pd_jurisdiction pd;
     pd_risk_tolerance := pd_risk_tolerance pd;
     pd_must_have := pd_must_have pd;
     pd_nice_to_have := pd_nice_to_have pd;
     pd_time_horizon := pd_time_horizon pd;
     pd_confidence := pd_confidence pd |}.

Section ExtractionSteps.
Context `{LLMExtractor}.

(** [_extract_structured_data]: a collaborator failure falls back to keyword
    parsing; a reply without a confidence gets 0.8. *)
Definition _extract_structured_data
    (text : string) (consent : Consent) (locale : string) : ParsedData :=
  match nlu_extract_request text with
  | Ok parsed_data =>
      match pd_confidence parsed_data with
      | None => set_pd_confidence 0.8%Q parsed_data
      | Some _ => parsed_data
      end
  | Raise _ => _fallback_parsing text locale
  end.

(** [_validate_request] (the policy tool argument is not used by the
    source).  Building the request model fails exactly when the required
    [intent] is missing; the handler then returns the minimal request. *)
Definition _validate_request
    (parsed_data : ParsedData) (consent : Consent) (locale : string)
    : RequestParsed :=
  let parsed_data :=
    if negb (personalization consent) then pop_personalization parsed_data
    else parsed_data in
  let expected_jurisdiction := _parse_jurisdiction_from_locale locale in
  let parsed_data :=
    match pd_jurisdiction parsed_data with
    | Some j =>
        if String.eqb j expected_jurisdiction then parsed_data
        else set_pd_jurisdiction expected_jurisdiction parsed_data
    | None => set_pd_jurisdiction expected_jurisdiction parsed_data
    end in
  let default {A} (field : option A) (default_value : A) : A :=
    match field with
    | Some v => v
    | None => default_value
    end in
  match pd_intent parsed_data with
  | Some intent =>
      {| intent := intent;
         constraints := default (pd_constraints parsed_data) [];
         goals := default (pd_goals parsed_data) ["rewards"];
         priority := default (pd_priority parsed_data) [];
         spend_focus := default (pd_spend_focus parsed_data) [];
         jurisdiction :=
           default (pd_jurisdiction parsed_data) expected_jurisdiction;
         risk_tolerance := default (pd_risk_tolerance parsed_data) "standard";
         must_have := default (pd_must_have parsed_data) [];
         nice_to_have := default (pd_nice_to_have parsed_data) [];
         time_horizon := default (pd_time_horizon parsed_data) "12m" |}
  | None =>
      {| intent := "recommend_card";
         constraints := [];
         goals := ["rewards"];
         priority := [];
         spend_focus := [];
         jurisdiction := expected_jurisdiction;
         risk_tolerance := "standard";
         must_have := [];
         nice_to_have := [];
         time_horizon := "12m" |}
  end.

(** The two steps of [extractor_node] on a non-empty text, as the
    extraction collaborator of the node. *)
Definition source_extraction : Extraction :=
  {| extract_and_validate :=
       fun text consent locale =>
         Ok (_validate_request (_extract_structured_data text consent locale)
                               consent locale) |}.
End ExtractionSteps.


(* ================================================================== *)
(** ** Further formulas used in the statements *)
(* ================================================================== *)

Module Bonus.
Section Bonus.
Context `{PyRepr}.
Local Open Scope Q_scope.

(** The cashback handler's own terms. *)
Definition cashback (card : CardDict.t) : Q :=
  (if Py.contains "cashback" (Py.lower (str_card card)) then 0.2 else 0)
  + (if Py.contains "%" (CardDict.rewards_rate card) then 0.1 else 0).

(** The student handler's own terms. *)
Definition student (card : CardDict.t) : Q :=
  (if Py.contains "student" (Py.lower (str_card card))
      || Py.contains "first" (Py.lower (str_card card)) then 0.3 else 0)
  + (if Qle_bool (CardDict.annual_fee card) 0 then 0.2 else 0).

(** The bonus of each handler class; the base, business and general
    handlers add nothing. *)
Definition of_handler (self : Manager) (card : CardDict.t) : Q :=
  match self with
  | TravelManager => Spec.travel_bonus card
  | CashbackManager => cashback card
  | StudentManager => student card
  | BaseCardManager | BusinessManager | GeneralManager => 0
  end.
End Bonus.
End Bonus.

(** The search criteria a handler builds from a request. *)
Definition criteria_of (r : RequestParsed) : SearchCriteria :=
  {| criteria_goals := goals r;
     criteria_risk_tolerance := risk_tolerance r;
     criteria_constraints := constraints r;
     criteria_jurisdiction := jurisdiction r |}.

(** Two requests that differ at most in what scoring and the mock catalog
    never read: the content of a non-empty constraint map, the jurisdiction,
    the intent, priorities, spend focus and the must-have and nice-to-have
    lists. *)
Definition same_for_ranking (r1 r2 : RequestParsed) : Prop :=
  goals r1 = goals r2
  /\ risk_tolerance r1 = risk_tolerance r2
  /\ time_horizon r1 = time_horizon r2
  /\ (constraints r1 = [] <-> constraints r2 = []).


(** The position of a stage in the pipeline: extraction, routing, the
    category handlers and the error / fallback stage side by side, the two
    enrichment stages, aggregation. *)
Definition stage_rank (n : Graph.Node) : nat :=
  match n with
  | Graph.extractor => 0
  | Graph.router => 1
  | Graph.travel_manager | Graph.cashback_manager | Graph.business_manager
  | Graph.student_manager | Graph.general_manager | Graph.error_handler => 2
  | Graph.online_search => 3
  | Graph.policy_validation => 4
  | Graph.summary => 5
  end.

(** The state a run ends in, if any. *)
Definition final_state (outcome : Graph.RunResult) : option GraphState :=
  match outcome with
  | Graph.Completed state => Some state
  | Graph.Aborted _ _ state => Some state
  | Graph.UnknownBranch _ state => Some state
  | Graph.RecursionLimit => None
  end.

(** [l'] extends [l]: nothing of [l] is removed or reordered. *)
Definition extends {A} (l l' : list A) : Prop :=
  exists added, l' = l ++ added.

(** The name under which [create_credit_card_graph] registers a node with
    [add_node]. *)
Definition node_name (n : Graph.Node) : string :=
  match n with
  | Graph.extractor => "extractor"
  | Graph.router => "router"
  | Graph.travel_manager => "travel_manager"
  | Graph.cashback_manager => "cashback_manager"
  | Graph.business_manager => "business_manager"
  | Graph.student_manager => "student_manager"
  | Graph.general_manager => "general_manager"
  | Graph.online_search => "online_search"
  | Graph.policy_validation => "policy_validation"
  | Graph.error_handler => "error_handler"
  | Graph.summary => "summary"
  end.

(** What every stage leaves alone: the inputs of the session. *)
Definition same_inputs (state state' : GraphState) : Prop :=
  user_query state' = user_query state
  /\ locale state' = locale state
  /\ consent state' = consent state.


(* ================================================================== *)
(** ** Further worked inputs *)
(* ================================================================== *)

Module Sample.
Local Open Scope Q_scope.

(** A request for miles with an annual-fee cap. *)
Definition capped_request (cap : Q) : RequestParsed :=
  {| intent := "recommend_card";
     constraints := [("annual_fee_max"%string, cap)];
     goals := ["miles"%string];
     priority := []; spend_focus := []; jurisdiction := "SG";
     risk_tolerance := "standard"; must_have := []; nice_to_have := [];
     time_horizon := "12m" |}.

(** A catalog collaborator that is down. *)
Definition failing_catalog : CatalogTool :=
  {| search_cards := fun _ => Raise (ValueError "catalog unavailable") |}.

(** A text-understanding collaborator of the extraction stage that is
    down, so that the stage falls back on keyword parsing. *)
Definition failing_extractor : LLMExtractor :=
  {| nlu_extract_request :=
       fun _ => Raise (ValueError "collaborator unavailable") |}.

(** The first final entry of the one-category result map. *)
Definition single_entry : FinalRecommendation.t :=
  SummaryAgent.final_recommendation (H := Demo.repr) Demo.single_category None
    (Demo.candidate "card_a" "travel" 0.5).
End Sample.

(* ================================================================== *)
(** ** Facts about the Python built-ins *)
(* ================================================================== *)

Section SortFacts.
Context {A : Type} (key : A -> Q).

Lemma insert_desc_perm (x : A) (l : list A) :
  Permutation (Py.insert_desc key x l) (x :: l).
Proof.
  induction l as [|y t IH]; simpl.
  - apply Permutation_refl.
  - destruct (Qle_bool (key y) (key x)).
    + apply Permutation_refl.
    + eapply Permutation_trans.
      * apply perm_skip, IH.
      * apply perm_swap.
Qed.

Lemma sort_desc_perm (l : list A) : Permutation (Py.sort_desc key l) l.
Proof.
  induction l as [|x t IH]; simpl.
  - constructor.
  - eapply Permutation_trans; [apply insert_desc_perm|].
    now apply perm_skip.
Qed.

Lemma sort_desc_length (l : list A) :
  List.length (Py.sort_desc key l) = List.length l.
Proof. apply Permutation_length, sort_desc_perm. Qed.

Lemma insert_desc_sorted (x : A) (l : list A) :
  sorted_desc key l -> sorted_desc key (Py.insert_desc key x l).
Proof.
  unfold sorted_desc.
  induction l as [|y t IH]; simpl; intros Hs.
  - constructor; constructor.
  - destruct (Qle_bool (key y) (key x)) eqn:Hyx.
    + apply Qle_bool_iff in Hyx.
      inversion Hs as [|? ? Ht Hall]; subst.
      constructor; [assumption|].
      constructor; [assumption|].
      eapply Forall_impl; [|exact Hall].
      intros z Hz; simpl in *.
      eapply Qle_trans; eassumption.
    + assert (Hlt : (key x < key y)%Q).
      { apply Qnot_le_lt. intro Hle.
        apply Qle_bool_iff in Hle. congruence. }
      inversion Hs as [|? ? Ht Hall]; subst.
      constructor; [now apply IH|].
      eapply Permutation_Forall.
      * apply Permutation_sym, insert_desc_perm.
      * constructor; [now apply Qlt_le_weak | assumption].
Qed.

Lemma sort_desc_sorted (l : list A) : sorted_desc key (Py.sort_desc key l).
Proof.
  induction l as [|x t IH]; simpl.
  - constructor.
  - now apply insert_desc_sorted.
Qed.

(** Stability: the elements of any one score appear in their original
    order. *)
Lemma insert_desc_stable (q : Q) (x : A) (l : list A) :
  filter (has_score key q) (Py.insert_desc key x l)
  = filter (has_score key q) (x :: l).
Proof.
  induction l as [|y t IH]; [reflexivity|].
  simpl Py.insert_desc.
  destruct (Qle_bool (key y) (key x)) eqn:Hyx; [reflexivity|].
  assert (Hlt : (key x < key y)%Q).
  { apply Qnot_le_lt. intro Hle. apply Qle_bool_iff in Hle. congruence. }
  change (filter (has_score key q) (y :: Py.insert_desc key x t))
    with (if has_score key q y
          then y :: filter (has_score key q) (Py.insert_desc key x t)
          else filter (has_score key q) (Py.insert_desc key x t)).
  rewrite IH. simpl.
  destruct (has_score key q y) eqn:Hy; [|reflexivity].
  destruct (has_score key q x) eqn:Hx; [|reflexivity].
  unfold has_score in Hy, Hx.
  apply Qeq_bool_iff in Hy. apply Qeq_bool_iff in Hx.
  exfalso. rewrite Hy, Hx in Hlt. now apply Qlt_irrefl in Hlt.
Qed.

Lemma sort_desc_stable (q : Q) (l : list A) :
  filter (has_score key q) (Py.sort_desc key l)
  = filter (has_score key q) l.
Proof.
  induction l as [|x t IH]; [reflexivity|].
  simpl Py.sort_desc. rewrite insert_desc_stable.
  simpl. now rewrite IH.
Qed.

Lemma sorted_desc_firstn (n : nat) (l : list A) :
  sorted_desc key l -> sorted_desc key (firstn n l).
Proof.
  unfold sorted_desc. revert l.
  induction n as [|n IH]; intros [|x t] Hs; simpl; try constructor.
  - inversion Hs; subst. now apply IH.
  - inversion Hs as [|? ? Ht Hall]; subst.
    rewrite <- (firstn_skipn n t) in Hall.
    now apply Forall_app in Hall.
Qed.

Lemma sorted_desc_split (n : nat) (l : list A) :
  sorted_desc key l ->
  forall kept dropped,
    In kept (firstn n l) -> In dropped (skipn n l) ->
    (key dropped <= key kept)%Q.
Proof.
  unfold sorted_desc. revert l.
  induction n as [|n IH]; intros [|x t] Hs kept dropped Hk Hd;
    simpl in *; try contradiction.
  inversion Hs as [|? ? Ht Hall]; subst.
  destruct Hk as [<-|Hk].
  - rewrite Forall_forall in Hall. apply Hall.
    rewrite <- (firstn_skipn n t). apply in_or_app. now right.
  - now apply (IH t Ht).
Qed.
End SortFacts.

Lemma filter_firstn_prefix {A} (p : A -> bool) (n : nat) (l : list A) :
  filter p l = filter p (firstn n l) ++ filter p (skipn n l).
Proof. now rewrite <- filter_app, firstn_skipn. Qed.

Lemma mapM_Forall2 {A B} (f : A -> result B) (l : list A) (out : list B) :
  mapM f l = Ok out -> Forall2 (fun a b => f a = Ok b) l out.
Proof.
  revert out. induction l as [|a t IH]; simpl; intros out Hm.
  - injection Hm as <-. constructor.
  - destruct (f a) as [b|e] eqn:Hfa; simpl in Hm; [|discriminate].
    destruct (mapM f t) as [bs|e] eqn:Hft; simpl in Hm; [|discriminate].
    injection Hm as <-. constructor; [assumption | now apply IH].
Qed.

Lemma mapM_total {A B} (f : A -> result B) (l : list A) :
  (forall a, exists b, f a = Ok b) -> exists out, mapM f l = Ok out.
Proof.
  intros Hf. induction l as [|a t [bs Hbs]]; simpl.
  - now exists [].
  - destruct (Hf a) as [b Hb]. rewrite Hb, Hbs. simpl. now eexists.
Qed.

(* ================================================================== *)
(** ** Scoring: the weighted sum, its bounds and totality *)
(* ================================================================== *)

Section ScoringFacts.
Context `{PyRepr}.
Local Open Scope Q_scope.

Lemma py_min_cap (a b : Q) : a == b -> b <= 1 -> Py.min a 1 == b.
Proof.
  intros Hab Hb. unfold Py.min.
  destruct (Qle_bool a 1) eqn:Ha; [assumption|].
  exfalso. assert (Hle : a <= 1) by (rewrite Hab; assumption).
  apply Qle_bool_iff in Hle. congruence.
Qed.

Lemma py_min_Qmin (a b : Q) : Py.min a b == Qmin a b.
Proof.
  unfold Py.min. destruct (Qle_bool a b) eqn:Hab.
  - apply Qle_bool_iff in Hab. symmetry. now apply Q.min_l.
  - symmetry. apply Q.min_r. apply Qlt_le_weak, Qnot_le_lt.
    intro Hle. apply Qle_bool_iff in Hle. congruence.
Qed.

Lemma py_min_le_cap (a b : Q) : Py.min a b <= b.
Proof. rewrite py_min_Qmin. apply Q.le_min_r. Qed.

Lemma py_len_cons_nonzero {A} (x : A) (l : list A) :
  Qeq_bool (Py.len (x :: l)) 0 = false.
Proof.
  destruct (Qeq_bool (Py.len (x :: l)) 0) eqn:E; [|reflexivity].
  apply Qeq_bool_iff in E. unfold Py.len, Qeq in E. simpl in E. lia.
Qed.

Lemma filter_length_count {A} (f : A -> bool) (l : list A) :
  List.length (filter f l) = count_occ bool_dec (map f l) true.
Proof.
  induction l as [|a t IH]; [reflexivity|].
  simpl. destruct (f a); simpl.
  - destruct (bool_dec true true) as [_|Hne]; [|congruence].
    now f_equal.
  - destruct (bool_dec false true) as [Heq|_]; [discriminate|].
    exact IH.
Qed.

(** The generator expression of the source counts what the specification
    counts. *)
Lemma goal_matches_count (card : CardDict.t) (request : RequestParsed) :
  goal_matches card request
  = count_occ bool_dec (map (Spec.goal_overlaps card) (goals request)) true.
Proof. apply filter_length_count. Qed.

Lemma goal_matches_le (card : CardDict.t) (request : RequestParsed) :
  (goal_matches card request <= List.length (goals request))%nat.
Proof. apply filter_length_le. Qed.

Lemma goal_term_bounds (card : CardDict.t) (request : RequestParsed) :
  0 <= Spec.goal_term card request <= 0.4.
Proof.
  unfold Spec.goal_term. rewrite <- goal_matches_count.
  pose proof (goal_matches_le card request) as Hle.
  destruct (goals request) as [|g t] eqn:Hg; [split; discriminate|].
  set (m := goal_matches card request) in *.
  set (n := List.length (g :: t)) in *.
  assert (Hn : 0 < inject_Z (Z.of_nat n)).
  { unfold Qlt. simpl. subst n. simpl List.length. lia. }
  assert (Hm : 0 <= inject_Z (Z.of_nat m)).
  { unfold Qle. simpl. lia. }
  assert (Hmn : inject_Z (Z.of_nat m) <= inject_Z (Z.of_nat n)).
  { rewrite <- Zle_Qle. lia. }
  split.
  - apply Qle_shift_div_l; [assumption|]. lra.
  - apply Qle_shift_div_r; [assumption|]. lra.
Qed.

Lemma risk_term_bounds (card : CardDict.t) (request : RequestParsed) :
  0 <= Spec.risk_term card request <= 0.3.
Proof.
  unfold Spec.risk_term.
  destruct (Spec.fee_band_fits card request); split; discriminate.
Qed.

Lemma horizon_term_bounds (card : CardDict.t) (request : RequestParsed) :
  0 <= Computed.horizon_term card request <= 0.2.
Proof.
  unfold Computed.horizon_term.
  destruct (_ && _); split; discriminate.
Qed.

Lemma flexibility_term_bounds (request : RequestParsed) :
  0 <= Spec.flexibility_term request <= 0.1.
Proof.
  unfold Spec.flexibility_term.
  destruct (constraints request); split; discriminate.
Qed.

Lemma weighted_sum_bounds (card : CardDict.t) (request : RequestParsed) :
  0 <= Computed.weighted_sum card request <= 1.
Proof.
  unfold Computed.weighted_sum.
  pose proof (goal_term_bounds card request).
  pose proof (risk_term_bounds card request).
  pose proof (horizon_term_bounds card request).
  pose proof (flexibility_term_bounds request).
  lra.
Qed.

(** The goal step of the source: the division is reached only with a
    non-empty goal list, and then it is defined. *)
Lemma goal_step (card : CardDict.t) (request : RequestParsed) :
  exists g,
    match goals request with
    | [] => Ok 0
    | _ :: _ =>
        ratio <- Py.div (inject_Z (Z.of_nat (goal_matches card request)))
                        (Py.len (goals request)) ;;
        Ok (ratio * 0.4)
    end = Ok g
    /\ g == Spec.goal_term card request.
Proof.
  unfold Spec.goal_term. rewrite <- goal_matches_count.
  destruct (goals request) as [|g0 t].
  - exists 0. split; reflexivity.
  - unfold Py.div. rewrite py_len_cons_nonzero. cbn [bind].
    eexists. split; [reflexivity|].
    unfold Py.len. unfold Qdiv. ring.
Qed.

Lemma base_score_weighted_sum (card : CardDict.t) (request : RequestParsed) :
  exists score,
    base_calculate_match_score card request = Ok score
    /\ score == Computed.weighted_sum card request.
Proof.
  unfold base_calculate_match_score.
  destruct (goal_step card request) as (g & -> & Hg).
  cbn [bind]. eexists. split; [reflexivity|].
  pose proof (weighted_sum_bounds card request) as Hb.
  apply py_min_cap; [|apply Hb].
  unfold Computed.weighted_sum, Spec.risk_term, Spec.fee_band_fits,
    Computed.horizon_term, Computed.signup_bonus_in_text, Spec.flexibility_term.
  rewrite <- Hg.
  destruct (String.eqb (risk_tolerance request) "conservative"
            && Qle_bool (CardDict.annual_fee card) 50);
  destruct (String.eqb (risk_tolerance request) "standard"
            && Qle_bool (CardDict.annual_fee card) 150);
  destruct (String.eqb (risk_tolerance request) "aggressive");
  destruct (String.eqb (time_horizon request) "12m"
            && Py.contains "signup_bonus" (str_card card));
  destruct (constraints request); cbn [orb]; cbv beta iota zeta; ring.
Qed.

Lemma travel_bonus_nonneg (card : CardDict.t) : 0 <= Spec.travel_bonus card.
Proof.
  unfold Spec.travel_bonus.
  destruct (_ || _); destruct (Py.contains "no foreign transaction fee" _);
    discriminate.
Qed.

Lemma travel_score_capped_sum (card : CardDict.t) (request : RequestParsed) :
  exists score,
    travel_calculate_match_score card request = Ok score
    /\ score == Qmin (Computed.weighted_sum card request + Spec.travel_bonus card) 1.
Proof.
  unfold travel_calculate_match_score.
  destruct (base_score_weighted_sum card request) as (b & -> & Hb).
  cbn [bind]. eexists. split; [reflexivity|].
  cbv zeta. rewrite py_min_Qmin.
  apply Q.min_compat; [|reflexivity].
  unfold Spec.travel_bonus. cbn [existsb].
  rewrite <- Hb.
  destruct (Py.contains "miles" (Py.lower (str_card card)));
  destruct (Py.contains "airline" (Py.lower (str_card card)));
  destruct (Py.contains "travel" (Py.lower (str_card card)));
  destruct (Py.contains "no foreign transaction fee"
                        (Py.lower (str_card card)));
  cbn [orb]; cbv beta iota; ring.
Qed.

(** *** Substring facts, and the rendered [signup_bonus] key *)

Lemma prefix_app (n s post : string) :
  prefix n s = true -> prefix n (s ++ post)%string = true.
Proof.
  revert s. induction n as [|c n IH]; intros s Hp.
  { now destruct (s ++ post)%string. }
  destruct s as [|d s]; [discriminate|].
  simpl in *. destruct (ascii_dec c d); [now apply IH | discriminate].
Qed.

Lemma contains_empty (s : string) : Py.contains "" s = true.
Proof. destruct s; reflexivity. Qed.

Lemma contains_app_l (n s post : string) :
  Py.contains n s = true -> Py.contains n (s ++ post)%string = true.
Proof.
  induction s as [|c s IH]; intros Hc.
  - destruct n; [apply contains_empty | discriminate].
  - cbn [Py.contains] in Hc. apply orb_true_iff in Hc.
    change (String c s ++ post)%string with (String c (s ++ post)%string).
    cbn [Py.contains]. apply orb_true_iff.
    destruct Hc as [Hp|Hc].
    + left. now apply (prefix_app n (String c s) post).
    + right. now apply IH.
Qed.

Lemma contains_app_r (n pre s : string) :
  Py.contains n s = true -> Py.contains n (pre ++ s)%string = true.
Proof.
  intros Hc. induction pre as [|c pre IH]; [assumption|].
  change (String c pre ++ s)%string with (String c (pre ++ s)%string).
  cbn [Py.contains]. rewrite IH. apply orb_true_r.
Qed.

(** Every catalog entry renders its [signup_bonus] key, so the test of the
    source holds for every entry, whatever the bonus text. *)
Lemma signup_bonus_key_rendered (card : CardDict.t) :
  Computed.signup_bonus_in_text card = true.
Proof.
  unfold Computed.signup_bonus_in_text, str_card.
  do 12 apply contains_app_r.
  apply contains_app_l. reflexivity.
Qed.

(** With a horizon of 12m and no signup bonus on the card, the sum the
    source computes is 0.2 above the weighted sum of the specification. *)
Lemma computed_sum_without_signup_bonus
    (card : CardDict.t) (request : RequestParsed) :
  time_horizon request = "12m"%string ->
  Spec.signup_bonus_present card = false ->
  Computed.weighted_sum card request == Spec.weighted_sum card request + 0.2.
Proof.
  intros Hh Hp.
  unfold Computed.weighted_sum, Spec.weighted_sum,
    Computed.horizon_term, Spec.horizon_term.
  rewrite Hh, Hp, signup_bonus_key_rendered.
  change (String.eqb "12m" "12m") with true. cbn [andb]. ring.
Qed.

(** C7. What the code computes where the claim asks for a signup bonus.
    The time-horizon test of the source looks for the text [signup_bonus]
    in the rendering of the card record, which holds for every record
    through the name of its key, whatever the bonus text.  So for a
    request with horizon 12m and a card that offers no signup bonus the
    base match score is 0.2 above the weighted sum of goal overlap,
    fee-band fit, horizon-with-signup-bonus and flexibility, and is
    therefore not that sum; the travel score carries the same 0.2 under its
    cap. *)
Theorem C7_horizon_weight_is_granted_without_a_signup_bonus
    (card : CardDict.t) (request : RequestParsed) :
  time_horizon request = "12m"%string ->
  Spec.signup_bonus_present card = false ->
  exists base travel,
    base_calculate_match_score card request = Ok base
    /\ base == Spec.weighted_sum card request + 0.2
    /\ ~ base == Spec.weighted_sum card request
    /\ travel_calculate_match_score card request = Ok travel
    /\ travel == Qmin (Spec.weighted_sum card request + 0.2
                       + Spec.travel_bonus card) 1.
Proof.
  intros Hh Hp.
  pose proof (computed_sum_without_signup_bonus card request Hh Hp) as Hsum.
  destruct (base_score_weighted_sum card request) as (b & Hb & Hw).
  destruct (travel_score_capped_sum card request) as (tr & Ht & Htw).
  exists b, tr. split; [exact Hb|].
  assert (Hexcess : b == Spec.weighted_sum card request + 0.2)
    by (rewrite Hw; exact Hsum).
  split; [exact Hexcess|].
  split.
  { intros Heq. rewrite Heq in Hexcess. lra. }
  split; [exact Ht|].
  rewrite Htw. apply Q.min_compat; [|reflexivity].
  now rewrite Hsum.
Qed.

(** C10. The base match-score computation is total and its value lies in
    [0, 1]: it returns for every card and request, although a division by
    an empty goal list would raise; with an empty goal list the goal term
    is 0 and the score is the sum of the other three terms; every term is
    non-negative and the final [min] with 1 bounds the score. *)
Theorem C10_base_score_total_and_bounded
    (card : CardDict.t) (request : RequestParsed) :
  exists score,
    base_calculate_match_score card request = Ok score
    /\ 0 <= score <= 1
    /\ score == Py.min (Spec.goal_term card request
                        + Spec.risk_term card request
                        + Computed.horizon_term card request
                        + Spec.flexibility_term request) 1
    /\ 0 <= Spec.goal_term card request
    /\ 0 <= Spec.risk_term card request
    /\ 0 <= Computed.horizon_term card request
    /\ 0 <= Spec.flexibility_term request
    /\ (forall matches,
          Py.div matches (Py.len (@nil string))
          = Raise (ZeroDivisionError "float division by zero"))
    /\ (goals request = [] ->
        Spec.goal_term card request == 0
        /\ score == Spec.risk_term card request
                     + Computed.horizon_term card request
                     + Spec.flexibility_term request).
Proof.
  destruct (base_score_weighted_sum card request) as (s & Hs & Hw).
  pose proof (weighted_sum_bounds card request) as Hb.
  pose proof (goal_term_bounds card request) as Hg.
  pose proof (risk_term_bounds card request) as Hr.
  pose proof (horizon_term_bounds card request) as Hh.
  pose proof (flexibility_term_bounds request) as Hf.
  exists s. split; [exact Hs|].
  split; [rewrite Hw; exact Hb|].
  split.
  { rewrite Hw. symmetry. apply py_min_cap; [reflexivity | apply Hb]. }
  do 4 (split; [tauto|]).
  split; [reflexivity|].
  intros Hnil.
  assert (H0 : Spec.goal_term card request == 0).
  { unfold Spec.goal_term. now rewrite Hnil. }
  split; [exact H0|].
  rewrite Hw. unfold Computed.weighted_sum. rewrite H0. ring.
Qed.
End ScoringFacts.

(* ================================================================== *)
(** ** Category handlers: ranking and the failure boundary *)
(* ================================================================== *)

(** The state fields a handler does not touch on either path. *)
Lemma request_set_current_node v state :
  request (set_current_node v state) = request state.
Proof. reflexivity. Qed.

Lemma request_set_completed_nodes v state :
  request (set_completed_nodes v state) = request state.
Proof. reflexivity. Qed.

Lemma get_set_same {V} (d : Py.dict V) (k : string) (v : V) :
  Py.get (Py.set d k v) k = Some v.
Proof.
  induction d as [|[k' v'] t IH]; simpl.
  - now rewrite String.eqb_refl.
  - destruct (String.eqb k k') eqn:E; simpl; rewrite E; [reflexivity|exact IH].
Qed.

Section HandlerFacts.
Context `{PyRepr} `{LLMTool} `{CatalogTool}.
Local Open Scope Q_scope.

Lemma calculate_match_score_total
    (self : Manager) (card : CardDict.t) (request : RequestParsed) :
  exists score, _calculate_match_score self card request = Ok score.
Proof.
  destruct (base_score_weighted_sum card request) as (b & Hb & _).
  destruct self; cbn [_calculate_match_score];
    unfold travel_calculate_match_score, cashback_calculate_match_score,
      student_calculate_match_score;
    rewrite ?Hb; cbn [bind]; eexists; reflexivity.
Qed.

Lemma make_recommendation_total
    (self : Manager) (request : RequestParsed) (card : CardDict.t) :
  exists rec, make_recommendation self request card = Ok rec.
Proof.
  unfold make_recommendation.
  destruct (calculate_match_score_total self card request) as (s & ->).
  cbn [bind]. eexists; reflexivity.
Qed.

(** Scoring and ranking never raise. *)
Lemma rank_cards_total
    (self : Manager) (cards : list CardDict.t) (request : RequestParsed) :
  exists ranked, rank_cards self cards request = Ok ranked.
Proof.
  unfold rank_cards.
  destruct (mapM_total (make_recommendation self request) cards
              (make_recommendation_total self request)) as (scored & ->).
  cbn [bind]. eexists; reflexivity.
Qed.

(** The steps read only the request of the state. *)
Lemma execute_steps_request (self : Manager) (state state' : GraphState) :
  request state' = request state ->
  execute_steps self state' = execute_steps self state.
Proof. unfold execute_steps. now intros ->. Qed.

(** With a request in the state and an analysis that goes through, the
    handler produces its result. *)
Lemma execute_steps_ok
    (self : Manager) (state : GraphState) (r : RequestParsed) (a : Analysis) :
  request state = Some r ->
  analyze_request self (Some r) = Ok a ->
  exists mr, execute_steps self state = Ok mr.
Proof.
  intros Hr Ha. unfold execute_steps. rewrite Hr, Ha. cbn [bind].
  match goal with
  | |- context [rank_cards self ?cards r] =>
      destruct (rank_cards_total self cards r) as (ranked & ->)
  end.
  cbn [bind]. eexists; reflexivity.
Qed.

(** On success the handler writes its result under its own key and adds no
    error. *)
Lemma execute_writes_result
    (self : Manager) (state : GraphState) (mr : ManagerResult.t) :
  execute_steps self state = Ok mr ->
  Py.get (manager_results (execute self state)) (manager_type self) = Some mr
  /\ errors (execute self state) = errors state.
Proof.
  intros Hs. unfold execute.
  rewrite (execute_steps_request self state) by reflexivity.
  rewrite Hs. cbn. split; [apply get_set_same | reflexivity].
Qed.

(** C3 (amended). Whatever exception leaves the analyze / search / score
    steps, [execute] catches it at its boundary, appends an error record
    tagged with the handler's category name and hands over to the summary
    stage; it writes no category result: the result map is left as it
    was, so the handler's key is in it afterwards only if it was there
    before. *)
Theorem C3_handler_failure_is_recorded_without_result
    (self : Manager) (state : GraphState) (e : exn) :
  execute_steps self state = Raise e ->
  errors (execute self state)
  = errors state
    ++ [{| node := manager_type self; error := str_exn e; type := None |}]
  /\ manager_results (execute self state) = manager_results state
  /\ Py.get (manager_results (execute self state)) (manager_type self)
     = Py.get (manager_results state) (manager_type self)
  /\ completed_nodes (execute self state)
     = completed_nodes state ++ [manager_type self]
  /\ next_nodes (execute self state) = ["summary"%string].
Proof.
  intros Hs. unfold execute.
  rewrite (execute_steps_request self state) by reflexivity.
  rewrite Hs. cbn. repeat split.
Qed.

(** What a produced category result holds: the first three of the scored
    catalog entries after the sort. *)
Lemma execute_steps_inv
    (self : Manager) (state : GraphState) (mr : ManagerResult.t) :
  execute_steps self state = Ok mr ->
  exists (r : RequestParsed) (scored : list CardRecommendation.t),
    request state = Some r
    /\ mapM (make_recommendation self r)
            (search_catalog
               {| criteria_goals := goals r;
                  criteria_risk_tolerance := risk_tolerance r;
                  criteria_constraints := constraints r;
                  criteria_jurisdiction := jurisdiction r |})
       = Ok scored
    /\ ManagerResult.recommendations mr
       = firstn 3 (Py.sort_desc CardRecommendation.match_score scored).
Proof.
  unfold execute_steps. intros Hs.
  destruct (analyze_request self (request state)) as [a|]; [|discriminate].
  cbn [bind] in Hs.
  destruct (request state) as [r|]; [|discriminate].
  unfold rank_cards in Hs.
  match type of Hs with
  | context [mapM ?f ?cards] => destruct (mapM f cards) as [scored|] eqn:Hm
  end; [|discriminate].
  cbn [bind] in Hs. injection Hs as <-.
  exists r, scored. repeat split. exact Hm.
Qed.

(** C8. Every category result a handler produces lists its recommendations
    by non-increasing match score and holds at most three of them; they
    are the three best of the scored catalog entries, and among entries of
    equal score the catalog's order is kept. *)
Theorem C8_category_result_sorted_top3_stable
    (self : Manager) (state : GraphState) (mr : ManagerResult.t) :
  execute_steps self state = Ok mr ->
  sorted_desc CardRecommendation.match_score (ManagerResult.recommendations mr)
  /\ (List.length (ManagerResult.recommendations mr) <= 3)%nat
  /\ exists (r : RequestParsed) (scored dropped : list CardRecommendation.t),
       request state = Some r
       /\ Forall2
            (fun card rec => make_recommendation self r card = Ok rec)
            (search_catalog
               {| criteria_goals := goals r;
                  criteria_risk_tolerance := risk_tolerance r;
                  criteria_constraints := constraints r;
                  criteria_jurisdiction := jurisdiction r |})
            scored
       /\ Permutation (ManagerResult.recommendations mr ++ dropped) scored
       /\ (forall kept d,
             In kept (ManagerResult.recommendations mr) -> In d dropped ->
             CardRecommendation.match_score d
             <= CardRecommendation.match_score kept)
       /\ (forall q,
             filter (has_score CardRecommendation.match_score q) scored
             = filter (has_score CardRecommendation.match_score q)
                      (ManagerResult.recommendations mr)
               ++ filter (has_score CardRecommendation.match_score q) dropped).
Proof.
  intros Hs.
  destruct (execute_steps_inv self state mr Hs) as (r & scored & Hr & Hm & ->).
  set (ranked := Py.sort_desc CardRecommendation.match_score scored).
  assert (Hsorted : sorted_desc CardRecommendation.match_score ranked)
    by apply sort_desc_sorted.
  split; [now apply sorted_desc_firstn|].
  split; [apply firstn_le_length|].
  exists r, scored, (skipn 3 ranked).
  split; [exact Hr|].
  split; [now apply mapM_Forall2|].
  split; [rewrite firstn_skipn; apply sort_desc_perm|].
  split; [intros kept d; now apply sorted_desc_split|].
  intros q. rewrite <- filter_firstn_prefix. symmetry.
  apply sort_desc_stable.
Qed.
End HandlerFacts.

(* ================================================================== *)
(** ** Aggregation: pool, aggregate score, order and confidence *)
(* ================================================================== *)

Lemma inject_nat_succ (n : nat) :
  (inject_Z (Z.of_nat (S n)) == inject_Z (Z.of_nat n) + 1)%Q.
Proof. rewrite Nat2Z.inj_succ, <- Z.add_1_r, inject_Z_plus. reflexivity. Qed.

Lemma py_sum_total_acc (l : list Q) (acc : Q) :
  (fold_left Qplus l acc == acc + fold_right Qplus 0 l)%Q.
Proof.
  revert acc. induction l as [|x t IH]; intros acc; simpl.
  - ring.
  - rewrite IH. ring.
Qed.

Section AggregationFacts.
Context `{PyRepr}.
Local Open Scope Q_scope.

Lemma py_sum_total (l : list Q) : Py.sum l == Spec.total l.
Proof.
  unfold Py.sum, Spec.total. rewrite py_sum_total_acc. ring.
Qed.

(** The pool is the concatenation of the recommendation lists, in the
    order of the result map. *)
Lemma aggregate_acc
    (manager_results : Py.dict ManagerResult.t)
    (acc : list CardRecommendation.t) :
  fold_left
    (fun all_recommendations (item : string * ManagerResult.t) =>
       match ManagerResult.recommendations (snd item) with
       | [] => all_recommendations
       | recs => all_recommendations ++ recs
       end)
    manager_results acc
  = acc ++ Spec.all_entries manager_results.
Proof.
  revert acc.
  induction manager_results as [|item t IH]; intros acc; simpl.
  - now rewrite app_nil_r.
  - rewrite IH.
    destruct (ManagerResult.recommendations (snd item)) as [|r recs];
      simpl; [reflexivity|].
    now rewrite <- app_assoc.
Qed.

Lemma aggregate_all_entries (manager_results : Py.dict ManagerResult.t) :
  SummaryAgent.aggregate_manager_results manager_results
  = Spec.all_entries manager_results.
Proof. apply aggregate_acc. Qed.

Lemma all_entries_length (manager_results : Py.dict ManagerResult.t) :
  List.length (Spec.all_entries manager_results)
  = Spec.pool_size manager_results.
Proof.
  unfold Spec.all_entries, Spec.pool_size.
  induction manager_results as [|item t IH]; simpl; [reflexivity|].
  now rewrite length_app, IH.
Qed.

(** The inner loop of [calculate_overall_score] over one list. *)
Lemma boost_inner (id : string) (recs : list CardRecommendation.t) (acc : Q) :
  fold_left
    (fun overall_score rec =>
       if String.eqb (CardRecommendation.card_id rec) id
       then overall_score + 0.1 else overall_score)
    recs acc
  == acc + 0.1 * inject_Z (Z.of_nat (List.length
             (filter (fun rec => String.eqb (CardRecommendation.card_id rec) id)
                     recs))).
Proof.
  revert acc. induction recs as [|r t IH]; intros acc; simpl.
  - ring.
  - rewrite IH.
    destruct (String.eqb (CardRecommendation.card_id r) id); [|reflexivity].
    cbn [List.length]. rewrite inject_nat_succ. ring.
Qed.

(** Both loops: 0.1 for every entry of the map with the identifier. *)
Lemma boost_outer
    (id : string) (manager_results : Py.dict ManagerResult.t) (acc : Q) :
  fold_left
    (fun overall_score (item : string * ManagerResult.t) =>
       fold_left
         (fun overall_score rec =>
            if String.eqb (CardRecommendation.card_id rec) id
            then overall_score + 0.1 else overall_score)
         (ManagerResult.recommendations (snd item)) overall_score)
    manager_results acc
  == acc + 0.1 * inject_Z (Z.of_nat (Spec.entries_with_id id manager_results)).
Proof.
  unfold Spec.entries_with_id, Spec.all_entries.
  revert acc. induction manager_results as [|item t IH]; intros acc; simpl.
  - ring.
  - rewrite IH, boost_inner, filter_app, length_app, Nat2Z.inj_add,
      inject_Z_plus.
    ring.
Qed.

Lemma overall_score_formula
    (card : CardRecommendation.t) (manager_results : Py.dict ManagerResult.t) :
  SummaryAgent.calculate_overall_score card manager_results
  == Qmin (CardRecommendation.match_score card
           + 0.1 * inject_Z (Z.of_nat
                     (Spec.entries_with_id (CardRecommendation.card_id card)
                                           manager_results)))
          1.
Proof.
  unfold SummaryAgent.calculate_overall_score. cbv zeta.
  rewrite py_min_Qmin. apply Q.min_compat; [|reflexivity].
  apply boost_outer.
Qed.

Lemma overall_score_le_1
    (card : CardRecommendation.t) (manager_results : Py.dict ManagerResult.t) :
  SummaryAgent.calculate_overall_score card manager_results <= 1.
Proof. apply py_min_le_cap. Qed.

(** C1 (amended). For every candidate drawn from the category-result map
    the aggregate score is the candidate's own match score plus 0.1 for
    every entry, in any category's result list, that carries the same card
    identifier, capped at 1; the candidate's own entry is one of them, so
    the boost is at least 0.1 before the cap. *)
Theorem C1_aggregate_score_counts_every_entry
    (card : CardRecommendation.t) (manager_results : Py.dict ManagerResult.t) :
  In card (SummaryAgent.aggregate_manager_results manager_results) ->
  SummaryAgent.calculate_overall_score card manager_results
  == Qmin (CardRecommendation.match_score card
           + 0.1 * inject_Z (Z.of_nat
                     (Spec.entries_with_id (CardRecommendation.card_id card)
                                           manager_results)))
          1
  /\ (1 <= Spec.entries_with_id (CardRecommendation.card_id card)
                                manager_results)%nat
  /\ Qmin (CardRecommendation.match_score card + 0.1) 1
     <= SummaryAgent.calculate_overall_score card manager_results.
Proof.
  intros Hin. rewrite aggregate_all_entries in Hin.
  assert (Hn : (1 <= Spec.entries_with_id (CardRecommendation.card_id card)
                                          manager_results)%nat).
  { unfold Spec.entries_with_id.
    assert (Hf : In card
              (filter (fun rec => String.eqb (CardRecommendation.card_id rec)
                                             (CardRecommendation.card_id card))
                      (Spec.all_entries manager_results))).
    { apply filter_In. split; [assumption | apply String.eqb_refl]. }
    destruct (filter _ _); [contradiction | simpl; lia]. }
  split; [apply overall_score_formula|].
  split; [exact Hn|].
  rewrite overall_score_formula.
  apply Q.min_le_compat_r.
  assert (Hq : 1 <= inject_Z (Z.of_nat
                 (Spec.entries_with_id (CardRecommendation.card_id card)
                                       manager_results))).
  { change 1 with (inject_Z 1). rewrite <- Zle_Qle. lia. }
  lra.
Qed.

Lemma filter_length_perm {A} (p : A -> bool) (l l' : list A) :
  Permutation l l' ->
  List.length (filter p l) = List.length (filter p l').
Proof.
  induction 1 as [|x l l' _ IH|x y l|l l' l'' _ IH1 _ IH2]; simpl.
  - reflexivity.
  - destruct (p x); simpl; now rewrite IH.
  - destruct (p x), (p y); reflexivity.
  - now rewrite IH1.
Qed.

(** The final list: one entry per pooled candidate, re-ordered. *)
Lemma create_final_perm
    (all_cards : list CardRecommendation.t)
    (manager_results : Py.dict ManagerResult.t)
    (request : option RequestParsed) :
  Permutation
    (SummaryAgent.create_final_recommendations all_cards manager_results request)
    (map (SummaryAgent.final_recommendation manager_results request) all_cards).
Proof. apply sort_desc_perm. Qed.

Lemma final_entries_of_pool
    (id : string) (all_cards : list CardRecommendation.t)
    (manager_results : Py.dict ManagerResult.t)
    (request : option RequestParsed) :
  Spec.final_entries_with_id id
    (SummaryAgent.create_final_recommendations all_cards manager_results request)
  = List.length
      (filter (fun rec => String.eqb (CardRecommendation.card_id rec) id)
              all_cards).
Proof.
  unfold Spec.final_entries_with_id.
  rewrite (filter_length_perm _ _ _
             (create_final_perm all_cards manager_results request)).
  induction all_cards as [|c t IH]; [reflexivity|].
  cbn [map filter SummaryAgent.final_recommendation
       FinalRecommendation.card_id].
  destruct (String.eqb (CardRecommendation.card_id c) id);
    cbn [List.length]; now rewrite IH.
Qed.

Lemma final_scores_le_1
    (all_cards : list CardRecommendation.t)
    (manager_results : Py.dict ManagerResult.t)
    (request : option RequestParsed) :
  Forall (fun f => FinalRecommendation.overall_score f <= 1)
    (SummaryAgent.create_final_recommendations all_cards manager_results request).
Proof.
  eapply Permutation_Forall;
    [apply Permutation_sym, create_final_perm|].
  apply Forall_forall. intros f Hf.
  apply in_map_iff in Hf. destruct Hf as (c & <- & _).
  apply overall_score_le_1.
Qed.

(** What a produced final answer holds. *)
Lemma summary_steps_inv (state : GraphState) (sr : SummaryResult.t) :
  SummaryAgent.execute_steps state = Ok sr ->
  SummaryResult.final_recommendations sr
  = SummaryAgent.create_final_recommendations
      (SummaryAgent.aggregate_manager_results (manager_results state))
      (manager_results state) (request state)
  /\ SummaryResult.total_cards_analyzed sr
     = List.length
         (SummaryAgent.aggregate_manager_results (manager_results state))
  /\ SummaryResult.top_recommendation sr
     = hd_error (SummaryResult.final_recommendations sr)
  /\ SummaryResult.confidence_score sr
     == Spec.mean_of_top3
          (map FinalRecommendation.overall_score
               (SummaryResult.final_recommendations sr)).
Proof.
  unfold SummaryAgent.execute_steps. cbv zeta.
  destruct (manager_results state) as [|item rest] eqn:Hmr.
  { intros [= <-]. repeat split. }
  destruct (SummaryAgent.aggregate_manager_results (item :: rest))
    as [|c pool] eqn:Hpool.
  { intros [= <-]. repeat split. }
  set (final := SummaryAgent.create_final_recommendations
                  (c :: pool) (item :: rest) (request state)).
  destruct (SummaryAgent.generate_summary_text final (request state))
    as [text|]; [|discriminate].
  cbn [bind].
  destruct final as [|f fs] eqn:Hfinal.
  { cbn [bind]. intros [= <-]. repeat split. }
  cbv beta iota.
  change (firstn 3 (f :: fs)) with (f :: firstn 2 fs).
  cbn [map]. unfold Py.div. rewrite py_len_cons_nonzero. cbn [bind].
  intros [= <-]. cbn [SummaryResult.final_recommendations
                      SummaryResult.total_cards_analyzed
                      SummaryResult.top_recommendation
                      SummaryResult.confidence_score].
  repeat split.
  unfold Spec.mean_of_top3. rewrite firstn_map.
  change (firstn 3 (f :: fs)) with (f :: firstn 2 fs).
  cbn [map]. rewrite py_sum_total. unfold Py.len. reflexivity.
Qed.

(** The aggregation stage produces its answer whenever the state holds a
    request (naming the goals in the summary text is the only step that can
    raise). *)
Lemma summary_steps_ok (state : GraphState) (r : RequestParsed) :
  request state = Some r ->
  exists sr, SummaryAgent.execute_steps state = Ok sr.
Proof.
  intros Hr. unfold SummaryAgent.execute_steps. cbv zeta.
  destruct (manager_results state) as [|item rest]; [now eexists|].
  destruct (SummaryAgent.aggregate_manager_results (item :: rest))
    as [|c pool]; [now eexists|].
  rewrite Hr.
  destruct (SummaryAgent.create_final_recommendations
              (c :: pool) (item :: rest) (Some r)) as [|f fs];
    cbn [SummaryAgent.generate_summary_text bind]; [now eexists|].
  change (firstn 3 (f :: fs)) with (f :: firstn 2 fs).
  cbn [map]. unfold Py.div. rewrite py_len_cons_nonzero. cbn [bind].
  now eexists.
Qed.

(** C2 (amended). For every category-result map given to the aggregation
    stage the candidate pool has as many entries as the recommendation
    lists of all categories together, and the final answer counts and
    lists every one of them: candidates with the same card identifier
    coming from different categories are not merged, each identifier has
    as many final entries as it has entries in the map; every aggregate
    score is at most 1. *)
Theorem C2_pool_size_and_one_entry_per_pooled_candidate
    (state : GraphState) (sr : SummaryResult.t) :
  SummaryAgent.execute_steps state = Ok sr ->
  List.length (SummaryAgent.aggregate_manager_results (manager_results state))
  = Spec.pool_size (manager_results state)
  /\ SummaryResult.total_cards_analyzed sr
     = Spec.pool_size (manager_results state)
  /\ List.length (SummaryResult.final_recommendations sr)
     = Spec.pool_size (manager_results state)
  /\ (forall id,
        Spec.final_entries_with_id id (SummaryResult.final_recommendations sr)
        = Spec.entries_with_id id (manager_results state))
  /\ Forall (fun f => FinalRecommendation.overall_score f <= 1)
            (SummaryResult.final_recommendations sr).
Proof.
  intros Hs.
  destruct (summary_steps_inv state sr Hs) as (Hfinal & Htotal & _ & _).
  rewrite Hfinal, Htotal, aggregate_all_entries, all_entries_length.
  split; [reflexivity|]. split; [reflexivity|].
  split.
  { unfold SummaryAgent.create_final_recommendations.
    now rewrite sort_desc_length, length_map, all_entries_length. }
  split; [intros id; apply final_entries_of_pool|].
  apply final_scores_le_1.
Qed.

(** C9. Every final answer the aggregation stage produces lists its
    recommendations by non-increasing aggregate score, and its confidence
    is the arithmetic mean of the aggregate scores of the first three
    entries (of all entries when there are fewer), and 0 when there is
    none. *)
Theorem C9_final_answer_sorted_and_confidence_is_mean_of_top3
    (state : GraphState) (sr : SummaryResult.t) :
  SummaryAgent.execute_steps state = Ok sr ->
  sorted_desc FinalRecommendation.overall_score
              (SummaryResult.final_recommendations sr)
  /\ SummaryResult.confidence_score sr
     == Spec.mean_of_top3
          (map FinalRecommendation.overall_score
               (SummaryResult.final_recommendations sr))
  /\ match SummaryResult.final_recommendations sr with
     | [] => SummaryResult.confidence_score sr == 0
     | [a] =>
         SummaryResult.confidence_score sr
         == FinalRecommendation.overall_score a
     | [a; b] =>
         SummaryResult.confidence_score sr
         == (FinalRecommendation.overall_score a
             + FinalRecommendation.overall_score b) / 2
     | a :: b :: c :: _ =>
         SummaryResult.confidence_score sr
         == (FinalRecommendation.overall_score a
             + FinalRecommendation.overall_score b
             + FinalRecommendation.overall_score c) / 3
     end.
Proof.
  intros Hs.
  destruct (summary_steps_inv state sr Hs) as (Hfinal & _ & _ & Hconf).
  split; [rewrite Hfinal; apply sort_desc_sorted|].
  split; [exact Hconf|].
  revert Hconf.
  destruct (SummaryResult.final_recommendations sr) as [|a [|b [|c rest]]];
    unfold Spec.mean_of_top3, Spec.total;
    cbn [firstn map fold_right List.length]; intros ->.
  - reflexivity.
  - change (inject_Z (Z.of_nat 1)) with 1. field.
  - change (inject_Z (Z.of_nat 2)) with 2. field.
  - change (inject_Z (Z.of_nat 3)) with 3. field.
Qed.
End AggregationFacts.

(* ================================================================== *)
(** ** Routing *)
(* ================================================================== *)

(** The source asks whether a group word is among the goals; the
    specification asks whether a goal is in the group. *)
Lemma any_goal_in_matches_group (goals words : list string) :
  any_goal_in goals words = Spec.matches_group goals words.
Proof.
  unfold any_goal_in, Spec.matches_group, Py.mem.
  apply Bool.eq_iff_eq_true.
  rewrite !existsb_exists. split.
  - intros (w & Hw & Hg). apply existsb_exists in Hg.
    destruct Hg as (g & Hg & Heq). apply String.eqb_eq in Heq. subst g.
    exists w. split; [assumption|]. apply existsb_exists.
    exists w. split; [assumption | apply String.eqb_refl].
  - intros (g & Hg & Hw). apply existsb_exists in Hw.
    destruct Hw as (w & Hw & Heq). apply String.eqb_eq in Heq. subst w.
    exists g. split; [assumption|]. apply existsb_exists.
    exists g. split; [assumption | apply String.eqb_refl].
Qed.

Lemma determine_refines_table (request : RequestParsed) :
  _determine_manager_categories request = Spec.fanout_plan_of (goals request).
Proof.
  unfold _determine_manager_categories, Spec.fanout_plan_of, Spec.routing_table.
  rewrite !any_goal_in_matches_group.
  cbn [filter map fst snd].
  destruct (Spec.matches_group (goals request) ["miles"; "travel"; "airline"; "hotel"]);
  destruct (Spec.matches_group (goals request) ["cashback"; "cash"; "rewards"; "money"]);
  destruct (Spec.matches_group (goals request)
              ["business"; "corporate"; "expense"; "employee"]);
  destruct (Spec.matches_group (goals request)
              ["student"; "building_credit"; "first"; "college"]);
  reflexivity.
Qed.

(** C6. The routing function depends on the goal tags only and follows the
    fixed table: a category is planned exactly when a goal tag belongs to
    its group; the plan lists the planned categories in table order, each
    once; a request whose goal list is empty or matches no group gets the
    single general category. *)
Theorem C6_routing_follows_fixed_table (request : RequestParsed) :
  let plan := _determine_manager_categories request in
  plan = Spec.fanout_plan_of (goals request)
  /\ (forall other, goals other = goals request ->
                    _determine_manager_categories other = plan)
  /\ NoDup plan
  /\ (plan = ["general_manager"%string]
      \/ plan = filter (fun name => Py.mem name plan)
                       ["travel_manager"; "cashback_manager";
                        "business_manager"; "student_manager"]%string)
  /\ (forall group category,
        In (group, category) Spec.routing_table ->
        (In category plan <-> Spec.matches_group (goals request) group = true))
  /\ (goals request = [] -> plan = ["general_manager"%string])
  /\ ((forall row, In row Spec.routing_table ->
                   Spec.matches_group (goals request) (fst row) = false) ->
      plan = ["general_manager"%string]).
Proof.
  cbv zeta. rewrite determine_refines_table.
  split; [reflexivity|].
  split.
  { intros other Hg. now rewrite determine_refines_table, Hg. }
  unfold Spec.fanout_plan_of, Spec.routing_table.
  cbn [filter map fst snd].
  split; [|split; [|split; [|split]]].
  - destruct (Spec.matches_group (goals request) _);
    destruct (Spec.matches_group (goals request) _);
    destruct (Spec.matches_group (goals request) _);
    destruct (Spec.matches_group (goals request) _);
    cbn [map snd]; repeat constructor; cbn [In];
      intuition discriminate.
  - destruct (Spec.matches_group (goals request) _);
    destruct (Spec.matches_group (goals request) _);
    destruct (Spec.matches_group (goals request) _);
    destruct (Spec.matches_group (goals request) _);
    cbn [map snd]; first [now left | now right].
  - intros group category Hin. cbn [In] in Hin.
    destruct Hin as [Hin|[Hin|[Hin|[Hin|[]]]]];
      injection Hin as <- <-;
      destruct (Spec.matches_group (goals request)
                  ["miles"; "travel"; "airline"; "hotel"]);
      destruct (Spec.matches_group (goals request)
                  ["cashback"; "cash"; "rewards"; "money"]);
      destruct (Spec.matches_group (goals request)
                  ["business"; "corporate"; "expense"; "employee"]);
      destruct (Spec.matches_group (goals request)
                  ["student"; "building_credit"; "first"; "college"]);
      cbn [map snd In]; split; intros Hx;
        first [reflexivity | discriminate | intuition discriminate | tauto].
  - intros ->. reflexivity.
  - intros Hnone.
    assert (H1 := Hnone (["miles"; "travel"; "airline"; "hotel"]%string,
                         "travel_manager"%string)).
    assert (H2 := Hnone (["cashback"; "cash"; "rewards"; "money"]%string,
                         "cashback_manager"%string)).
    assert (H3 := Hnone (["business"; "corporate"; "expense"; "employee"]%string,
                         "business_manager"%string)).
    assert (H4 := Hnone (["student"; "building_credit"; "first"; "college"]%string,
                         "student_manager"%string)).
    cbn [fst In] in H1, H2, H3, H4.
    rewrite H1, H2, H3, H4 by tauto.
    reflexivity.
Qed.

(* ================================================================== *)
(** ** The stage graph: what runs before aggregation *)
(* ================================================================== *)

(** The first planned category is one of the five handler nodes. *)
Lemma plan_head (request : RequestParsed) :
  exists first rest n M,
    _determine_manager_categories request = first :: rest
    /\ Py.get Graph.router_path_map first = Some (Graph.Goto n)
    /\ Graph.handler_of n = Some M
    /\ manager_type M = first.
Proof.
  unfold _determine_manager_categories.
  destruct (any_goal_in (goals request) _);
  destruct (any_goal_in (goals request) _);
  destruct (any_goal_in (goals request) _);
  destruct (any_goal_in (goals request) _);
  cbn [app];
  match goal with
  | |- exists first rest n M, (?f :: ?r) = _ /\ _ =>
      exists f, r
  end;
  first
    [ exists Graph.travel_manager, TravelManager; now repeat split
    | exists Graph.cashback_manager, CashbackManager; now repeat split
    | exists Graph.business_manager, BusinessManager; now repeat split
    | exists Graph.student_manager, StudentManager; now repeat split
    | exists Graph.general_manager, GeneralManager; now repeat split ].
Qed.

(** The router on a state that holds a request. *)
Lemma router_node_fields (state : GraphState) (r : RequestParsed) :
  request state = Some r ->
  request (router_node state) = Some r
  /\ errors (router_node state) = errors state
  /\ manager_results (router_node state) = manager_results state
  /\ fanout_plan (router_node state) = Some (_determine_manager_categories r).
Proof.
  intros Hr. unfold router_node.
  cbn [request set_completed_nodes set_current_node]. rewrite Hr.
  destruct (_determine_manager_categories r); cbn; auto.
Qed.

Section GraphFacts.
Context `{PyRepr} `{LLMTool} `{Extraction} `{Enrichment}.
Local Open Scope Q_scope.

Lemma run_goto (k : nat) (n n' : Graph.Node) (state state' : GraphState) :
  Graph.node_function n state = Returned state' ->
  Graph.successor n state' = Some (Graph.Goto n') ->
  Graph.run (S k) n state
  = (n :: fst (Graph.run k n' state'), snd (Graph.run k n' state')).
Proof.
  intros Hn Hs. cbn [Graph.run]. rewrite Hn, Hs.
  now destruct (Graph.run k n' state').
Qed.

Lemma run_finish (k : nat) (n : Graph.Node) (state state' : GraphState) :
  Graph.node_function n state = Returned state' ->
  Graph.successor n state' = Some Graph.Finish ->
  Graph.run (S k) n state = ([n], Graph.Completed state').
Proof. intros Hn Hs. cbn [Graph.run]. now rewrite Hn, Hs. Qed.

(** A handler node is its handler's [execute] on the mock catalog. *)
Lemma handler_node_function
    (n : Graph.Node) (M : Manager) (state : GraphState) :
  Graph.handler_of n = Some M ->
  Graph.node_function n state = Returned (Graph.card_manager_node M state)
  /\ Graph.successor n (Graph.card_manager_node M state)
     = Some (Graph.Goto Graph.online_search).
Proof. destruct n; intros [= <-]; now split. Qed.

(** The stages after a handler leave the result map alone. *)
Lemma manager_results_summary (state : GraphState) :
  manager_results (SummaryAgent.execute state) = manager_results state.
Proof.
  unfold SummaryAgent.execute.
  now destruct (SummaryAgent.execute_steps _).
Qed.

Lemma fanout_plan_summary (state : GraphState) :
  fanout_plan (SummaryAgent.execute state) = fanout_plan state.
Proof.
  unfold SummaryAgent.execute.
  now destruct (SummaryAgent.execute_steps _).
Qed.

Lemma fanout_plan_handler (M : Manager) (state : GraphState) :
  fanout_plan (Graph.card_manager_node M state) = fanout_plan state.
Proof.
  unfold Graph.card_manager_node, execute.
  now destruct (execute_steps _ _).
Qed.

(** The result map a handler leaves when it started from an empty one. *)
Lemma handler_results_from_empty (M : Manager) (state : GraphState) :
  manager_results state = [] ->
  manager_results (Graph.card_manager_node M state)
  = match execute_steps (H1 := MockCatalogTool) M state with
    | Ok mr => [(manager_type M, mr)]
    | Raise _ => []
    end.
Proof.
  intros Hmr. unfold Graph.card_manager_node, execute.
  rewrite (execute_steps_request M state) by reflexivity.
  destruct (execute_steps M state); cbn; now rewrite Hmr.
Qed.

(** The run from the router on a state with a request and no error. *)
Lemma run_from_router (state : GraphState) (r : RequestParsed) :
  request state = Some r ->
  errors state = [] ->
  exists first rest n M,
    _determine_manager_categories r = first :: rest
    /\ Graph.handler_of n = Some M
    /\ manager_type M = first
    /\ Graph.run 25 Graph.router state
       = ([Graph.router; n; Graph.online_search; Graph.policy_validation;
           Graph.summary],
          Graph.Completed
            (SummaryAgent.execute
               (Graph.policy_validation_node
                  (Graph.online_search_node
                     (Graph.card_manager_node M (router_node state)))))).
Proof.
  intros Hr He.
  destruct (plan_head r) as (first & rest & n & M & Hplan & Hget & Hn & HM).
  exists first, rest, n, M. repeat (split; [assumption|]).
  destruct (handler_node_function n M (router_node state) Hn) as (Hf & Hsucc).
  assert (Hrouter : Graph.successor Graph.router (router_node state)
                    = Some (Graph.Goto n)).
  { destruct (router_node_fields state r Hr) as (_ & Herr & _ & Hfan).
    cbn [Graph.successor]. unfold _should_continue_to_managers.
    now rewrite Herr, He, Hfan, Hplan. }
  rewrite (run_goto 24 Graph.router n state (router_node state)
             eq_refl Hrouter).
  rewrite (run_goto 23 n Graph.online_search _ _ Hf Hsucc).
  rewrite (run_goto 22 Graph.online_search Graph.policy_validation _ _
             eq_refl eq_refl).
  rewrite (run_goto 21 Graph.policy_validation Graph.summary _ _
             eq_refl eq_refl).
  rewrite (run_finish 20 Graph.summary _ _ eq_refl eq_refl).
  reflexivity.
Qed.

(** C5 (amended). For every fan-out plan the routing stage produces, the
    conditional edge after the router dispatches the first planned
    category handler only: that handler completes, then the two enrichment
    stages run, then the aggregation stage; no other planned handler runs.
    Starting from an empty result map, the map the aggregation stage reads
    holds no key but the first planned category, and its pool is that
    handler's recommendation list (empty when the handler failed). *)
Theorem C5_only_first_planned_handler_runs_before_aggregation
    (state : GraphState) (r : RequestParsed) :
  request state = Some r ->
  errors state = [] ->
  manager_results state = [] ->
  exists first rest n M final,
    _determine_manager_categories r = first :: rest
    /\ Graph.handler_of n = Some M
    /\ manager_type M = first
    /\ Graph.run 25 Graph.router state
       = ([Graph.router; n; Graph.online_search; Graph.policy_validation;
           Graph.summary],
          Graph.Completed final)
    /\ fanout_plan final = Some (first :: rest)
    /\ (forall name,
          In name (Py.keys (manager_results final)) -> name = first)
    /\ SummaryAgent.aggregate_manager_results (manager_results final)
       = match execute_steps (H1 := MockCatalogTool) M (router_node state) with
         | Ok mr => ManagerResult.recommendations mr
         | Raise _ => []
         end.
Proof.
  intros Hr He Hmr.
  destruct (run_from_router state r Hr He)
    as (first & rest & n & M & Hplan & Hn & HM & Hrun).
  destruct (router_node_fields state r Hr) as (_ & _ & Hmr' & Hfan).
  rewrite Hmr in Hmr'.
  eexists first, rest, n, M, _.
  do 3 (split; [assumption|]).
  split; [exact Hrun|].
  split.
  { rewrite fanout_plan_summary.
    change (fanout_plan (Graph.card_manager_node M (router_node state))
            = Some (first :: rest)).
    now rewrite fanout_plan_handler, Hfan, Hplan. }
  rewrite manager_results_summary.
  change (manager_results
            (Graph.policy_validation_node
               (Graph.online_search_node
                  (Graph.card_manager_node M (router_node state)))))
    with (manager_results (Graph.card_manager_node M (router_node state))).
  rewrite (handler_results_from_empty M (router_node state) Hmr').
  destruct (execute_steps M (router_node state)) as [mr|e].
  - split.
    + cbn. intros name [<-|[]]. exact HM.
    + rewrite aggregate_all_entries. cbn. apply app_nil_r.
  - split; [intros name []|reflexivity].
Qed.

(** C4. What the code does on the empty query.  The extraction stage
    records an extractor error, names the error-fallback stage as next
    node and then raises the fatal input error again; the request and the
    final answer of the state are left as they were.  The exception leaves
    the node function, so the run of the graph is aborted in the extraction
    stage: the error-fallback stage and the aggregation stage do not run
    and the run hands back no final answer. *)
Theorem C4_empty_query_aborts_in_the_extraction_stage (state : GraphState) :
  user_query state = ""%string ->
  exists raised,
    extractor_node state
    = Raised (ValueError "No user query provided") raised
    /\ errors raised
       = errors state
         ++ [{| node := "extractor"; error := "No user query provided";
                type := None |}]
    /\ next_nodes raised = ["error_handler"%string]
    /\ completed_nodes raised = completed_nodes state
    /\ request raised = request state
    /\ final_recommendations raised = final_recommendations state
    /\ Graph.ainvoke state
       = ([Graph.extractor],
          Graph.Aborted Graph.extractor
                        (ValueError "No user query provided") raised).
Proof.
  intros Hq.
  assert (Hex : exists raised,
             extractor_node state
             = Raised (ValueError "No user query provided") raised
             /\ errors raised
                = errors state
                  ++ [{| node := "extractor";
                         error := "No user query provided"; type := None |}]
             /\ next_nodes raised = ["error_handler"%string]
             /\ completed_nodes raised = completed_nodes state
             /\ request raised = request state
             /\ final_recommendations raised = final_recommendations state).
  { unfold extractor_node. cbn [user_query set_current_node]. rewrite Hq.
    eexists. split; [reflexivity|]. repeat split. }
  destruct Hex as (raised & Hraise & Herr & Hnext & Hdone & Hreq & Hfinal).
  exists raised. do 6 (split; [assumption|]).
  unfold Graph.ainvoke. cbn [Graph.run Graph.node_function].
  now rewrite Hraise.
Qed.
End GraphFacts.

(* ================================================================== *)
(** ** The statements at concrete inputs *)
(* ================================================================== *)

Section Instances.
Local Open Scope Q_scope.

(** One category, one card of score 0.5: the aggregate score is 0.6, not
    the 0.5 that "0.1 for every additional category" gives. *)
Lemma C1_single_category_is_boosted :
  In (Demo.candidate "card_a" "travel" 0.5)
     (SummaryAgent.aggregate_manager_results Demo.single_category)
  /\ SummaryAgent.calculate_overall_score
       (Demo.candidate "card_a" "travel" 0.5) Demo.single_category == 0.6
  /\ Spec.aggregate_score_additional
       "travel_manager" (Demo.candidate "card_a" "travel" 0.5)
       Demo.single_category == 0.5
  /\ ~ SummaryAgent.calculate_overall_score
         (Demo.candidate "card_a" "travel" 0.5) Demo.single_category
       == Spec.aggregate_score_additional
            "travel_manager" (Demo.candidate "card_a" "travel" 0.5)
            Demo.single_category.
Proof.
  split; [now left|].
  split; [reflexivity|].
  split; [reflexivity|].
  intros Heq. vm_compute in Heq. discriminate Heq.
Qed.

Lemma C1_witness :
  In (Demo.candidate "card_a" "travel" 0.5)
     (SummaryAgent.aggregate_manager_results Demo.shared_card)
  /\ Qmin (0.5 + 0.1) 1
     <= SummaryAgent.calculate_overall_score
          (Demo.candidate "card_a" "travel" 0.5) Demo.shared_card.
Proof.
  split; [now left|].
  apply (C1_aggregate_score_counts_every_entry
           (Demo.candidate "card_a" "travel" 0.5) Demo.shared_card).
  now left.
Defined.

(** Two categories recommending the same card: the final answer holds two
    entries with that identifier, not one merged entry. *)
Lemma C2_same_card_is_listed_twice :
  exists answer,
    SummaryAgent.execute_steps (H := Demo.repr) Demo.shared_card_state
    = Ok answer
    /\ Spec.entries_with_id "card_a" (manager_results Demo.shared_card_state)
       = 2%nat
    /\ Spec.final_entries_with_id
         "card_a" (SummaryResult.final_recommendations answer) = 2%nat
    /\ Spec.final_entries_with_id
         "card_a" (SummaryResult.final_recommendations answer) <> 1%nat.
Proof.
  eexists. split; [vm_compute; reflexivity|].
  split; [reflexivity|].
  split; [reflexivity|].
  discriminate.
Qed.

Lemma C2_witness :
  exists answer,
    SummaryAgent.execute_steps (H := Demo.repr) Demo.shared_card_state
    = Ok answer
    /\ List.length (SummaryResult.final_recommendations answer)
       = Spec.pool_size (manager_results Demo.shared_card_state).
Proof.
  eexists. split; [vm_compute; reflexivity|].
  apply (C2_pool_size_and_one_entry_per_pooled_candidate
           (H := Demo.repr) Demo.shared_card_state).
  vm_compute; reflexivity.
Defined.

(** A handler that fails leaves the result map without its key: once on a
    state without a request, once when the collaborator's analysis is not
    a dict. *)
Lemma C3_failed_handler_leaves_no_result :
  (execute_steps (H := Demo.repr) (H0 := Demo.failing_llm)
                 (H1 := MockCatalogTool)
                 TravelManager (create_initial_state "travel card")
   = Raise (AttributeError "'NoneType' object has no attribute 'goals'")
   /\ Py.get
        (manager_results
           (execute (H := Demo.repr) (H0 := Demo.failing_llm)
                    (H1 := MockCatalogTool)
                    TravelManager (create_initial_state "travel card")))
        (manager_type TravelManager)
      = None)
  /\ (execute_steps (H := Demo.repr) (H0 := Demo.array_llm)
                    (H1 := MockCatalogTool)
                    TravelManager Demo.scenario_c_state
      = Raise (TypeError "object does not support item assignment")
      /\ Py.get
           (manager_results
              (execute (H := Demo.repr) (H0 := Demo.array_llm)
                       (H1 := MockCatalogTool)
                       TravelManager Demo.scenario_c_state))
           (manager_type TravelManager)
         = None
      /\ errors
           (execute (H := Demo.repr) (H0 := Demo.array_llm)
                    (H1 := MockCatalogTool)
                    TravelManager Demo.scenario_c_state)
         = [{| node := "travel_manager";
               error := "object does not support item assignment";
               type := None |}]).
Proof. repeat split. Qed.

Lemma C3_witness :
  execute_steps (H := Demo.repr) (H0 := Demo.array_llm)
                (H1 := MockCatalogTool)
                TravelManager Demo.scenario_c_state
  = Raise (TypeError "object does not support item assignment")
  /\ manager_results
       (execute (H := Demo.repr) (H0 := Demo.array_llm)
                (H1 := MockCatalogTool)
                TravelManager Demo.scenario_c_state)
     = manager_results Demo.scenario_c_state.
Proof.
  split; [reflexivity|].
  apply (C3_handler_failure_is_recorded_without_result
           (H := Demo.repr) (H0 := Demo.array_llm) (H1 := MockCatalogTool)
           TravelManager Demo.scenario_c_state
           (TypeError "object does not support item assignment")).
  reflexivity.
Defined.

Lemma C4_witness :
  user_query (create_initial_state "") = ""%string
  /\ exists raised,
       Graph.ainvoke (H := Demo.repr) (H0 := Demo.failing_llm)
                     (H1 := Demo.minimal_extraction)
                     (H2 := Demo.quiet_enrichment)
                     (create_initial_state "")
       = ([Graph.extractor],
          Graph.Aborted Graph.extractor (ValueError "No user query provided")
                        raised)
       /\ final_recommendations raised = None.
Proof.
  split; [reflexivity|].
  destruct (C4_empty_query_aborts_in_the_extraction_stage
              (H := Demo.repr) (H0 := Demo.failing_llm)
              (H1 := Demo.minimal_extraction) (H2 := Demo.quiet_enrichment)
              (create_initial_state "") eq_refl)
    as (raised & _ & _ & _ & _ & _ & Hfinal & Hrun).
  exists raised. split; [exact Hrun | exact Hfinal].
Defined.

(** Scenario C: the plan is [travel, cashback], yet the run executes the
    travel handler only; the cashback handler never runs and the result
    map the aggregation stage reads holds the travel key alone. *)
Lemma C5_second_planned_handler_never_runs :
  _determine_manager_categories Demo.scenario_c_request
  = ["travel_manager"; "cashback_manager"]%string
  /\ exists final,
       Graph.run (H := Demo.repr) (H0 := Demo.failing_llm)
                 (H1 := Demo.minimal_extraction)
                 (H2 := Demo.quiet_enrichment)
                 25 Graph.router Demo.scenario_c_state
       = ([Graph.router; Graph.travel_manager; Graph.online_search;
           Graph.policy_validation; Graph.summary],
          Graph.Completed final)
       /\ fanout_plan final
          = Some ["travel_manager"; "cashback_manager"]%string
       /\ completed_nodes final
          = ["extractor"; "router"; "travel_manager"; "online_search";
             "policy_validation"; "summary"]%string
       /\ Py.keys (manager_results final) = ["travel_manager"%string]
       /\ Py.get (manager_results final) "cashback_manager" = None
       /\ errors final = [].
Proof.
  split; [reflexivity|].
  eexists. split; [vm_compute; reflexivity|].
  repeat split.
Qed.

Lemma C5_witness :
  request Demo.scenario_c_state = Some Demo.scenario_c_request
  /\ errors Demo.scenario_c_state = []
  /\ manager_results Demo.scenario_c_state = []
  /\ exists n final,
       Graph.run (H := Demo.repr) (H0 := Demo.failing_llm)
                 (H1 := Demo.minimal_extraction)
                 (H2 := Demo.quiet_enrichment)
                 25 Graph.router Demo.scenario_c_state
       = ([Graph.router; n; Graph.online_search; Graph.policy_validation;
           Graph.summary],
          Graph.Completed final).
Proof.
  do 3 (split; [reflexivity|]).
  destruct (C5_only_first_planned_handler_runs_before_aggregation
              (H := Demo.repr) (H0 := Demo.failing_llm)
              (H1 := Demo.minimal_extraction) (H2 := Demo.quiet_enrichment)
              Demo.scenario_c_state Demo.scenario_c_request
              eq_refl eq_refl eq_refl)
    as (first & rest & n & M & final & _ & _ & _ & Hrun & _).
  exists n, final. exact Hrun.
Defined.

Lemma C6_witness :
  goals Demo.no_goal_request = []
  /\ _determine_manager_categories Demo.no_goal_request
     = ["general_manager"%string].
Proof.
  split; [reflexivity|].
  apply (C6_routing_follows_fixed_table Demo.no_goal_request).
  reflexivity.
Defined.

Lemma C7_witness :
  time_horizon (Sample.capped_request 0) = "12m"%string
  /\ Spec.signup_bonus_present Demo.no_bonus_card = false
  /\ Spec.weighted_sum (H := Demo.repr) Demo.no_bonus_card
                       (Sample.capped_request 0) == 0
  /\ exists base,
       base_calculate_match_score (H := Demo.repr) Demo.no_bonus_card
                                  (Sample.capped_request 0)
       = Ok base
       /\ base == 0.2.
Proof.
  split; [reflexivity|]. split; [reflexivity|].
  assert (Hspec : Spec.weighted_sum (H := Demo.repr) Demo.no_bonus_card
                                    (Sample.capped_request 0) == 0)
    by (vm_compute; reflexivity).
  split; [exact Hspec|].
  destruct (C7_horizon_weight_is_granted_without_a_signup_bonus
              (H := Demo.repr) Demo.no_bonus_card (Sample.capped_request 0)
              eq_refl eq_refl)
    as (base & travel & Hbase & Hexcess & _).
  exists base. split; [exact Hbase|].
  rewrite Hexcess, Hspec. reflexivity.
Defined.

Lemma C8_witness :
  exists mr,
    execute_steps (H := Demo.repr) (H0 := Demo.failing_llm)
                  (H1 := MockCatalogTool)
                  TravelManager Demo.scenario_c_state
    = Ok mr
    /\ sorted_desc CardRecommendation.match_score
                   (ManagerResult.recommendations mr)
    /\ (List.length (ManagerResult.recommendations mr) <= 3)%nat.
Proof.
  eexists. split; [vm_compute; reflexivity|].
  match goal with
  | |- sorted_desc _ (ManagerResult.recommendations ?mr) /\ _ =>
      destruct (C8_category_result_sorted_top3_stable
                  (H := Demo.repr) (H0 := Demo.failing_llm)
                  (H1 := MockCatalogTool)
                  TravelManager Demo.scenario_c_state mr)
        as (Hsorted & Hlen & _)
  end.
  - vm_compute; reflexivity.
  - split; assumption.
Defined.

Lemma C9_witness :
  exists answer,
    SummaryAgent.execute_steps (H := Demo.repr) Demo.shared_card_state
    = Ok answer
    /\ sorted_desc FinalRecommendation.overall_score
                   (SummaryResult.final_recommendations answer)
    /\ SummaryResult.confidence_score answer
       == Spec.mean_of_top3
            (map FinalRecommendation.overall_score
                 (SummaryResult.final_recommendations answer)).
Proof.
  eexists. split; [vm_compute; reflexivity|].
  match goal with
  | |- sorted_desc _ (SummaryResult.final_recommendations ?sr) /\ _ =>
      destruct (C9_final_answer_sorted_and_confidence_is_mean_of_top3
                  (H := Demo.repr) Demo.shared_card_state sr)
        as (Hsorted & Hmean & _)
  end.
  - vm_compute; reflexivity.
  - split; assumption.
Defined.

Lemma C10_witness :
  goals Demo.no_goal_request = []
  /\ exists score,
       base_calculate_match_score (H := Demo.repr) general_001
                                  Demo.no_goal_request
       = Ok score
       /\ 0 <= score <= 1
       /\ Spec.goal_term (H := Demo.repr) general_001 Demo.no_goal_request
          == 0.
Proof.
  split; [reflexivity|].
  destruct (C10_base_score_total_and_bounded
              (H := Demo.repr) general_001 Demo.no_goal_request)
    as (score & Hok & Hbounds & _ & _ & _ & _ & _ & _ & Hempty).
  exists score. split; [exact Hok|]. split; [exact Hbounds|].
  apply Hempty. reflexivity.
Defined.
End Instances.


(* ================================================================== *)
(** ** Further properties: scoring of every handler *)
(* ================================================================== *)

Section HandlerScoreFacts.
Context `{PyRepr}.
Local Open Scope Q_scope.

Lemma cashback_bonus_nonneg (card : CardDict.t) : 0 <= Bonus.cashback card.
Proof.
  unfold Bonus.cashback.
  destruct (Py.contains "cashback" _); destruct (Py.contains "%" _);
    discriminate.
Qed.

Lemma student_bonus_nonneg (card : CardDict.t) : 0 <= Bonus.student card.
Proof.
  unfold Bonus.student.
  destruct (_ || _); destruct (Qle_bool _ _); discriminate.
Qed.

Lemma handler_bonus_nonneg (self : Manager) (card : CardDict.t) :
  0 <= Bonus.of_handler self card.
Proof.
  destruct self; cbn [Bonus.of_handler].
  - discriminate.
  - exact (travel_bonus_nonneg card).
  - exact (cashback_bonus_nonneg card).
  - discriminate.
  - exact (student_bonus_nonneg card).
  - discriminate.
Qed.

Lemma cashback_score_capped_sum (card : CardDict.t) (request : RequestParsed) :
  exists score,
    cashback_calculate_match_score card request = Ok score
    /\ score == Qmin (Computed.weighted_sum card request + Bonus.cashback card) 1.
Proof.
  unfold cashback_calculate_match_score.
  destruct (base_score_weighted_sum card request) as (b & -> & Hb).
  cbn [bind]. eexists. split; [reflexivity|].
  cbv zeta. rewrite py_min_Qmin.
  apply Q.min_compat; [|reflexivity].
  unfold Bonus.cashback. rewrite <- Hb.
  destruct (Py.contains "cashback" (Py.lower (str_card card)));
  destruct (Py.contains "%" (CardDict.rewards_rate card));
  cbv beta iota; ring.
Qed.

Lemma student_score_capped_sum (card : CardDict.t) (request : RequestParsed) :
  exists score,
    student_calculate_match_score card request = Ok score
    /\ score == Qmin (Computed.weighted_sum card request + Bonus.student card) 1.
Proof.
  unfold student_calculate_match_score.
  destruct (base_score_weighted_sum card request) as (b & -> & Hb).
  cbn [bind]. eexists. split; [reflexivity|].
  cbv zeta. rewrite py_min_Qmin.
  apply Q.min_compat; [|reflexivity].
  unfold Bonus.student. rewrite <- Hb.
  destruct (Py.contains "student" (Py.lower (str_card card))
            || Py.contains "first" (Py.lower (str_card card)));
  destruct (Qle_bool (CardDict.annual_fee card) 0);
  cbv beta iota; ring.
Qed.

(** X1. Whatever the handler class, the match score of a card is the base
    weighted sum plus the class's own bonus terms, capped at 1; it lies in
    [0, 1] and is never below the base handler's score. *)
Theorem X1_every_handler_score_is_capped_sum_with_bonus
    (self : Manager) (card : CardDict.t) (request : RequestParsed) :
  exists score base,
    _calculate_match_score self card request = Ok score
    /\ base_calculate_match_score card request = Ok base
    /\ score == Qmin (Computed.weighted_sum card request
                      + Bonus.of_handler self card) 1
    /\ 0 <= score <= 1
    /\ base <= score.
Proof.
  destruct (base_score_weighted_sum card request) as (b & Hb & Hbw).
  pose proof (weighted_sum_bounds card request) as Hw.
  pose proof (handler_bonus_nonneg self card) as Hbonus.
  assert (Hscore : exists score,
             _calculate_match_score self card request = Ok score
             /\ score == Qmin (Computed.weighted_sum card request
                               + Bonus.of_handler self card) 1).
  { assert (Hplain : exists score,
               base_calculate_match_score card request = Ok score
               /\ score == Qmin (Computed.weighted_sum card request + 0) 1).
    { exists b. split; [exact Hb|].
      rewrite Hbw, Qplus_0_r. symmetry. apply Q.min_l. apply Hw. }
    destruct self; cbn [_calculate_match_score Bonus.of_handler].
    - exact Hplain.
    - exact (travel_score_capped_sum card request).
    - exact (cashback_score_capped_sum card request).
    - exact Hplain.
    - exact (student_score_capped_sum card request).
    - exact Hplain. }
  destruct Hscore as (s & Hs & Hsw).
  exists s, b. split; [exact Hs|]. split; [exact Hb|]. split; [exact Hsw|].
  assert (Hlow : Computed.weighted_sum card request <= s).
  { rewrite Hsw. apply Q.min_glb; [lra | apply Hw]. }
  split; [split|].
  - lra.
  - rewrite Hsw. apply Q.le_min_r.
  - now rewrite Hbw.
Qed.
End HandlerScoreFacts.


(* ================================================================== *)
(** ** Further properties: what a handler produces *)
(* ================================================================== *)

Lemma mapM_ext {A B} (f g : A -> result B) (l : list A) :
  (forall a, f a = g a) -> mapM f l = mapM g l.
Proof.
  intros Hfg. induction l as [|a t IH]; [reflexivity|].
  cbn [mapM]. now rewrite Hfg, IH.
Qed.

Lemma get_set_other {V} (d : Py.dict V) (k k' : string) (v : V) :
  k' <> k -> Py.get (Py.set d k v) k' = Py.get d k'.
Proof.
  intros Hne. induction d as [|[k0 v0] t IH]; simpl.
  - destruct (String.eqb k' k) eqn:E; [|reflexivity].
    apply String.eqb_eq in E. contradiction.
  - destruct (String.eqb k k0) eqn:E; simpl.
    + apply String.eqb_eq in E. subst k0.
      destruct (String.eqb k' k) eqn:E'; [|reflexivity].
      apply String.eqb_eq in E'. contradiction.
    + destruct (String.eqb k' k0); [reflexivity | exact IH].
Qed.

Lemma sorted_desc_head_max {A} (key : A -> Q) (x : A) (l : list A) :
  sorted_desc key (x :: l) -> forall y, In y (x :: l) -> (key y <= key x)%Q.
Proof.
  unfold sorted_desc. intros Hs y [<-|Hy]; [apply Qle_refl|].
  inversion Hs as [|? ? _ Hall]; subst.
  rewrite Forall_forall in Hall. now apply Hall.
Qed.

Lemma in_firstn {A} (n : nat) (l : list A) (x : A) :
  In x (firstn n l) -> In x l.
Proof.
  intros Hin. rewrite <- (firstn_skipn n l). apply in_or_app. now left.
Qed.

Lemma hd_error_firstn {A} (n : nat) (l : list A) :
  hd_error (firstn (S n) l) = hd_error l.
Proof. now destruct l. Qed.

Section HandlerResultFacts.
Context `{PyRepr} `{LLMTool} `{CatalogTool}.
Local Open Scope Q_scope.

Lemma base_score_same_for_ranking
    (card : CardDict.t) (r1 r2 : RequestParsed) :
  same_for_ranking r1 r2 ->
  base_calculate_match_score card r1 = base_calculate_match_score card r2.
Proof.
  intros (Hg & Hr & Ht & Hc).
  unfold base_calculate_match_score, goal_matches.
  rewrite Hg, Hr, Ht.
  destruct (constraints r1) as [|c1 t1], (constraints r2) as [|c2 t2];
    try reflexivity.
  - destruct Hc as [Hc _]. discriminate (Hc eq_refl).
  - destruct Hc as [_ Hc]. discriminate (Hc eq_refl).
Qed.

Lemma score_same_for_ranking
    (self : Manager) (card : CardDict.t) (r1 r2 : RequestParsed) :
  same_for_ranking r1 r2 ->
  _calculate_match_score self card r1 = _calculate_match_score self card r2.
Proof.
  intros Hsame.
  pose proof (base_score_same_for_ranking card r1 r2 Hsame) as Hb.
  destruct self; cbn [_calculate_match_score];
    unfold travel_calculate_match_score, cashback_calculate_match_score,
      student_calculate_match_score; now rewrite ?Hb.
Qed.

(** X2. Ranking and the mock catalog read the goals, the risk tolerance,
    the time horizon and whether the constraint map is empty, and nothing
    else of a request: two requests that agree on these get the same catalog
    entries and the same ranked recommendations from every handler.  In
    particular the content of the constraint map (a maximal annual fee, say)
    is never enforced. *)
Theorem X2_constraint_values_are_never_enforced
    (self : Manager) (cards : list CardDict.t) (r1 r2 : RequestParsed) :
  same_for_ranking r1 r2 ->
  mock_search_cards (criteria_of r1) = mock_search_cards (criteria_of r2)
  /\ rank_cards self cards r1 = rank_cards self cards r2.
Proof.
  intros Hsame. pose proof Hsame as (Hg & Hr & Ht & Hc). split.
  - unfold mock_search_cards, criteria_of. cbn. now rewrite Hg, Hr.
  - unfold rank_cards. f_equal. apply mapM_ext. intros card.
    unfold make_recommendation.
    rewrite (score_same_for_ranking self card r1 r2 Hsame).
    destruct (_calculate_match_score self card r2); [|reflexivity].
    cbn [bind]. unfold _generate_reasoning. now rewrite Hg.
Qed.

(** Every field of a produced category result. *)
Lemma execute_steps_fields
    (self : Manager) (state : GraphState) (mr : ManagerResult.t) :
  execute_steps self state = Ok mr ->
  exists (r : RequestParsed) (scored : list CardRecommendation.t),
    request state = Some r
    /\ mapM (make_recommendation self r) (search_catalog (criteria_of r))
       = Ok scored
    /\ ManagerResult.recommendations mr
       = firstn 3 (Py.sort_desc CardRecommendation.match_score scored)
    /\ ManagerResult.best_match mr
       = hd_error (Py.sort_desc CardRecommendation.match_score scored)
    /\ ManagerResult.total_cards_found mr
       = List.length (search_catalog (criteria_of r))
    /\ ManagerResult.manager_type mr = manager_type self.
Proof.
  unfold execute_steps. intros Hs.
  destruct (analyze_request self (request state)) as [a|]; [|discriminate].
  cbn [bind] in Hs.
  destruct (request state) as [r|]; [|discriminate].
  unfold rank_cards in Hs. fold (criteria_of r) in Hs.
  destruct (mapM (make_recommendation self r) (search_catalog (criteria_of r)))
    as [scored|] eqn:Hm; [|discriminate].
  cbn [bind] in Hs. injection Hs as <-.
  exists r, scored. split; [reflexivity|]. split; [exact Hm|].
  split; [reflexivity|].
  split; [apply (hd_error_firstn 2)|]. now split.
Qed.

Lemma Forall2_length_eq {A B} (R : A -> B -> Prop) (l : list A) (l' : list B) :
  Forall2 R l l' -> List.length l = List.length l'.
Proof. induction 1; simpl; congruence. Qed.

Lemma Forall2_in_r {A B} (R : A -> B -> Prop) (l : list A) (l' : list B) b :
  Forall2 R l l' -> In b l' -> exists a, In a l /\ R a b.
Proof.
  induction 1 as [|a0 b0 l l' Hab _ IH]; intros Hin; [contradiction|].
  destruct Hin as [<-|Hin].
  - exists a0. split; [now left | assumption].
  - destruct (IH Hin) as (a & Ha & HR). exists a. split; [now right|assumption].
Qed.

Lemma Forall2_in_l {A B} (R : A -> B -> Prop) (l : list A) (l' : list B) a :
  Forall2 R l l' -> In a l -> exists b, In b l' /\ R a b.
Proof.
  induction 1 as [|a0 b0 l l' Hab _ IH]; intros Hin; [contradiction|].
  destruct Hin as [<-|Hin].
  - exists b0. split; [now left | assumption].
  - destruct (IH Hin) as (b & Hb & HR). exists b. split; [now right|assumption].
Qed.

(** X3. In every category result a handler produces, [best_match] is the
    head of the recommendation list and no catalog entry scores higher than
    it; it is missing exactly when the catalog search returned no card;
    [total_cards_found] counts the catalog entries, of which at most three
    are listed. *)
Theorem X3_best_match_is_the_top_scoring_catalog_entry
    (self : Manager) (state : GraphState) (mr : ManagerResult.t) :
  execute_steps self state = Ok mr ->
  exists r,
    request state = Some r
    /\ ManagerResult.best_match mr = hd_error (ManagerResult.recommendations mr)
    /\ ManagerResult.total_cards_found mr
       = List.length (search_catalog (criteria_of r))
    /\ (List.length (ManagerResult.recommendations mr)
        = Nat.min 3 (ManagerResult.total_cards_found mr))
    /\ (ManagerResult.best_match mr = None
        <-> search_catalog (criteria_of r) = [])
    /\ (forall best card score,
          ManagerResult.best_match mr = Some best ->
          In card (search_catalog (criteria_of r)) ->
          _calculate_match_score self card r = Ok score ->
          score <= CardRecommendation.match_score best).
Proof.
  intros Hs.
  destruct (execute_steps_fields self state mr Hs)
    as (r & scored & Hr & Hm & Hrecs & Hbest & Htotal & _).
  pose proof (mapM_Forall2 _ _ _ Hm) as Hf2.
  pose proof (Forall2_length_eq _ _ _ Hf2) as Hlen.
  set (ranked := Py.sort_desc CardRecommendation.match_score scored) in *.
  assert (Hrl : List.length ranked = List.length scored)
    by apply sort_desc_length.
  exists r. split; [exact Hr|].
  split; [rewrite Hbest, Hrecs; symmetry; apply hd_error_firstn|].
  split; [exact Htotal|].
  split; [rewrite Hrecs, Htotal, length_firstn; congruence|].
  split.
  - rewrite Hbest. split.
    + intros Hnone. destruct ranked as [|x t] eqn:E; [|discriminate].
      apply length_zero_iff_nil. cbn in Hrl. congruence.
    + intros Hnil. rewrite Hnil in Hlen. cbn in Hlen.
      destruct ranked; [reflexivity | cbn in Hrl; lia].
  - intros best card score Hb Hin Hscore.
    destruct (Forall2_in_l _ _ _ card Hf2 Hin) as (rec & Hrec & Hmk).
    unfold make_recommendation in Hmk. rewrite Hscore in Hmk.
    cbn [bind] in Hmk. injection Hmk as <-.
    rewrite Hbest in Hb.
    destruct ranked as [|x t] eqn:E; [discriminate|].
    injection Hb as <-.
    assert (Hin' : In {| CardRecommendation.card_id := CardDict.card_id card;
                         CardRecommendation.card_name := CardDict.card_name card;
                         CardRecommendation.card_type := CardDict.card_type card;
                         CardRecommendation.issuer := CardDict.issuer card;
                         CardRecommendation.annual_fee := CardDict.annual_fee card;
                         CardRecommendation.rewards_rate :=
                           CardDict.rewards_rate card;
                         CardRecommendation.signup_bonus :=
                           CardDict.signup_bonus card;
                         CardRecommendation.credit_score_required :=
                           CardDict.credit_score_required card;
                         CardRecommendation.pros := CardDict.pros card;
                         CardRecommendation.cons := CardDict.cons card;
                         CardRecommendation.match_score := score;
                         CardRecommendation.reasoning :=
                           _generate_reasoning card r score |} (x :: t)).
    { rewrite <- E. eapply Permutation_in; [|exact Hrec].
      apply Permutation_sym, sort_desc_perm. }
    apply (sorted_desc_head_max CardRecommendation.match_score x t) in Hin'.
    + exact Hin'.
    + rewrite <- E. apply sort_desc_sorted.
Qed.

(** X4. A handler lists catalog entries only and copies them unchanged:
    every recommendation of a produced result carries the identifier, name,
    type, issuer, annual fee, reward and bonus texts, eligibility tier, pros
    and cons of one entry the catalog search returned, and its match score
    is the handler's score for that entry. *)
Theorem X4_recommendations_copy_catalog_entries
    (self : Manager) (state : GraphState) (mr : ManagerResult.t)
    (rec : CardRecommendation.t) :
  execute_steps self state = Ok mr ->
  In rec (ManagerResult.recommendations mr) ->
  exists r card,
    request state = Some r
    /\ In card (search_catalog (criteria_of r))
    /\ CardRecommendation.card_id rec = CardDict.card_id card
    /\ CardRecommendation.card_name rec = CardDict.card_name card
    /\ CardRecommendation.card_type rec = CardDict.card_type card
    /\ CardRecommendation.issuer rec = CardDict.issuer card
    /\ CardRecommendation.annual_fee rec = CardDict.annual_fee card
    /\ CardRecommendation.rewards_rate rec = CardDict.rewards_rate card
    /\ CardRecommendation.signup_bonus rec = CardDict.signup_bonus card
    /\ CardRecommendation.credit_score_required rec
       = CardDict.credit_score_required card
    /\ CardRecommendation.pros rec = CardDict.pros card
    /\ CardRecommendation.cons rec = CardDict.cons card
    /\ _calculate_match_score self card r
       = Ok (CardRecommendation.match_score rec)
    /\ CardRecommendation.reasoning rec
       = _generate_reasoning card r (CardRecommendation.match_score rec).
Proof.
  intros Hs Hin.
  destruct (execute_steps_fields self state mr Hs)
    as (r & scored & Hr & Hm & Hrecs & _).
  rewrite Hrecs in Hin. apply in_firstn in Hin.
  apply (Permutation_in _ (sort_desc_perm _ scored)) in Hin.
  destruct (Forall2_in_r _ _ _ rec (mapM_Forall2 _ _ _ Hm) Hin)
    as (card & Hcard & Hmk).
  exists r, card. split; [exact Hr|]. split; [exact Hcard|].
  unfold make_recommendation in Hmk.
  destruct (_calculate_match_score self card r) as [s|]; [|discriminate].
  cbn [bind] in Hmk. injection Hmk as <-. cbn. repeat split.
Qed.
End HandlerResultFacts.


Section HandlerBoundaryFacts.
Context `{PyRepr} `{LLMTool} `{CatalogTool}.
Local Open Scope Q_scope.

Lemma analyze_request_cases (self : Manager) (r : RequestParsed) :
  (exists a, analyze_request self (Some r) = Ok a)
  \/ (self <> BaseCardManager /\ nlu_extract r = Ok AnalysisOther
      /\ analyze_request self (Some r)
         = Raise (TypeError "object does not support item assignment")).
Proof.
  unfold analyze_request, base_analyze_request.
  destruct (nlu_extract r) as [[keys|]|e]; cbn [bind].
  - left. destruct self; cbn [analysis_setitem]; eexists; reflexivity.
  - destruct self; cbn [analysis_setitem];
      first [ left; eexists; reflexivity
            | right; split; [discriminate | split; reflexivity] ].
  - left. destruct self; cbn [analysis_setitem]; eexists; reflexivity.
Qed.

(** X5. A handler fails in exactly two situations: the state holds no
    request, or the handler is one of the five specialised ones and the
    text-understanding collaborator's analysis is not a dict.  A failing
    collaborator or catalog never makes it fail. *)
Theorem X5_handler_fails_only_without_request_or_on_non_dict_analysis
    (self : Manager) (state : GraphState) :
  (exists e, execute_steps self state = Raise e)
  <-> (request state = None
       \/ exists r, request state = Some r
                    /\ self <> BaseCardManager
                    /\ nlu_extract r = Ok AnalysisOther).
Proof.
  split.
  - intros (e & He). destruct (request state) as [r|] eqn:Hr; [|now left].
    right. exists r. split; [reflexivity|].
    destruct (analyze_request_cases self r) as [(a & Ha)|(Hne & Hllm & _)];
      [|now split].
    destruct (execute_steps_ok self state r a Hr Ha) as (mr & Hmr).
    congruence.
  - intros [Hnone|(r & Hr & Hne & Hllm)].
    + unfold execute_steps, analyze_request, base_analyze_request.
      rewrite Hnone. cbn [bind]. eexists; reflexivity.
    + destruct (analyze_request_cases self r) as [(a & Ha)|(_ & _ & Hraise)].
      * exfalso. unfold analyze_request, base_analyze_request in Ha.
        rewrite Hllm in Ha. cbn [bind] in Ha.
        destruct self; cbn [analysis_setitem] in Ha;
          first [discriminate | now apply Hne].
      * unfold execute_steps. rewrite Hr, Hraise. cbn [bind].
        eexists; reflexivity.
Qed.

(** X6. A catalog failure is absorbed without a trace: when the catalog
    collaborator raises, the handler ranks the built-in fallback entry
    [mock_001], writes a result holding exactly that recommendation under
    its own key and appends no error record. *)
Theorem X6_catalog_failure_falls_back_to_mock_card
    (self : Manager) (state : GraphState) (r : RequestParsed)
    (a : Analysis) (e : exn) :
  request state = Some r ->
  analyze_request self (Some r) = Ok a ->
  search_cards (criteria_of r) = Raise e ->
  exists mr rec,
    execute_steps self state = Ok mr
    /\ ManagerResult.recommendations mr = [rec]
    /\ ManagerResult.best_match mr = Some rec
    /\ ManagerResult.total_cards_found mr = 1%nat
    /\ CardRecommendation.card_id rec = "mock_001"%string
    /\ Py.get (manager_results (execute self state)) (manager_type self)
       = Some mr
    /\ errors (execute self state) = errors state.
Proof.
  intros Hr Ha Hcat.
  destruct (execute_steps_ok self state r a Hr Ha) as (mr & Hmr).
  destruct (execute_steps_fields self state mr Hmr)
    as (r' & scored & Hr' & Hm & Hrecs & Hbest & Htotal & _).
  assert (r' = r) by congruence. subst r'.
  assert (Hraw : search_catalog (criteria_of r) = _get_mock_cards).
  { unfold search_catalog. now rewrite Hcat. }
  rewrite Hraw in Hm, Htotal.
  unfold _get_mock_cards in Hm. cbn [mapM] in Hm.
  destruct (make_recommendation self r _) as [rec|] eqn:Hrec;
    [|discriminate].
  cbn [bind] in Hm. injection Hm as <-.
  exists mr, rec. split; [exact Hmr|].
  split; [exact Hrecs|]. split; [exact Hbest|]. split; [exact Htotal|].
  split.
  - unfold make_recommendation in Hrec.
    destruct (_calculate_match_score self _ r); [|discriminate].
    cbn [bind] in Hrec. now injection Hrec as <-.
  - now apply execute_writes_result.
Qed.

(** X7. Whether it succeeds or fails, a handler's [execute] records itself
    once in the completed-stage list, names the summary stage as next node,
    appends at most one error record, leaves every other key of the result
    map as it was and does not touch the query, the request, the fan-out
    plan or the final answer. *)
Theorem X7_handler_writes_only_its_own_key
    (self : Manager) (state : GraphState) :
  let state' := execute self state in
  current_node state' = Some (manager_type self)
  /\ completed_nodes state' = completed_nodes state ++ [manager_type self]
  /\ next_nodes state' = ["summary"%string]
  /\ (errors state' = errors state
      \/ exists e,
           errors state'
           = errors state
             ++ [{| node := manager_type self; error := str_exn e;
                    type := None |}])
  /\ (forall key, key <> manager_type self ->
                  Py.get (manager_results state') key
                  = Py.get (manager_results state) key)
  /\ user_query state' = user_query state
  /\ request state' = request state
  /\ fanout_plan state' = fanout_plan state
  /\ final_recommendations state' = final_recommendations state
  /\ telemetry state' = telemetry state.
Proof.
  cbv zeta. unfold execute.
  rewrite (execute_steps_request self state) by reflexivity.
  destruct (execute_steps self state) as [mr|e]; cbn.
  - repeat (split; [reflexivity|]).
    split; [now left|].
    split; [|repeat split].
    intros key Hne. now apply get_set_other.
  - repeat (split; [reflexivity|]).
    split; [right; now exists e|].
    repeat split.
Qed.
End HandlerBoundaryFacts.


(* ================================================================== *)
(** ** Further properties: the mock catalog *)
(* ================================================================== *)

(** The entries the mock catalog returns have pairwise distinct
    identifiers. *)
Lemma mock_search_cards_distinct_ids (criteria : SearchCriteria) :
  exists cards,
    mock_search_cards criteria = Ok cards
    /\ NoDup (map CardDict.card_id cards).
Proof.
  unfold mock_search_cards. cbv zeta.
  eexists. split; [reflexivity|].
  destruct (any_goal_in (criteria_goals criteria) ["miles"; "travel"; "airline"]);
  destruct (any_goal_in (criteria_goals criteria) ["cashback"; "rewards"]);
  destruct (any_goal_in (criteria_goals criteria) ["business"; "corporate"]);
  destruct (any_goal_in (criteria_goals criteria) ["student"; "building_credit"]);
  destruct (String.eqb (criteria_risk_tolerance criteria) "conservative");
  try (destruct (String.eqb (criteria_risk_tolerance criteria) "standard"));
  cbn; repeat constructor; cbn; intuition discriminate.
Qed.


(** X8. The mock catalog never raises and returns at most five entries, all
    taken from its seven cards and with pairwise distinct identifiers; under
    a conservative risk tolerance every returned card has an annual fee of
    at most 50 (and the result may be empty), under any other risk tolerance
    at least one card is returned. *)
Theorem X8_mock_catalog_result_is_bounded_and_distinct
    (criteria : SearchCriteria) :
  exists cards,
    mock_search_cards criteria = Ok cards
    /\ (List.length cards <= 5)%nat
    /\ NoDup (map CardDict.card_id cards)
    /\ (forall card,
          In card cards ->
          In card [travel_001; travel_002; cashback_001; cashback_002;
                   business_001; student_001; general_001])
    /\ (criteria_risk_tolerance criteria = "conservative"%string ->
        Forall (fun card => (CardDict.annual_fee card <= 50)%Q) cards)
    /\ (criteria_risk_tolerance criteria <> "conservative"%string ->
        cards <> []).
Proof.
  unfold mock_search_cards. cbv zeta.
  eexists. split; [reflexivity|].
  split; [apply firstn_le_length|].
  destruct (any_goal_in (criteria_goals criteria) ["miles"; "travel"; "airline"]);
  destruct (any_goal_in (criteria_goals criteria) ["cashback"; "rewards"]);
  destruct (any_goal_in (criteria_goals criteria) ["business"; "corporate"]);
  destruct (any_goal_in (criteria_goals criteria) ["student"; "building_credit"]);
  destruct (String.eqb (criteria_risk_tolerance criteria) "conservative") eqn:Ec;
  try (destruct (String.eqb (criteria_risk_tolerance criteria) "standard"));
  cbn.
  all: (split; [solve [repeat constructor; cbn; intuition discriminate]|]).
  all: (split; [solve [cbn; tauto]|]).
  all: split.
  all: try solve [intros _; repeat constructor; discriminate].
  all: try solve [intros Hc; rewrite Hc in Ec; discriminate Ec].
  all: intros Hne; first
         [ discriminate
         | exfalso; apply Hne; now apply String.eqb_eq ].
Qed.

Lemma NoDup_map_firstn {A B} (f : A -> B) (n : nat) (l : list A) :
  NoDup (map f l) -> NoDup (map f (firstn n l)).
Proof.
  intros Hnd. rewrite <- (firstn_skipn n l), map_app in Hnd.
  now apply NoDup_app_remove_r in Hnd.
Qed.

Lemma Forall2_map_eq {A B C} (f : A -> C) (g : B -> C)
    (R : A -> B -> Prop) (l : list A) (l' : list B) :
  (forall a b, R a b -> f a = g b) ->
  Forall2 R l l' -> map f l = map g l'.
Proof.
  intros HR. induction 1 as [|a b l l' Hab _ IH]; [reflexivity|].
  cbn. now rewrite (HR a b Hab), IH.
Qed.

Section MockCatalogRuns.
Context `{PyRepr} `{LLMTool}.

Lemma make_recommendation_id
    (self : Manager) (r : RequestParsed) (card : CardDict.t)
    (rec : CardRecommendation.t) :
  make_recommendation self r card = Ok rec ->
  CardDict.card_id card = CardRecommendation.card_id rec.
Proof.
  unfold make_recommendation.
  destruct (_calculate_match_score self card r); [|discriminate].
  cbn [bind]. now intros [= <-].
Qed.

(** X9. On the mock catalog a handler never lists a card twice: the
    recommendations of every result it produces have pairwise distinct card
    identifiers. *)
Theorem X9_handler_on_mock_catalog_lists_distinct_cards
    (self : Manager) (state : GraphState) (mr : ManagerResult.t) :
  execute_steps (H1 := MockCatalogTool) self state = Ok mr ->
  NoDup (map CardRecommendation.card_id (ManagerResult.recommendations mr)).
Proof.
  intros Hs.
  destruct (execute_steps_fields (H1 := MockCatalogTool) self state mr Hs)
    as (r & scored & Hr & Hm & -> & _).
  apply NoDup_map_firstn.
  eapply Permutation_NoDup.
  { apply Permutation_map, Permutation_sym, sort_desc_perm. }
  rewrite <- (Forall2_map_eq CardDict.card_id CardRecommendation.card_id _ _ _
                (make_recommendation_id self r) (mapM_Forall2 _ _ _ Hm)).
  unfold search_catalog. cbn [search_cards MockCatalogTool].
  destruct (mock_search_cards_distinct_ids (criteria_of r))
    as (cards & -> & Hnd).
  exact Hnd.
Qed.
End MockCatalogRuns.


(* ================================================================== *)
(** ** Further properties: the aggregation stage *)
(* ================================================================== *)

Lemma total_bounds (l : list Q) :
  Forall (fun q => (0 <= q <= 1)%Q) l ->
  (0 <= Spec.total l <= inject_Z (Z.of_nat (List.length l)))%Q.
Proof.
  unfold Spec.total.
  induction 1 as [|q t Hq _ IH].
  - cbn. split; apply Qle_refl.
  - cbn [fold_right List.length]. rewrite inject_nat_succ. lra.
Qed.

Lemma mean_of_top3_bounds (l : list Q) :
  Forall (fun q => (0 <= q <= 1)%Q) l ->
  (0 <= Spec.mean_of_top3 l <= 1)%Q.
Proof.
  intros Hall. unfold Spec.mean_of_top3.
  assert (Htop : Forall (fun q => (0 <= q <= 1)%Q) (firstn 3 l)).
  { rewrite <- (firstn_skipn 3 l) in Hall. now apply Forall_app in Hall. }
  destruct (firstn 3 l) as [|q t] eqn:E; [split; discriminate|].
  pose proof (total_bounds (q :: t) Htop) as Hb.
  assert (Hn : (0 < inject_Z (Z.of_nat (List.length (q :: t))))%Q).
  { unfold Qlt. cbn. lia. }
  split.
  - apply Qle_shift_div_l; [assumption|]. lra.
  - apply Qle_shift_div_r; [assumption|]. lra.
Qed.

Section AggregationMoreFacts.
Context `{PyRepr}.
Local Open Scope Q_scope.

Lemma pool_empty_iff (manager_results : Py.dict ManagerResult.t) :
  SummaryAgent.aggregate_manager_results manager_results = []
  <-> Spec.pool_size manager_results = 0%nat.
Proof.
  rewrite <- all_entries_length, aggregate_all_entries.
  apply iff_sym, length_zero_iff_nil.
Qed.

Lemma create_final_nonempty
    (c : CardRecommendation.t) (pool : list CardRecommendation.t)
    (manager_results : Py.dict ManagerResult.t) (request : option RequestParsed) :
  SummaryAgent.create_final_recommendations (c :: pool) manager_results request
  <> [].
Proof.
  intros Hnil. apply (f_equal (@List.length _)) in Hnil.
  unfold SummaryAgent.create_final_recommendations in Hnil.
  rewrite sort_desc_length, length_map in Hnil. discriminate.
Qed.

(** X10. The aggregation stage has three regimes.  With an empty candidate
    pool (no category result, or only empty ones) it answers "no
    recommendations": no entry, no top recommendation, zero analysed cards
    and zero confidence, whether or not a request is present.  With a
    non-empty pool and a request it always produces an answer.  With a
    non-empty pool and no request it fails: no final answer is stored and
    one error record tagged [summary] is appended. *)
Theorem X10_aggregation_fails_exactly_without_request_on_nonempty_pool
    (state : GraphState) :
  (Spec.pool_size (manager_results state) = 0%nat ->
   exists answer,
     SummaryAgent.execute_steps state = Ok answer
     /\ SummaryResult.final_recommendations answer = []
     /\ SummaryResult.top_recommendation answer = None
     /\ SummaryResult.total_cards_analyzed answer = 0%nat
     /\ SummaryResult.confidence_score answer == 0)
  /\ ((exists e, SummaryAgent.execute_steps state = Raise e)
      <-> (request state = None
           /\ Spec.pool_size (manager_results state) <> 0%nat))
  /\ (forall e,
        SummaryAgent.execute_steps state = Raise e ->
        final_recommendations (SummaryAgent.execute state)
        = final_recommendations state
        /\ errors (SummaryAgent.execute state)
           = errors state
             ++ [{| node := "summary"; error := str_exn e; type := None |}]
        /\ next_nodes (SummaryAgent.execute state) = []).
Proof.
  split; [|split].
  - intros Hpool. apply pool_empty_iff in Hpool.
    unfold SummaryAgent.execute_steps. cbv zeta.
    destruct (manager_results state) as [|item rest].
    + eexists. split; [reflexivity|]. repeat split.
    + rewrite Hpool. eexists. split; [reflexivity|]. repeat split.
  - split.
    + intros (e & He).
      destruct (request state) as [r|] eqn:Hr.
      { destruct (summary_steps_ok state r Hr) as (sr & Hsr). congruence. }
      split; [reflexivity|].
      intros Hpool. apply pool_empty_iff in Hpool.
      unfold SummaryAgent.execute_steps in He. cbv zeta in He.
      destruct (manager_results state); [discriminate|].
      rewrite Hpool in He. discriminate.
    + intros (Hr & Hpool).
      unfold SummaryAgent.execute_steps. cbv zeta.
      destruct (manager_results state) as [|item rest] eqn:Hmr;
        [now contradiction Hpool|].
      destruct (SummaryAgent.aggregate_manager_results (item :: rest))
        as [|c pool] eqn:Hagg.
      { apply pool_empty_iff in Hagg. contradiction. }
      rewrite Hr.
      pose proof (create_final_nonempty c pool (item :: rest) None) as Hne.
      destruct (SummaryAgent.create_final_recommendations
                  (c :: pool) (item :: rest) None) as [|f fs];
        [contradiction|].
      cbn [SummaryAgent.generate_summary_text bind]. eexists; reflexivity.
  - intros e He. unfold SummaryAgent.execute.
    assert (Hsame : SummaryAgent.execute_steps
                      (set_completed_nodes
                         (completed_nodes
                            (set_current_node (Some SummaryAgent.agent_type)
                                              state)
                          ++ [SummaryAgent.agent_type])
                         (set_current_node (Some SummaryAgent.agent_type)
                                           state))
                    = SummaryAgent.execute_steps state) by reflexivity.
    rewrite Hsame, He. repeat split.
Qed.

(** X11. In every final answer the top recommendation is the head of the
    final list and no entry has a higher aggregate score; it is missing
    exactly when the candidate pool is empty. *)
Theorem X11_top_recommendation_has_the_highest_aggregate_score
    (state : GraphState) (answer : SummaryResult.t) :
  SummaryAgent.execute_steps state = Ok answer ->
  SummaryResult.top_recommendation answer
  = hd_error (SummaryResult.final_recommendations answer)
  /\ (SummaryResult.top_recommendation answer = None
      <-> Spec.pool_size (manager_results state) = 0%nat)
  /\ (forall top entry,
        SummaryResult.top_recommendation answer = Some top ->
        In entry (SummaryResult.final_recommendations answer) ->
        FinalRecommendation.overall_score entry
        <= FinalRecommendation.overall_score top).
Proof.
  intros Hs.
  destruct (summary_steps_inv state answer Hs) as (Hfinal & Htotal & Htop & _).
  assert (Hlen : List.length (SummaryResult.final_recommendations answer)
                 = Spec.pool_size (manager_results state)).
  { rewrite Hfinal. unfold SummaryAgent.create_final_recommendations.
    now rewrite sort_desc_length, length_map, aggregate_all_entries,
      all_entries_length. }
  assert (Hsorted : sorted_desc FinalRecommendation.overall_score
                      (SummaryResult.final_recommendations answer)).
  { rewrite Hfinal. apply sort_desc_sorted. }
  split; [exact Htop|]. rewrite Htop. split.
  - rewrite <- Hlen.
    destruct (SummaryResult.final_recommendations answer); cbn;
      split; intros; first [reflexivity | discriminate].
  - intros top entry Hhd Hin.
    destruct (SummaryResult.final_recommendations answer) as [|x t];
      [contradiction|].
    injection Hhd as <-.
    now apply (sorted_desc_head_max FinalRecommendation.overall_score x t).
Qed.

(** X12. Ties in the final list follow the pool: among final entries with
    the same aggregate score, the order is the order of the candidate pool,
    that is the order of the categories in the result map and, within a
    category, of its recommendation list. *)
Theorem X12_final_order_is_stable_in_pool_order
    (state : GraphState) (answer : SummaryResult.t) (q : Q) :
  SummaryAgent.execute_steps state = Ok answer ->
  filter (has_score FinalRecommendation.overall_score q)
         (SummaryResult.final_recommendations answer)
  = filter (has_score FinalRecommendation.overall_score q)
           (map (SummaryAgent.final_recommendation
                   (manager_results state) (request state))
                (Spec.all_entries (manager_results state)))
  /\ Permutation
       (SummaryResult.final_recommendations answer)
       (map (SummaryAgent.final_recommendation
               (manager_results state) (request state))
            (Spec.all_entries (manager_results state))).
Proof.
  intros Hs.
  destruct (summary_steps_inv state answer Hs) as (-> & _).
  rewrite aggregate_all_entries.
  unfold SummaryAgent.create_final_recommendations. split.
  - apply sort_desc_stable.
  - apply sort_desc_perm.
Qed.

Lemma overall_score_nonneg
    (card : CardRecommendation.t) (manager_results : Py.dict ManagerResult.t) :
  0 <= CardRecommendation.match_score card ->
  0 <= SummaryAgent.calculate_overall_score card manager_results.
Proof.
  intros Hc. rewrite overall_score_formula.
  apply Q.min_glb; [|discriminate].
  assert (Hn : 0 <= inject_Z (Z.of_nat
                  (Spec.entries_with_id (CardRecommendation.card_id card)
                                        manager_results))).
  { change 0 with (inject_Z 0). rewrite <- Zle_Qle. lia. }
  nra.
Qed.

(** X13. When no pooled candidate has a negative match score, every
    aggregate score of the final answer lies in [0, 1], and so does the
    confidence. *)
Theorem X13_aggregate_scores_and_confidence_lie_in_unit_interval
    (state : GraphState) (answer : SummaryResult.t) :
  SummaryAgent.execute_steps state = Ok answer ->
  Forall (fun c => 0 <= CardRecommendation.match_score c)
         (Spec.all_entries (manager_results state)) ->
  Forall (fun f => 0 <= FinalRecommendation.overall_score f <= 1)
         (SummaryResult.final_recommendations answer)
  /\ 0 <= SummaryResult.confidence_score answer <= 1.
Proof.
  intros Hs Hpos.
  destruct (summary_steps_inv state answer Hs) as (Hfinal & _ & _ & Hconf).
  assert (Hall : Forall (fun f => 0 <= FinalRecommendation.overall_score f <= 1)
                        (SummaryResult.final_recommendations answer)).
  { rewrite Hfinal, aggregate_all_entries.
    eapply Permutation_Forall; [apply Permutation_sym, create_final_perm|].
    apply Forall_forall. intros f Hf.
    apply in_map_iff in Hf. destruct Hf as (c & <- & Hc).
    rewrite Forall_forall in Hpos.
    cbn [SummaryAgent.final_recommendation FinalRecommendation.overall_score].
    split; [apply overall_score_nonneg; now apply Hpos
           | apply overall_score_le_1]. }
  split; [exact Hall|].
  rewrite Hconf. apply mean_of_top3_bounds.
  apply Forall_forall. intros q Hq.
  apply in_map_iff in Hq. destruct Hq as (f & <- & Hf).
  rewrite Forall_forall in Hall. now apply Hall.
Qed.
End AggregationMoreFacts.


(** *** The per-category scores attached to a final entry *)

Lemma in_keys_set {V} (d : Py.dict V) (k x : string) (v : V) :
  In x (Py.keys (Py.set d k v)) <-> x = k \/ In x (Py.keys d).
Proof.
  unfold Py.keys. induction d as [|[k0 v0] t IH]; cbn.
  - intuition.
  - destruct (String.eqb k k0) eqn:E; cbn.
    + apply String.eqb_eq in E. subst k0. intuition.
    + rewrite IH. intuition.
Qed.

Lemma nodup_keys_set {V} (d : Py.dict V) (k : string) (v : V) :
  NoDup (Py.keys d) -> NoDup (Py.keys (Py.set d k v)).
Proof.
  unfold Py.keys. induction d as [|[k0 v0] t IH]; cbn; intros Hnd.
  - repeat constructor. intros [].
  - destruct (String.eqb k k0) eqn:E; cbn; [exact Hnd|].
    inversion Hnd as [|? ? Hnotin Ht]; subst.
    constructor; [|now apply IH].
    intros Hin. apply (in_keys_set t k k0 v) in Hin.
    destruct Hin as [->|Hin]; [|contradiction].
    rewrite String.eqb_refl in E. discriminate.
Qed.

Lemma get_set_cases {V} (d : Py.dict V) (k x : string) (v w : V) :
  Py.get (Py.set d k v) x = Some w ->
  (x = k /\ w = v) \/ (x <> k /\ Py.get d x = Some w).
Proof.
  destruct (String.eqb x k) eqn:E.
  - apply String.eqb_eq in E. subst x. rewrite get_set_same.
    intros [= <-]. now left.
  - apply String.eqb_neq in E. rewrite (get_set_other d k x v E).
    intros Hget. now right.
Qed.

Section ManagerScoresFacts.
Context `{PyRepr}.
Local Open Scope Q_scope.

(** The inner loop over one category's list. *)
Lemma scores_inner_spec (id category : string)
    (recs : list CardRecommendation.t) (acc : Py.dict Q) :
  let res :=
    fold_left
      (fun manager_scores rec =>
         if String.eqb (CardRecommendation.card_id rec) id
         then Py.set manager_scores category
                     (CardRecommendation.match_score rec)
         else manager_scores)
      recs acc in
  (NoDup (Py.keys acc) -> NoDup (Py.keys res))
  /\ (forall x,
        In x (Py.keys res)
        <-> In x (Py.keys acc)
            \/ (x = category
                /\ existsb (fun rec =>
                              String.eqb (CardRecommendation.card_id rec) id)
                           recs = true))
  /\ (forall x w,
        Py.get res x = Some w ->
        Py.get acc x = Some w
        \/ (x = category
            /\ exists rec,
                 In rec recs
                 /\ CardRecommendation.card_id rec = id
                 /\ w = CardRecommendation.match_score rec)).
Proof.
  cbv zeta. revert acc.
  induction recs as [|r t IH]; intros acc; cbn [fold_left existsb].
  - split; [auto|]. split; [|auto].
    intros x. split; [auto|]. intros [Hx|[_ Hf]]; [assumption|discriminate].
  - destruct (String.eqb (CardRecommendation.card_id r) id) eqn:E.
    + destruct (IH (Py.set acc category (CardRecommendation.match_score r)))
        as (Hnd & Hkeys & Hget).
      apply String.eqb_eq in E.
      split; [intros Ha; now apply Hnd, nodup_keys_set|].
      split.
      * intros x. rewrite Hkeys, in_keys_set. cbn [orb]. intuition.
      * intros x w Hx. destruct (Hget x w Hx) as [Hacc|(-> & rec & Hr & Hid & Hw)].
        -- apply get_set_cases in Hacc.
           destruct Hacc as [(-> & ->)|(_ & Hacc)]; [|now left].
           right. split; [reflexivity|]. exists r. cbn. auto.
        -- right. split; [reflexivity|]. exists rec. cbn. auto.
    + destruct (IH acc) as (Hnd & Hkeys & Hget).
      split; [exact Hnd|]. split.
      * intros x. rewrite Hkeys. cbn [orb]. reflexivity.
      * intros x w Hx. destruct (Hget x w Hx) as [Hacc|(-> & rec & Hr & Hid & Hw)];
          [now left|].
        right. split; [reflexivity|]. exists rec. cbn. auto.
Qed.

(** Both loops of the collection of [manager_scores]. *)
Lemma scores_outer_spec (id : string)
    (manager_results : Py.dict ManagerResult.t) (acc : Py.dict Q) :
  let res :=
    fold_left
      (fun manager_scores (item : string * ManagerResult.t) =>
         fold_left
           (fun manager_scores rec =>
              if String.eqb (CardRecommendation.card_id rec) id
              then Py.set manager_scores (fst item)
                          (CardRecommendation.match_score rec)
              else manager_scores)
           (ManagerResult.recommendations (snd item)) manager_scores)
      manager_results acc in
  (NoDup (Py.keys acc) -> NoDup (Py.keys res))
  /\ (forall x,
        In x (Py.keys res)
        <-> In x (Py.keys acc)
            \/ exists item,
                 In item manager_results /\ fst item = x
                 /\ existsb (fun rec =>
                               String.eqb (CardRecommendation.card_id rec) id)
                            (ManagerResult.recommendations (snd item)) = true)
  /\ (forall x w,
        Py.get res x = Some w ->
        Py.get acc x = Some w
        \/ exists item rec,
             In item manager_results /\ fst item = x
             /\ In rec (ManagerResult.recommendations (snd item))
             /\ CardRecommendation.card_id rec = id
             /\ w = CardRecommendation.match_score rec).
Proof.
  cbv zeta. revert acc.
  induction manager_results as [|item rest IH]; intros acc; cbn [fold_left].
  - split; [auto|]. split; [|auto].
    intros x. split; [auto|]. intros [Hx|(item & [] & _)]. assumption.
  - pose proof (scores_inner_spec id (fst item)
                  (ManagerResult.recommendations (snd item)) acc) as Hin.
    cbv zeta in Hin. destruct Hin as (Hnd1 & Hkeys1 & Hget1).
    match goal with
    | |- context [fold_left _ rest ?acc'] =>
        destruct (IH acc') as (Hnd2 & Hkeys2 & Hget2)
    end.
    split; [intros Ha; now apply Hnd2, Hnd1|]. split.
    + intros x. rewrite Hkeys2, Hkeys1. split.
      * intros [[Hx|(-> & Hex)]|(it & Hit & Hfst & Hex)].
        -- now left.
        -- right. exists item. cbn. auto.
        -- right. exists it. cbn. auto.
      * intros [Hx|(it & [<-|Hit] & Hfst & Hex)].
        -- left. now left.
        -- left. right. auto.
        -- right. exists it. auto.
    + intros x w Hx.
      destruct (Hget2 x w Hx) as [Hmid|(it & rec & Hit & Hfst & Hrec & Hid & Hw)].
      * destruct (Hget1 x w Hmid) as [Hacc|(-> & rec & Hrec & Hid & Hw)];
          [now left|].
        right. exists item, rec. cbn. auto.
      * right. exists it, rec. cbn. auto.
Qed.

(** X14. The per-category scores attached to a final entry have one key
    per category that recommended the card, and no other: a category name
    is a key exactly when its recommendation list holds a candidate with
    the card's identifier, and the score stored under it is the match score
    of such a candidate of that category. *)
Theorem X14_manager_scores_name_the_recommending_categories
    (manager_results : Py.dict ManagerResult.t)
    (request : option RequestParsed) (card : CardRecommendation.t) :
  let scores :=
    FinalRecommendation.manager_scores
      (SummaryAgent.final_recommendation manager_results request card) in
  NoDup (Py.keys scores)
  /\ (forall category,
        In category (Py.keys scores)
        <-> exists item,
              In item manager_results /\ fst item = category
              /\ existsb (fun rec =>
                            String.eqb (CardRecommendation.card_id rec)
                                       (CardRecommendation.card_id card))
                         (ManagerResult.recommendations (snd item)) = true)
  /\ (forall category score,
        Py.get scores category = Some score ->
        exists item rec,
          In item manager_results /\ fst item = category
          /\ In rec (ManagerResult.recommendations (snd item))
          /\ CardRecommendation.card_id rec = CardRecommendation.card_id card
          /\ score = CardRecommendation.match_score rec).
Proof.
  cbv zeta.
  cbn [SummaryAgent.final_recommendation FinalRecommendation.manager_scores].
  unfold SummaryAgent.collect_manager_scores.
  pose proof (scores_outer_spec (CardRecommendation.card_id card)
                manager_results []) as Hspec.
  cbv zeta in Hspec. destruct Hspec as (Hnd & Hkeys & Hget).
  split; [apply Hnd; constructor|]. split.
  - intros category. rewrite Hkeys. cbn [Py.keys map In]. intuition.
  - intros category score Hs.
    destruct (Hget category score Hs) as [Hnil|Hex]; [discriminate|exact Hex].
Qed.
End ManagerScoresFacts.


(** *** Best-for tags and the error / fallback stage *)

Section BestForFacts.
Context `{PyRepr}.
Local Open Scope Q_scope.

Ltac no_such_tag :=
  cbn; let Hin := fresh "Hin" in
       intros Hin;
       repeat (destruct Hin as [Hin|Hin]; [discriminate Hin|]);
       exact Hin.

Lemma NoDup_snoc {A} (l : list A) (a : A) :
  NoDup l -> ~ In a l -> NoDup (l ++ [a]).
Proof.
  intros Hl Ha. apply NoDup_app; repeat split; try assumption.
  - repeat constructor. intros [].
  - intros x Hx [<-|[]]. now apply Ha.
Qed.

Lemma in_snoc {A} (l : list A) (a x : A) :
  In x (l ++ [a]) <-> In x l \/ a = x.
Proof. rewrite in_app_iff. cbn. tauto. Qed.

(** The tags that depend on the card type: distinct, and none of them is a
    fee tag or the signup tag. *)
Lemma type_tags_of_best_features (card : CardRecommendation.t) :
  exists tags,
    (forall request,
        SummaryAgent.identify_best_features card request
        = let fee := CardRecommendation.annual_fee card in
          let priced :=
            if Qeq_bool fee 0 then tags ++ ["Cost-effective"%string]
            else if Qle_bool fee 50 then tags ++ ["Low cost"%string]
            else tags in
          if Py.contains "signup bonus" (Py.lower (str_recommendation card))
          then priced ++ ["Signup bonus"%string] else priced)
    /\ NoDup tags
    /\ ~ In "Cost-effective"%string tags
    /\ ~ In "Low cost"%string tags
    /\ ~ In "Signup bonus"%string tags.
Proof.
  unfold SummaryAgent.identify_best_features. cbv zeta.
  match goal with
  | |- context [?T ++ ["Cost-effective"%string]] => exists T
  end.
  split; [reflexivity|].
  repeat match goal with
         | |- context [if ?b then _ else _] => destruct b
         end;
    cbn [app];
    (split; [solve [repeat (constructor; [no_such_tag|]); constructor]|]);
    (split; [no_such_tag|]); (split; no_such_tag).
Qed.

(** X15. The best-for tags of a card never repeat a tag; "Cost-effective"
    is listed exactly for a zero annual fee, "Low cost" exactly for a
    non-zero fee of at most 50 (so never both), and "Signup bonus" exactly
    when the card's lower-cased text contains "signup bonus". *)
Theorem X15_best_for_tags_are_distinct_and_follow_the_fee
    (card : CardRecommendation.t) (request : option RequestParsed) :
  let features := SummaryAgent.identify_best_features card request in
  NoDup features
  /\ (In "Cost-effective"%string features
      <-> CardRecommendation.annual_fee card == 0)
  /\ (In "Low cost"%string features
      <-> ~ CardRecommendation.annual_fee card == 0
          /\ CardRecommendation.annual_fee card <= 50)
  /\ (In "Signup bonus"%string features
      <-> Py.contains "signup bonus" (Py.lower (str_recommendation card))
          = true).
Proof.
  cbv zeta.
  destruct (type_tags_of_best_features card)
    as (tags & -> & Hnd & Hc & Hl & Hs).
  cbv zeta.
  assert (Hcl : "Cost-effective"%string <> "Low cost"%string) by discriminate.
  assert (Hcs : "Cost-effective"%string <> "Signup bonus"%string)
    by discriminate.
  assert (Hls : "Low cost"%string <> "Signup bonus"%string) by discriminate.
  generalize dependent "Cost-effective"%string. intros cost.
  generalize dependent "Low cost"%string. intros low.
  generalize dependent "Signup bonus"%string. intros bonus.
  intros Hs Hls Hl Hc Hcl Hcs.
  destruct (Qeq_bool (CardRecommendation.annual_fee card) 0) eqn:E0;
  [ apply Qeq_bool_iff in E0
  | assert (N0 : ~ CardRecommendation.annual_fee card == 0)
      by (intros Hq; apply Qeq_bool_iff in Hq; congruence) ];
  (destruct (Qle_bool (CardRecommendation.annual_fee card) 50) eqn:E50;
   [ apply Qle_bool_iff in E50
   | assert (N50 : ~ CardRecommendation.annual_fee card <= 50)
       by (intros Hq; apply Qle_bool_iff in Hq; congruence) ]);
  destruct (Py.contains _ _);
  rewrite ?in_snoc;
  (split;
   [ repeat (apply NoDup_snoc; [|rewrite ?in_snoc; intuition congruence]);
     exact Hnd
   | intuition congruence ]).
Qed.
End BestForFacts.

(** X16. The error / fallback stage never completes its own work: the
    state model has no attribute to hold its result, so the stage always
    ends in its exception handler.  It records itself as completed, appends
    exactly one [critical] error record whose text starts with "Error
    handler failed: " and empties [next_nodes]; the fallback candidate it
    has built ([fallback_001], match score 0.6, only when a request is
    present) is dropped.  It changes neither the request, nor the result
    map, nor the final answer, the static edge still leads to the
    aggregation stage, and that stage computes what it would without it:
    the fallback candidate never enters a final answer. *)
Theorem X16_fallback_stage_never_feeds_the_final_answer
    `{PyRepr} (state : GraphState) :
  let state' := ErrorHandlerNode.execute state in
  (exists e,
      ErrorHandlerNode.execute_steps
        (set_completed_nodes
           (completed_nodes state ++ ["error_handler"%string])
           (set_current_node (Some "error_handler"%string) state))
      = Raise e
      /\ errors state'
         = errors state
           ++ [{| node := "error_handler";
                  error := ("Error handler failed: " ++ str_exn e)%string;
                  type := Some "critical"%string |}])
  /\ current_node state' = Some "error_handler"%string
  /\ completed_nodes state' = completed_nodes state ++ ["error_handler"%string]
  /\ next_nodes state' = []
  /\ request state' = request state
  /\ manager_results state' = manager_results state
  /\ final_recommendations state' = final_recommendations state
  /\ Graph.successor Graph.error_handler state'
     = Some (Graph.Goto Graph.summary)
  /\ SummaryAgent.execute_steps state' = SummaryAgent.execute_steps state
  /\ (forall request,
        exists candidate,
          ErrorHandlerNode.generate_fallback_recommendations request
          = [candidate]
          /\ CardRecommendation.card_id candidate = "fallback_001"%string
          /\ (CardRecommendation.match_score candidate == 0.6)%Q).
Proof.
  cbv zeta.
  assert (Hsteps : forall s,
             exists e, ErrorHandlerNode.execute_steps s = Raise e).
  { intros s. unfold ErrorHandlerNode.execute_steps. cbv zeta.
    unfold setattr_undeclared. cbn [bind]. eexists; reflexivity. }
  unfold ErrorHandlerNode.execute. cbv zeta.
  change ErrorHandlerNode.node_type with "error_handler"%string.
  change (completed_nodes
            (set_current_node (Some "error_handler"%string) state))
    with (completed_nodes state).
  match goal with
  | |- context [ErrorHandlerNode.execute_steps ?s] =>
      destruct (Hsteps s) as (e & He); rewrite He
  end.
  split; [exists e; split; reflexivity|].
  do 8 (split; [reflexivity|]).
  intros request. eexists. split; [reflexivity|]. split; reflexivity.
Qed.


(* ================================================================== *)
(** ** Further properties: the extraction helpers *)
(* ================================================================== *)

Lemma contains_hyphen_cons (c : ascii) (t : string) :
  Py.contains "-" (String c t) = Ascii.eqb c "-" || Py.contains "-" t.
Proof.
  cbn [Py.contains]. f_equal. cbn [prefix].
  destruct (ascii_dec "-" c) as [<-|Hne].
  - now destruct t.
  - symmetry. apply Ascii.eqb_neq. congruence.
Qed.

Lemma contains_hyphen_app (a b : string) :
  Py.contains "-" (a ++ b) = Py.contains "-" a || Py.contains "-" b.
Proof.
  induction a as [|c a IH].
  - cbn [append]. now destruct b.
  - change (String c a ++ b)%string with (String c (a ++ b)%string).
    rewrite !contains_hyphen_cons, IH. now rewrite orb_assoc.
Qed.

Lemma append_empty_r (s : string) : (s ++ "")%string = s.
Proof. induction s as [|c s IH]; [reflexivity|]. cbn. now rewrite IH. Qed.

Lemma append_assoc (a b c : string) :
  ((a ++ b) ++ c)%string = (a ++ (b ++ c))%string.
Proof. induction a as [|x a IH]; [reflexivity|]. cbn. now rewrite IH. Qed.

(** A text without hyphen is one segment. *)
Lemma last_segment_from_plain (segment s : string) :
  Py.contains "-" s = false ->
  last_segment_from segment s = (segment ++ s)%string.
Proof.
  revert segment. induction s as [|c t IH]; intros segment Hs.
  - cbn. now rewrite append_empty_r.
  - rewrite contains_hyphen_cons in Hs. apply orb_false_iff in Hs.
    destruct Hs as (Hc & Ht). cbn [last_segment_from]. rewrite Hc.
    rewrite (IH _ Ht). now rewrite append_assoc.
Qed.

(** After a hyphen only what follows counts. *)
Lemma last_segment_from_hyphen (segment p s : string) :
  last_segment_from segment (p ++ String "-" s) = last_segment_from "" s.
Proof.
  revert segment. induction p as [|c p IH]; intros segment.
  - reflexivity.
  - change (String c p ++ String "-" s)%string
      with (String c (p ++ String "-" s)%string).
    cbn [last_segment_from]. destruct (Ascii.eqb c "-"); apply IH.
Qed.

Lemma last_segment_from_no_hyphen (segment s : string) :
  Py.contains "-" segment = false ->
  Py.contains "-" (last_segment_from segment s) = false.
Proof.
  revert segment. induction s as [|c t IH]; intros segment Hseg.
  - exact Hseg.
  - cbn [last_segment_from]. destruct (Ascii.eqb c "-") eqn:Hc.
    + now apply IH.
    + apply IH. rewrite contains_hyphen_app, Hseg, contains_hyphen_cons, Hc.
      reflexivity.
Qed.

Lemma substring_all (s : string) : substring 0 (String.length s) s = s.
Proof. induction s as [|c s IH]; [reflexivity|]. cbn. now rewrite IH. Qed.

(** X17. The jurisdiction derived from a locale never contains a hyphen.
    For a locale of the form [language-...-REGION] it is the region (the
    text after the last hyphen); an empty locale gives "SG"; a two-letter
    locale is returned as it is. *)
Theorem X17_jurisdiction_is_the_text_after_the_last_hyphen
    (locale : string) :
  Py.contains "-" (_parse_jurisdiction_from_locale locale) = false
  /\ (forall language region,
        locale = (language ++ "-" ++ region)%string ->
        Py.contains "-" region = false ->
        _parse_jurisdiction_from_locale locale = region)
  /\ (locale = ""%string -> _parse_jurisdiction_from_locale locale = "SG"%string)
  /\ (String.length locale = 2%nat -> Py.contains "-" locale = false ->
      _parse_jurisdiction_from_locale locale = locale).
Proof.
  split; [|split; [|split]].
  - unfold _parse_jurisdiction_from_locale.
    destruct locale as [|a t]; [reflexivity|].
    destruct (Py.contains "-" (String a t)) eqn:Hh.
    { apply last_segment_from_no_hyphen. reflexivity. }
    destruct (String.length (String a t) =? 2)%nat; [exact Hh|].
    destruct (2 <? String.length (String a t))%nat eqn:Hlen; [|reflexivity].
    destruct (prefix "en" (String a t)); [|exact Hh].
    destruct t as [|b t]; [discriminate|].
    cbn [String.length Nat.sub substring].
    rewrite Nat.sub_0_r, substring_all.
    rewrite !contains_hyphen_cons in Hh.
    apply orb_false_iff in Hh. destruct Hh as (_ & Hh).
    apply orb_false_iff in Hh. now destruct Hh.
  - intros language region -> Hregion.
    unfold _parse_jurisdiction_from_locale.
    assert (Hh : Py.contains "-" (language ++ "-" ++ region) = true).
    { rewrite contains_hyphen_app.
      change ("-" ++ region)%string with (String "-" region).
      rewrite contains_hyphen_cons. cbn. apply orb_true_r. }
    destruct (language ++ "-" ++ region)%string as [|a t] eqn:E.
    { destruct language; discriminate. }
    rewrite Hh. rewrite <- E. unfold last_segment.
    change ("-" ++ region)%string with (String "-" region).
    rewrite last_segment_from_hyphen.
    now rewrite (last_segment_from_plain "" region Hregion).
  - now intros ->.
  - intros Hlen Hh. unfold _parse_jurisdiction_from_locale.
    destruct locale as [|a t]; [discriminate|].
    now rewrite Hh, Hlen.
Qed.


(** X18. Keyword parsing always yields a usable request dict: the goal list
    is never empty, has no duplicate and holds only the tags miles, travel,
    cashback and rewards; hence routing never sends a keyword-parsed request
    to the general handler, its plan names the travel and cashback handlers
    only.  The confidence is 0.5, the jurisdiction is the one derived from
    the locale, and the only constraint ever set is a zero maximal annual
    fee, exactly when the lower-cased text contains "no fee" or "no annual
    fee". *)
Theorem X18_keyword_parsing_yields_routable_goals (text locale : string) :
  exists parsed_goals parsed_constraints,
    pd_goals (_fallback_parsing text locale) = Some parsed_goals
    /\ parsed_goals <> []
    /\ NoDup parsed_goals
    /\ (forall goal,
          In goal parsed_goals ->
          In goal ["miles"; "travel"; "cashback"; "rewards"])
    /\ (forall request,
          goals request = parsed_goals ->
          _determine_manager_categories request <> ["general_manager"]
          /\ forall category,
               In category (_determine_manager_categories request) ->
               category = "travel_manager" \/ category = "cashback_manager")
    /\ pd_intent (_fallback_parsing text locale) = Some "recommend_card"
    /\ pd_confidence (_fallback_parsing text locale) = Some 0.5%Q
    /\ pd_jurisdiction (_fallback_parsing text locale)
       = Some (_parse_jurisdiction_from_locale locale)
    /\ pd_constraints (_fallback_parsing text locale) = Some parsed_constraints
    /\ (parsed_constraints = [("annual_fee_max", 0%Q)]
        \/ parsed_constraints = [])
    /\ (parsed_constraints <> []
        <-> Py.contains "no fee" (Py.lower text)
            || Py.contains "no annual fee" (Py.lower text) = true).
Proof.
  unfold _fallback_parsing. cbv zeta.
  cbn [pd_goals pd_constraints pd_intent pd_confidence pd_jurisdiction].
  destruct (any_word_in (Py.lower text) ["miles"; "travel"; "airline"]);
  destruct (any_word_in (Py.lower text) ["cashback"; "cash back"; "money"]);
  destruct (any_word_in (Py.lower text) ["rewards"; "points"]);
  destruct (Py.contains "no fee" (Py.lower text)
            || Py.contains "no annual fee" (Py.lower text));
  cbn [app Py.set].
  all: eexists _, _; split; [reflexivity|].
  all: split; [discriminate|].
  all: split; [solve [repeat constructor; cbn; intuition discriminate]|].
  all: split; [cbn; tauto|].
  all: split.
  all: try solve [intros request Hg; unfold _determine_manager_categories;
                  rewrite Hg; cbn; split; [discriminate|];
                  intros category; intuition congruence].
  all: do 4 (split; [reflexivity|]).
  all: split; [tauto|].
  all: split; intros; first [reflexivity | discriminate | congruence].
Qed.

Section ExtractionFacts.
Context `{LLMExtractor}.

(** X19. Whatever the collaborator returned, the validated request carries
    the jurisdiction derived from the locale; without personalization
    consent its spend focus and priority list are empty; a dict without
    intent is replaced by the minimal request with the single goal
    [rewards]; otherwise the fields that are present are kept and the
    missing ones take their defaults. *)
Theorem X19_validated_request_is_forced_to_the_locale
    (parsed_data : ParsedData) (consent : Consent) (locale : string) :
  let r := _validate_request parsed_data consent locale in
  jurisdiction r = _parse_jurisdiction_from_locale locale
  /\ (personalization consent = false ->
      spend_focus r = [] /\ priority r = [])
  /\ (pd_intent parsed_data = None ->
      intent r = "recommend_card" /\ goals r = ["rewards"]
      /\ constraints r = [] /\ risk_tolerance r = "standard"
      /\ time_horizon r = "12m" /\ spend_focus r = [] /\ priority r = [])
  /\ (forall i,
        pd_intent parsed_data = Some i ->
        intent r = i
        /\ goals r = match pd_goals parsed_data with
                     | Some g => g
                     | None => ["rewards"]
                     end
        /\ constraints r = match pd_constraints parsed_data with
                           | Some c => c
                           | None => []
                           end
        /\ risk_tolerance r = match pd_risk_tolerance parsed_data with
                              | Some t => t
                              | None => "standard"
                              end
        /\ time_horizon r = match pd_time_horizon parsed_data with
                            | Some t => t
                            | None => "12m"
                            end).
Proof.
  cbv zeta. unfold _validate_request. cbv zeta.
  destruct parsed_data as [i c g p s j rt mh nh th cf].
  destruct (personalization consent) eqn:Hp;
  cbn [negb pop_personalization pd_intent pd_constraints pd_goals pd_priority
       pd_spend_focus pd_jurisdiction pd_risk_tolerance pd_must_have
       pd_nice_to_have pd_time_horizon pd_confidence];
  destruct j as [j|];
  try (destruct (String.eqb j (_parse_jurisdiction_from_locale locale)) eqn:Ej;
       [apply String.eqb_eq in Ej|]);
  destruct i as [i|];
  cbn [set_pd_jurisdiction pd_intent pd_constraints pd_goals pd_priority
       pd_spend_focus pd_jurisdiction pd_risk_tolerance pd_must_have
       pd_nice_to_have pd_time_horizon pd_confidence
       jurisdiction spend_focus priority intent goals constraints
       risk_tolerance time_horizon];
  (split; [first [reflexivity | exact Ej]|]);
  (split; [intros Hc; first [discriminate Hc | now split]|]);
  (split; [intros Hi; first [discriminate Hi | repeat split]|]);
  intros i' Hi'; first [discriminate Hi' | injection Hi' as <-; repeat split].
Qed.

End ExtractionFacts.


(* ================================================================== *)
(** ** Further properties: runs of the stage graph *)
(* ================================================================== *)

Lemma extends_refl {A} (l : list A) : extends l l.
Proof. exists []. now rewrite app_nil_r. Qed.

Lemma extends_app {A} (l added : list A) : extends l (l ++ added).
Proof. now exists added. Qed.

Lemma extends_trans {A} (l1 l2 l3 : list A) :
  extends l1 l2 -> extends l2 l3 -> extends l1 l3.
Proof.
  intros (a & ->) (b & ->). exists (a ++ b). now rewrite app_assoc.
Qed.

Section RunFacts.
Context `{PyRepr} `{LLMTool} `{Extraction} `{Enrichment}.

(** The router always hands over to a handler or to the error / fallback
    stage. *)
Lemma router_successor (state : GraphState) :
  exists n,
    Graph.successor Graph.router (router_node state) = Some (Graph.Goto n)
    /\ stage_rank n = 2%nat.
Proof.
  cbn [Graph.successor]. unfold _should_continue_to_managers.
  destruct (request state) as [r|] eqn:Hr.
  - destruct (router_node_fields state r Hr) as (_ & Herr & _ & Hfan).
    rewrite Herr, Hfan.
    destruct (errors state); [|exists Graph.error_handler; now split].
    destruct (plan_head r) as (first & rest & n & M & -> & Hget & Hn & _).
    exists n. split; [exact Hget|].
    destruct n; cbn in Hn; first [discriminate | reflexivity].
  - unfold router_node. cbn [request set_completed_nodes set_current_node].
    rewrite Hr. cbn. destruct (errors state); exists Graph.error_handler;
      now split.
Qed.

(** The stages of rank 2 and more run a fixed tail of the pipeline. *)
Lemma run_tail (k : nat) (n : Graph.Node) (state : GraphState) :
  (2 <= stage_rank n)%nat ->
  exists trace final,
    Graph.run (4 + k) n state = (n :: trace, Graph.Completed final)
    /\ StronglySorted lt (map stage_rank (n :: trace))
    /\ last (n :: trace) n = Graph.summary.
Proof.
  intros Hrank.
  destruct n; cbn in Hrank; try lia;
    cbn [Graph.run Graph.node_function Graph.successor Nat.add];
    eexists _, _; (split; [reflexivity|]);
    (split; [cbn; repeat constructor | reflexivity]).
Qed.

Lemma sorted_lt_cons (b a : nat) (l : list nat) :
  (b < a)%nat -> StronglySorted lt (a :: l) -> StronglySorted lt (b :: a :: l).
Proof.
  intros Hba Hs. constructor; [exact Hs|].
  inversion Hs as [|? ? _ Hall]; subst.
  constructor; [exact Hba|].
  eapply Forall_impl; [|exact Hall]. intros x Hx. cbn in *. lia.
Qed.

Lemma last_step {A : Type} (a b : A) (l : list A) :
  last (a :: b :: l) a = last (b :: l) b.
Proof.
  assert (Hd : forall (l' : list A) (x d d' : A),
             last (x :: l') d = last (x :: l') d').
  { induction l' as [|y l' IH]; intros x d d'; [reflexivity|].
    change (last (y :: l') d = last (y :: l') d'). apply IH. }
  change (last (b :: l) a = last (b :: l) b). apply Hd.
Qed.

Lemma run_router (k : nat) (state : GraphState) :
  exists n trace final,
    Graph.run (5 + k) Graph.router state
    = (Graph.router :: n :: trace, Graph.Completed final)
    /\ stage_rank n = 2%nat
    /\ StronglySorted lt (map stage_rank (Graph.router :: n :: trace))
    /\ last (n :: trace) n = Graph.summary
    /\ (List.length (n :: trace) <= 4)%nat.
Proof.
  destruct (router_successor state) as (n & Hsucc & Hrank).
  assert (Hge : (2 <= stage_rank n)%nat) by lia.
  destruct (run_tail k n (router_node state) Hge)
    as (trace & final & Hrun & Hsorted & Hlast).
  exists n, trace, final.
  change (5 + k)%nat with (S (4 + k)).
  rewrite (run_goto (4 + k) Graph.router n state (router_node state)
             eq_refl Hsucc), Hrun.
  split; [reflexivity|]. split; [exact Hrank|].
  split.
  { cbn [map]. apply sorted_lt_cons; [|exact Hsorted].
    rewrite Hrank. cbn. lia. }
  split; [exact Hlast|].
  clear - Hrun Hrank.
  destruct n; cbn in Hrank; try discriminate;
    cbn [Graph.run Graph.node_function Graph.successor Nat.add] in Hrun;
    injection Hrun as <- _; cbn; lia.
Qed.

Lemma extractor_returns_request (state state' : GraphState) :
  extractor_node state = Returned state' ->
  exists r, request state' = Some r /\ errors state' = errors state.
Proof.
  unfold extractor_node. cbn [user_query consent locale set_current_node].
  destruct (user_query state); [discriminate|].
  destruct (extract_and_validate _ _ _) as [r|e]; [|discriminate].
  intros [= <-]. exists r. now split.
Qed.

Lemma run_extractor_returned (k : nat) (state st : GraphState) :
  extractor_node state = Returned st ->
  exists trace final,
    Graph.run (6 + k) Graph.extractor state
    = (Graph.extractor :: trace, Graph.Completed final)
    /\ StronglySorted lt (map stage_rank (Graph.extractor :: trace))
    /\ (List.length (Graph.extractor :: trace) <= 6)%nat
    /\ last (Graph.extractor :: trace) Graph.extractor = Graph.summary.
Proof.
  intros Hex.
  destruct (extractor_returns_request state st Hex) as (r & Hr & Herr).
  destruct (errors st) as [|err errs] eqn:He.
  - assert (Hsucc : Graph.successor Graph.extractor st
                    = Some (Graph.Goto Graph.router)).
    { cbn [Graph.successor]. unfold _should_continue_to_router.
      now rewrite He, Hr. }
    destruct (run_router k st)
      as (m & trace & final & Hrun & Hrank & Hs & Hl & Hlen).
    exists (Graph.router :: m :: trace), final.
    change (6 + k)%nat with (S (5 + k)).
    rewrite (run_goto (5 + k) Graph.extractor Graph.router state st
               Hex Hsucc), Hrun.
    split; [reflexivity|].
    split; [cbn [map]; apply sorted_lt_cons; [cbn; lia | exact Hs]|].
    split; [cbn [List.length] in *; lia|].
    now rewrite !last_step.
  - assert (Hsucc : Graph.successor Graph.extractor st
                    = Some (Graph.Goto Graph.error_handler)).
    { cbn [Graph.successor]. unfold _should_continue_to_router.
      now rewrite He. }
    assert (Hge : (2 <= stage_rank Graph.error_handler)%nat) by (cbn; lia).
    destruct (run_tail (1 + k) Graph.error_handler st Hge)
      as (trace & final & Hrun & Hs & Hl).
    exists (Graph.error_handler :: trace), final.
    change (6 + k)%nat with (S (4 + (1 + k))).
    rewrite (run_goto (4 + (1 + k)) Graph.extractor Graph.error_handler
               state st Hex Hsucc), Hrun.
    split; [reflexivity|].
    split; [cbn [map]; apply sorted_lt_cons; [cbn; lia | exact Hs]|].
    split.
    { clear - Hrun.
      cbn [Graph.run Graph.node_function Graph.successor Nat.add] in Hrun.
      injection Hrun as <- _. cbn. lia. }
    now rewrite last_step.
Qed.

(** X21. A run of the graph never loops, never misroutes and never reaches
    the recursion limit.  From whatever stage and state it starts, it
    executes at most six stages, each in a strictly later pipeline position
    than the one before, and it either completes with the aggregation stage
    as its last stage or, when started at the extraction stage, is aborted
    there by the exception that stage raises. *)
Theorem X21_every_run_moves_strictly_forward_and_ends
    (k : nat) (n : Graph.Node) (state : GraphState) :
  exists trace outcome,
    Graph.run (6 + k) n state = (n :: trace, outcome)
    /\ StronglySorted lt (map stage_rank (n :: trace))
    /\ (List.length (n :: trace) <= 6)%nat
    /\ ((exists final,
           outcome = Graph.Completed final
           /\ last (n :: trace) n = Graph.summary)
        \/ (exists e raised,
              n = Graph.extractor /\ trace = []
              /\ extractor_node state = Raised e raised
              /\ outcome = Graph.Aborted Graph.extractor e raised)).
Proof.
  assert (Htail : forall m st,
             (2 <= stage_rank m)%nat ->
             exists trace final,
               Graph.run (4 + (2 + k)) m st = (m :: trace, Graph.Completed final)
               /\ StronglySorted lt (map stage_rank (m :: trace))
               /\ last (m :: trace) m = Graph.summary
               /\ (List.length (m :: trace) <= 4)%nat).
  { intros m st Hm.
    destruct (run_tail (2 + k) m st Hm) as (trace & final & Hrun & Hs & Hl).
    exists trace, final. repeat (split; [assumption|]).
    clear - Hrun Hm.
    destruct m; cbn in Hm; try lia;
      cbn [Graph.run Graph.node_function Graph.successor Nat.add] in Hrun;
      injection Hrun as <- _; cbn; lia. }
  assert (Hdone : forall m st,
             (2 <= stage_rank m)%nat ->
             exists trace outcome,
               Graph.run (6 + k) m st = (m :: trace, outcome)
               /\ StronglySorted lt (map stage_rank (m :: trace))
               /\ (List.length (m :: trace) <= 6)%nat
               /\ ((exists final,
                      outcome = Graph.Completed final
                      /\ last (m :: trace) m = Graph.summary)
                   \/ (exists e raised,
                         m = Graph.extractor /\ trace = []
                         /\ extractor_node st = Raised e raised
                         /\ outcome = Graph.Aborted Graph.extractor e raised))).
  { intros m st Hm.
    destruct (Htail m st Hm) as (trace & final & Hrun & Hs & Hl & Hlen).
    exists trace, (Graph.Completed final).
    split; [exact Hrun|]. split; [exact Hs|]. split; [lia|].
    left. now exists final. }
  destruct n; try (apply Hdone; cbn; lia).
  - (* extractor *)
    destruct (extractor_node state) as [st|e st] eqn:Hex.
    + destruct (run_extractor_returned k state st Hex)
        as (trace & final & Hrun & Hs & Hlen & Hl).
      exists trace, (Graph.Completed final).
      split; [exact Hrun|]. split; [exact Hs|]. split; [exact Hlen|].
      left. now exists final.
    + exists [], (Graph.Aborted Graph.extractor e st).
      split; [cbn [Graph.run Graph.node_function Nat.add]; now rewrite Hex|].
      split; [repeat constructor|]. split; [cbn; lia|].
      right. exists e, st. now repeat split.
  - (* router *)
    destruct (run_router (1 + k) state)
      as (m & trace & final & Hrun & Hrank & Hs & Hl & Hlen).
    exists (m :: trace), (Graph.Completed final).
    split; [exact Hrun|]. split; [exact Hs|].
    split; [cbn [List.length] in *; lia|].
    left. exists final. split; [reflexivity|].
    now rewrite last_step.
Qed.

Lemma node_function_effect (n : Graph.Node) (state state' : GraphState) :
  Graph.node_function n state = Returned state' ->
  completed_nodes state' = completed_nodes state ++ [node_name n]
  /\ extends (errors state) (errors state')
  /\ same_inputs state state'.
Proof.
  assert (Hhandler : forall M,
             node_name n = manager_type M ->
             Returned (Graph.card_manager_node M state) = Returned state' ->
             completed_nodes state' = completed_nodes state ++ [node_name n]
             /\ extends (errors state) (errors state')
             /\ same_inputs state state').
  { intros M Hname [= <-]. rewrite Hname.
    unfold Graph.card_manager_node, execute. cbv zeta.
    destruct (execute_steps M _); cbn;
      (split; [reflexivity|]); (split; [|now repeat split]).
    - apply extends_refl.
    - eexists; reflexivity. }
  destruct n; cbn [Graph.node_function];
    try (apply Hhandler; reflexivity).
  - (* extractor *)
    unfold extractor_node. cbv zeta.
    cbn [user_query consent locale set_current_node].
    destruct (user_query state) eqn:Hq; [discriminate|].
    destruct (extract_and_validate _ _ _); [|discriminate].
    intros [= <-]. cbn.
    split; [reflexivity|]. split; [apply extends_refl|].
    now repeat split.
  - (* router *)
    intros [= <-]. unfold router_node. cbv zeta.
    cbn [request set_current_node set_completed_nodes].
    destruct (request state) as [r|].
    + destruct (_determine_manager_categories r); cbn;
        (split; [reflexivity|]); (split; [apply extends_refl|]);
        now repeat split.
    + cbn. split; [reflexivity|].
      split; [eexists; reflexivity | now repeat split].
  - (* online_search *)
    intros [= <-]. unfold Graph.online_search_node. cbn.
    split; [reflexivity|].
    split; [eexists; reflexivity | now repeat split].
  - (* policy_validation *)
    intros [= <-]. unfold Graph.policy_validation_node. cbn.
    split; [reflexivity|].
    split; [eexists; reflexivity | now repeat split].
  - (* error_handler *)
    intros [= <-]. unfold ErrorHandlerNode.execute. cbv zeta.
    destruct (ErrorHandlerNode.execute_steps _); cbn;
      (split; [reflexivity|]); (split; [|now repeat split]).
    + apply extends_refl.
    + eexists; reflexivity.
  - (* summary *)
    intros [= <-]. unfold SummaryAgent.execute. cbv zeta.
    destruct (SummaryAgent.execute_steps _); cbn;
      (split; [reflexivity|]); (split; [|now repeat split]).
    + apply extends_refl.
    + eexists; reflexivity.
Qed.

(** X22. The log of completed stages is an exact record of a completed run:
    whatever the start stage, the start state and the fuel, the final
    state's [completed_nodes] is the start state's list followed by the
    names of the stages executed, in order; the error list has only grown
    at its end, and the query, the locale and the consent are those of the
    start state. *)
Theorem X22_completed_run_logs_its_stages_and_only_appends_errors
    (k : nat) (n : Graph.Node) (state final : GraphState)
    (trace : list Graph.Node) :
  Graph.run k n state = (trace, Graph.Completed final) ->
  completed_nodes final = completed_nodes state ++ map node_name trace
  /\ extends (errors state) (errors final)
  /\ same_inputs state final.
Proof.
  revert n state trace.
  induction k as [|k IH]; intros n state trace; [discriminate|].
  cbn [Graph.run].
  destruct (Graph.node_function n state) as [st|e st] eqn:Hn; [|discriminate].
  destruct (node_function_effect n state st Hn) as (Hc & He & Hq & Hl & Hco).
  destruct (Graph.successor n st) as [[n'|]|]; [| |discriminate].
  - destruct (Graph.run k n' st) as [trace' outcome] eqn:Hrun.
    intros [= <- ->].
    destruct (IH n' st trace' Hrun) as (Hc' & He' & Hq' & Hl' & Hco').
    split.
    { rewrite Hc', Hc. cbn [map]. now rewrite <- app_assoc. }
    split; [exact (extends_trans _ _ _ He He')|].
    repeat split; congruence.
  - intros [= <- <-]. cbn [map].
    split; [exact Hc|]. split; [exact He|]. now repeat split.
Qed.

(** X23. A run that is aborted stops in the extraction stage, before any
    stage has been logged: the state it leaves has the start state's
    [completed_nodes], one more error record, tagged [extractor] and
    carrying the text of the exception, and no parsed request other than
    the one it started with. *)
Theorem X23_aborted_run_records_the_extraction_error
    (k : nat) (n at_node : Graph.Node) (state raised : GraphState)
    (trace : list Graph.Node) (e : exn) :
  Graph.run (6 + k) n state = (trace, Graph.Aborted at_node e raised) ->
  n = Graph.extractor /\ at_node = Graph.extractor
  /\ trace = [Graph.extractor]
  /\ completed_nodes raised = completed_nodes state
  /\ errors raised
     = errors state
       ++ [{| node := "extractor"; error := str_exn e; type := None |}]
  /\ request raised = request state
  /\ next_nodes raised = ["error_handler"].
Proof.
  intros Hrun.
  assert (Hlate : forall m, (1 <= stage_rank m)%nat -> n <> m).
  { intros m Hm ->.
    destruct (Nat.eq_dec (stage_rank m) 1) as [Hone|Hone].
    - destruct m; cbn in Hone; try discriminate.
      destruct (run_router (1 + k) state)
        as (m & trace' & final & Hrun' & _).
      change (5 + (1 + k))%nat with (6 + k)%nat in Hrun'.
      rewrite Hrun in Hrun'. discriminate.
    - assert (Hge : (2 <= stage_rank m)%nat) by lia.
      destruct (run_tail (2 + k) m state Hge)
        as (trace' & final & Hrun' & _).
      change (4 + (2 + k))%nat with (6 + k)%nat in Hrun'.
      rewrite Hrun in Hrun'. discriminate. }
  assert (Hn : n = Graph.extractor).
  { destruct n; try reflexivity;
      exfalso; eapply Hlate; try reflexivity; cbn; lia. }
  subst n. clear Hlate.
  destruct (extractor_node state) as [st|e' st] eqn:Hex.
  { destruct (run_extractor_returned k state st Hex)
      as (trace' & final & Hrun' & _).
    rewrite Hrun in Hrun'. discriminate. }
  revert Hrun. cbn [Graph.run Graph.node_function Nat.add]. rewrite Hex.
  intros [= <- <- <- <-].
  split; [reflexivity|]. split; [reflexivity|]. split; [reflexivity|].
  revert Hex. unfold extractor_node. cbv zeta.
  cbn [user_query consent locale set_current_node].
  destruct (user_query state).
  - intros [= <- <-]. cbn. now repeat split.
  - destruct (extract_and_validate _ _ _); [discriminate|].
    intros [= <- <-]. cbn. now repeat split.
Qed.
End RunFacts.

(* ================================================================== *)
(** ** Further properties: a fresh session, end to end *)
(* ================================================================== *)

Section EndToEnd.
Context `{PyRepr} `{LLMTool} `{LLMExtractor} `{Enrichment}.

Lemma validate_request_jurisdiction
    (parsed_data : ParsedData) (consent : Consent) (locale : string) :
  jurisdiction (_validate_request parsed_data consent locale)
  = _parse_jurisdiction_from_locale locale.
Proof.
  unfold _validate_request. cbv zeta.
  match goal with
  | |- context [if negb ?b then pop_personalization ?pd else ?pd] =>
      generalize (if negb b then pop_personalization pd else pd)
  end.
  intros pd. destruct pd as [i c g p s j rt mh nh th cf].
  cbn [pd_jurisdiction].
  destruct j as [j|];
    try (destruct (String.eqb j (_parse_jurisdiction_from_locale locale))
           eqn:Ej; [apply String.eqb_eq in Ej|]);
    destruct i as [i|]; cbn; first [reflexivity | exact Ej].
Qed.

(** The extraction stage with the extraction steps of the source, on a
    non-empty query. *)
Lemma extractor_node_source (state : GraphState) :
  user_query state <> "" ->
  extractor_node (H := source_extraction) state
  = Returned
      (set_next_nodes ["router"]
         (set_completed_nodes (completed_nodes state ++ ["extractor"])
            (set_telemetry (telemetry state ++ ["extractor.ok"])
               (set_request
                  (Some (_validate_request
                           (_extract_structured_data
                              (user_query state) (consent state) (locale state))
                           (consent state) (locale state)))
                  (set_current_node (Some "extractor") state))))).
Proof.
  unfold extractor_node. cbn [user_query consent locale set_current_node].
  destruct (user_query state) as [|a t]; [intros Hne; now contradiction Hne|].
  intros _. reflexivity.
Qed.

(** The run from the router on a state with a request and no error, for
    any fuel that lets the five stages run. *)
Lemma run_from_router_fuel
    (E : Extraction) (k : nat) (state : GraphState) (r : RequestParsed) :
  request state = Some r ->
  errors state = [] ->
  exists n M,
    hd_error (_determine_manager_categories r) = Some (manager_type M)
    /\ Graph.handler_of n = Some M
    /\ Graph.run (H1 := E) (5 + k) Graph.router state
       = ([Graph.router; n; Graph.online_search; Graph.policy_validation;
           Graph.summary],
          Graph.Completed
            (SummaryAgent.execute
               (Graph.policy_validation_node
                  (Graph.online_search_node
                     (Graph.card_manager_node M (router_node state)))))).
Proof.
  intros Hr He.
  destruct (plan_head r) as (first & rest & n & M & Hplan & Hget & Hn & HM).
  exists n, M. split; [now rewrite Hplan, HM|]. split; [exact Hn|].
  destruct (handler_node_function n M (router_node state) Hn) as (Hf & Hsucc).
  assert (Hrouter : Graph.successor Graph.router (router_node state)
                    = Some (Graph.Goto n)).
  { destruct (router_node_fields state r Hr) as (_ & Herr & _ & Hfan).
    cbn [Graph.successor]. unfold _should_continue_to_managers.
    now rewrite Herr, He, Hfan, Hplan. }
  change (5 + k)%nat with (S (S (S (S (S k))))).
  rewrite (run_goto _ Graph.router n state (router_node state)
             eq_refl Hrouter).
  rewrite (run_goto _ n Graph.online_search _ _ Hf Hsucc).
  rewrite (run_goto _ Graph.online_search Graph.policy_validation _ _
             eq_refl eq_refl).
  rewrite (run_goto _ Graph.policy_validation Graph.summary _ _
             eq_refl eq_refl).
  rewrite (run_finish _ Graph.summary _ _ eq_refl eq_refl).
  reflexivity.
Qed.

Lemma handler_node_keeps_request (M : Manager) (state : GraphState) :
  request (Graph.card_manager_node M state) = request state
  /\ completed_nodes (Graph.card_manager_node M state)
     = completed_nodes state ++ [manager_type M].
Proof.
  unfold Graph.card_manager_node, execute. cbv zeta.
  destruct (execute_steps M _); split; reflexivity.
Qed.

Lemma enrichment_keeps_request (state : GraphState) :
  request (Graph.policy_validation_node (Graph.online_search_node state))
  = request state
  /\ completed_nodes
       (Graph.policy_validation_node (Graph.online_search_node state))
     = (completed_nodes state ++ ["online_search"]) ++ ["policy_validation"].
Proof. split; reflexivity. Qed.

Lemma summary_answers (state : GraphState) (r : RequestParsed) :
  request state = Some r ->
  request (SummaryAgent.execute state) = Some r
  /\ completed_nodes (SummaryAgent.execute state)
     = completed_nodes state ++ ["summary"]
  /\ exists sr, final_recommendations (SummaryAgent.execute state) = Some sr.
Proof.
  intros Hr. unfold SummaryAgent.execute. cbv zeta.
  match goal with
  | |- context [SummaryAgent.execute_steps ?s] =>
      destruct (summary_steps_ok s r) as (sr & ->); [exact Hr|]
  end.
  split; [exact Hr|]. split; [reflexivity|]. now exists sr.
Qed.

Lemma router_node_completed (state : GraphState) :
  completed_nodes (router_node state) = completed_nodes state ++ ["router"].
Proof.
  unfold router_node. cbn [request set_current_node set_completed_nodes].
  destruct (request state) as [r|]; [|reflexivity].
  destruct (_determine_manager_categories r); reflexivity.
Qed.

(** What the stages after the router do to the request, the completed
    stages and the final answer. *)
Lemma tail_of_the_pipeline
    (M : Manager) (state : GraphState) (r : RequestParsed) :
  request state = Some r ->
  let final :=
    SummaryAgent.execute
      (Graph.policy_validation_node
         (Graph.online_search_node (Graph.card_manager_node M state))) in
  request final = Some r
  /\ completed_nodes final
     = completed_nodes state
       ++ [manager_type M; "online_search"; "policy_validation"; "summary"]
  /\ exists sr, final_recommendations final = Some sr.
Proof.
  intros Hr. cbv zeta.
  destruct (handler_node_keeps_request M state) as (Hhr & Hhc).
  destruct (enrichment_keeps_request (Graph.card_manager_node M state))
    as (Her & Hec).
  generalize dependent (Graph.card_manager_node M state). intros handled.
  generalize (Graph.policy_validation_node (Graph.online_search_node handled)).
  intros enriched Hhr Hhc Her Hec.
  destruct (summary_answers enriched r) as (Hsr & Hsc & Hans);
    [congruence|].
  split; [exact Hsr|]. split; [|exact Hans].
  rewrite Hsc, Hec, Hhc. now rewrite <- !app_assoc.
Qed.

End EndToEnd.

(* ================================================================== *)
(** ** Further properties: the boost on distinct cards *)
(* ================================================================== *)

Lemma count_none {A} (f : A -> string) (l : list A) (id : string) :
  ~ In id (map f l) ->
  filter (fun y => String.eqb (f y) id) l = [].
Proof.
  induction l as [|b l IH]; intros Hnotin; [reflexivity|].
  cbn [filter]. destruct (String.eqb (f b) id) eqn:E.
  - apply String.eqb_eq in E. exfalso. apply Hnotin. left. exact E.
  - apply IH. intros Hx. apply Hnotin. now right.
Qed.

Lemma count_once {A} (f : A -> string) (l : list A) (x : A) :
  NoDup (map f l) -> In x l ->
  List.length (filter (fun y => String.eqb (f y) (f x)) l) = 1%nat.
Proof.
  induction l as [|a l IH]; intros Hnd Hin; [destruct Hin|].
  cbn [map] in Hnd. inversion Hnd as [|? ? Hnotin Hnd']; subst.
  cbn [filter]. destruct Hin as [->|Hin].
  - rewrite String.eqb_refl. cbn [List.length].
    now rewrite (count_none f l (f x) Hnotin).
  - destruct (String.eqb (f a) (f x)) eqn:E.
    + apply String.eqb_eq in E. exfalso. apply Hnotin. rewrite E.
      now apply in_map.
    + now apply IH.
Qed.

Section DistinctCards.
Context `{PyRepr}.
Local Open Scope Q_scope.

(** X25. When no card identifier occurs twice in the candidate pool, the
    aggregation stage adds the same 0.1 to every candidate: each entry of
    the final answer comes from a pooled candidate with the same
    identifier, and its aggregate score is that candidate's match score
    plus 0.1, capped at 1. *)
Theorem X25_distinct_cards_all_get_the_same_boost
    (manager_results : Py.dict ManagerResult.t)
    (request : option RequestParsed) (f : FinalRecommendation.t) :
  NoDup (map CardRecommendation.card_id
             (SummaryAgent.aggregate_manager_results manager_results)) ->
  In f (SummaryAgent.create_final_recommendations
          (SummaryAgent.aggregate_manager_results manager_results)
          manager_results request) ->
  exists card,
    In card (SummaryAgent.aggregate_manager_results manager_results)
    /\ FinalRecommendation.card_id f = CardRecommendation.card_id card
    /\ FinalRecommendation.overall_score f
       == Qmin (CardRecommendation.match_score card + 0.1) 1.
Proof.
  intros Hnd Hin.
  apply (Permutation_in _ (create_final_perm _ _ _)) in Hin.
  apply in_map_iff in Hin. destruct Hin as (card & <- & Hcard).
  exists card. split; [exact Hcard|]. split; [reflexivity|].
  cbn [SummaryAgent.final_recommendation FinalRecommendation.overall_score].
  rewrite overall_score_formula. unfold Spec.entries_with_id.
  rewrite <- aggregate_all_entries.
  rewrite (count_once CardRecommendation.card_id _ card Hnd Hcard).
  apply Q.min_compat; [|reflexivity].
  apply Qplus_comp; [reflexivity|]. reflexivity.
Qed.
End DistinctCards.

(* ================================================================== *)
(** ** The further properties at concrete inputs *)
(* ================================================================== *)

Section FurtherInstances.
Local Open Scope Q_scope.

Lemma X2_witness :
  same_for_ranking (Sample.capped_request 0) (Sample.capped_request 500)
  /\ rank_cards (H := Demo.repr) TravelManager [travel_001; cashback_001]
                (Sample.capped_request 0)
     = rank_cards (H := Demo.repr) TravelManager [travel_001; cashback_001]
                  (Sample.capped_request 500).
Proof.
  assert (Hsame : same_for_ranking (Sample.capped_request 0)
                                   (Sample.capped_request 500)).
  { repeat split; discriminate. }
  split; [exact Hsame|].
  apply (X2_constraint_values_are_never_enforced
           (H := Demo.repr) TravelManager [travel_001; cashback_001]
           (Sample.capped_request 0) (Sample.capped_request 500) Hsame).
Defined.

Lemma X3_witness :
  exists mr,
    execute_steps (H := Demo.repr) (H0 := Demo.failing_llm)
                  (H1 := MockCatalogTool)
                  TravelManager Demo.scenario_c_state
    = Ok mr
    /\ ManagerResult.best_match mr
       = hd_error (ManagerResult.recommendations mr).
Proof.
  eexists. split; [vm_compute; reflexivity|].
  match goal with
  | |- ManagerResult.best_match ?mr = _ =>
      destruct (X3_best_match_is_the_top_scoring_catalog_entry
                  (H := Demo.repr) (H0 := Demo.failing_llm)
                  (H1 := MockCatalogTool)
                  TravelManager Demo.scenario_c_state mr)
        as (r & _ & Hbest & _)
  end.
  - vm_compute; reflexivity.
  - exact Hbest.
Defined.

Lemma X4_witness :
  exists mr rec card,
    execute_steps (H := Demo.repr) (H0 := Demo.failing_llm)
                  (H1 := MockCatalogTool)
                  TravelManager Demo.scenario_c_state
    = Ok mr
    /\ hd_error (ManagerResult.recommendations mr) = Some rec
    /\ CardRecommendation.card_id rec = CardDict.card_id card
    /\ CardRecommendation.annual_fee rec = CardDict.annual_fee card.
Proof.
  assert (Hrun : exists mr rec,
             execute_steps (H := Demo.repr) (H0 := Demo.failing_llm)
                           (H1 := MockCatalogTool)
                           TravelManager Demo.scenario_c_state
             = Ok mr
             /\ hd_error (ManagerResult.recommendations mr) = Some rec)
    by (eexists; eexists; split; vm_compute; reflexivity).
  destruct Hrun as (mr & rec & Hs & Hhd).
  assert (Hin : In rec (ManagerResult.recommendations mr)).
  { destruct (ManagerResult.recommendations mr); [discriminate Hhd|].
    injection Hhd as ->. now left. }
  destruct (X4_recommendations_copy_catalog_entries
              (H := Demo.repr) (H0 := Demo.failing_llm)
              (H1 := MockCatalogTool)
              TravelManager Demo.scenario_c_state mr rec Hs Hin)
    as (r & card & _ & _ & Hid & _ & _ & _ & Hfee & _).
  exists mr, rec, card. repeat (split; [assumption|]). exact Hfee.
Defined.

Lemma X6_witness :
  request Demo.scenario_c_state = Some Demo.scenario_c_request
  /\ search_cards (CatalogTool := Sample.failing_catalog)
                  (criteria_of Demo.scenario_c_request)
     = Raise (ValueError "catalog unavailable")
  /\ exists mr rec,
       execute_steps (H := Demo.repr) (H0 := Demo.failing_llm)
                     (H1 := Sample.failing_catalog)
                     TravelManager Demo.scenario_c_state
       = Ok mr
       /\ ManagerResult.recommendations mr = [rec]
       /\ CardRecommendation.card_id rec = "mock_001"%string.
Proof.
  split; [reflexivity|]. split; [reflexivity|].
  assert (Ha : exists a,
             analyze_request (H0 := Demo.failing_llm) TravelManager
                             (Some Demo.scenario_c_request) = Ok a)
    by (eexists; vm_compute; reflexivity).
  destruct Ha as (a & Ha).
  destruct (X6_catalog_failure_falls_back_to_mock_card
              (H := Demo.repr) (H0 := Demo.failing_llm)
              (H1 := Sample.failing_catalog)
              TravelManager Demo.scenario_c_state Demo.scenario_c_request
              a (ValueError "catalog unavailable") eq_refl Ha eq_refl)
    as (mr & rec & Hs & Hrecs & _ & _ & Hid & _).
  exists mr, rec. repeat (split; [assumption|]). exact Hid.
Defined.
Lemma X9_witness :
  exists mr,
    execute_steps (H := Demo.repr) (H0 := Demo.failing_llm)
                  (H1 := MockCatalogTool)
                  CashbackManager Demo.scenario_c_state
    = Ok mr
    /\ NoDup (map CardRecommendation.card_id
                  (ManagerResult.recommendations mr)).
Proof.
  assert (Hrun : exists mr,
             execute_steps (H := Demo.repr) (H0 := Demo.failing_llm)
                           (H1 := MockCatalogTool)
                           CashbackManager Demo.scenario_c_state
             = Ok mr)
    by (eexists; vm_compute; reflexivity).
  destruct Hrun as (mr & Hs).
  exists mr. split; [exact Hs|].
  exact (X9_handler_on_mock_catalog_lists_distinct_cards
           (H := Demo.repr) (H0 := Demo.failing_llm)
           CashbackManager Demo.scenario_c_state mr Hs).
Defined.

Lemma X11_witness :
  exists answer,
    SummaryAgent.execute_steps (H := Demo.repr) Demo.shared_card_state
    = Ok answer
    /\ SummaryResult.top_recommendation answer
       = hd_error (SummaryResult.final_recommendations answer).
Proof.
  assert (Hrun : exists answer,
             SummaryAgent.execute_steps (H := Demo.repr)
                                        Demo.shared_card_state
             = Ok answer)
    by (eexists; vm_compute; reflexivity).
  destruct Hrun as (answer & Hs).
  exists answer. split; [exact Hs|].
  destruct (X11_top_recommendation_has_the_highest_aggregate_score
              (H := Demo.repr) Demo.shared_card_state answer Hs)
    as (Htop & _).
  exact Htop.
Defined.

Lemma X12_witness :
  exists answer,
    SummaryAgent.execute_steps (H := Demo.repr) Demo.shared_card_state
    = Ok answer
    /\ Permutation
         (SummaryResult.final_recommendations answer)
         (map (SummaryAgent.final_recommendation
                 (H := Demo.repr)
                 (manager_results Demo.shared_card_state)
                 (request Demo.shared_card_state))
              (Spec.all_entries (manager_results Demo.shared_card_state))).
Proof.
  assert (Hrun : exists answer,
             SummaryAgent.execute_steps (H := Demo.repr)
                                        Demo.shared_card_state
             = Ok answer)
    by (eexists; vm_compute; reflexivity).
  destruct Hrun as (answer & Hs).
  exists answer. split; [exact Hs|].
  destruct (X12_final_order_is_stable_in_pool_order
              (H := Demo.repr) Demo.shared_card_state answer 0.6 Hs)
    as (_ & Hperm).
  exact Hperm.
Defined.

Lemma X13_witness :
  exists answer,
    SummaryAgent.execute_steps (H := Demo.repr) Demo.shared_card_state
    = Ok answer
    /\ Forall (fun c => 0 <= CardRecommendation.match_score c)
              (Spec.all_entries (manager_results Demo.shared_card_state))
    /\ 0 <= SummaryResult.confidence_score answer <= 1.
Proof.
  assert (Hrun : exists answer,
             SummaryAgent.execute_steps (H := Demo.repr)
                                        Demo.shared_card_state
             = Ok answer)
    by (eexists; vm_compute; reflexivity).
  destruct Hrun as (answer & Hs).
  assert (Hnonneg : Forall (fun c => 0 <= CardRecommendation.match_score c)
                      (Spec.all_entries
                         (manager_results Demo.shared_card_state))).
  { repeat constructor; vm_compute; discriminate. }
  exists answer. split; [exact Hs|]. split; [exact Hnonneg|].
  destruct (X13_aggregate_scores_and_confidence_lie_in_unit_interval
              (H := Demo.repr) Demo.shared_card_state answer Hs Hnonneg)
    as (_ & Hconf).
  exact Hconf.
Defined.

Lemma X22_witness :
  exists trace final,
    Graph.run (H := Demo.repr) (H0 := Demo.failing_llm)
              (H1 := Demo.minimal_extraction)
              (H2 := Demo.quiet_enrichment)
              25 Graph.router Demo.scenario_c_state
    = (trace, Graph.Completed final)
    /\ completed_nodes final
       = completed_nodes Demo.scenario_c_state ++ map node_name trace.
Proof.
  assert (Hrun : exists trace final,
             Graph.run (H := Demo.repr) (H0 := Demo.failing_llm)
                       (H1 := Demo.minimal_extraction)
                       (H2 := Demo.quiet_enrichment)
                       25 Graph.router Demo.scenario_c_state
             = (trace, Graph.Completed final))
    by (eexists; eexists; vm_compute; reflexivity).
  destruct Hrun as (trace & final & Hrun).
  exists trace, final. split; [exact Hrun|].
  destruct (X22_completed_run_logs_its_stages_and_only_appends_errors
              (H := Demo.repr) (H0 := Demo.failing_llm)
              (H1 := Demo.minimal_extraction) (H2 := Demo.quiet_enrichment)
              25 Graph.router Demo.scenario_c_state final trace Hrun)
    as (Hlog & _).
  exact Hlog.
Defined.

Lemma X23_witness :
  exists trace at_node e raised,
    Graph.run (H := Demo.repr) (H0 := Demo.failing_llm)
              (H1 := Demo.minimal_extraction)
              (H2 := Demo.quiet_enrichment)
              (6 + 19) Graph.extractor (create_initial_state "")
    = (trace, Graph.Aborted at_node e raised)
    /\ trace = [Graph.extractor]
    /\ completed_nodes raised = completed_nodes (create_initial_state "").
Proof.
  assert (Hrun : exists trace at_node e raised,
             Graph.run (H := Demo.repr) (H0 := Demo.failing_llm)
                       (H1 := Demo.minimal_extraction)
                       (H2 := Demo.quiet_enrichment)
                       (6 + 19) Graph.extractor (create_initial_state "")
             = (trace, Graph.Aborted at_node e raised))
    by (do 4 eexists; vm_compute; reflexivity).
  destruct Hrun as (trace & at_node & e & raised & Hrun).
  exists trace, at_node, e, raised. split; [exact Hrun|].
  destruct (X23_aborted_run_records_the_extraction_error
              (H := Demo.repr) (H0 := Demo.failing_llm)
              (H1 := Demo.minimal_extraction) (H2 := Demo.quiet_enrichment)
              19 Graph.extractor at_node (create_initial_state "") raised
              trace e Hrun)
    as (_ & _ & Htrace & Hlog & _).
  split; assumption.
Defined.


Lemma X25_witness :
  NoDup (map CardRecommendation.card_id
             (SummaryAgent.aggregate_manager_results Demo.single_category))
  /\ In Sample.single_entry
        (SummaryAgent.create_final_recommendations
           (H := Demo.repr)
           (SummaryAgent.aggregate_manager_results Demo.single_category)
           Demo.single_category None)
  /\ exists card,
       FinalRecommendation.card_id Sample.single_entry
       = CardRecommendation.card_id card
       /\ FinalRecommendation.overall_score Sample.single_entry
          == Qmin (CardRecommendation.match_score card + 0.1) 1.
Proof.
  assert (Hnd : NoDup (map CardRecommendation.card_id
                           (SummaryAgent.aggregate_manager_results
                              Demo.single_category))).
  { repeat constructor. intros []. }
  assert (Hin : In Sample.single_entry
                   (SummaryAgent.create_final_recommendations
                      (H := Demo.repr)
                      (SummaryAgent.aggregate_manager_results
                         Demo.single_category)
                      Demo.single_category None)).
  { left. reflexivity. }
  split; [exact Hnd|]. split; [exact Hin|].
  destruct (X25_distinct_cards_all_get_the_same_boost
              (H := Demo.repr) Demo.single_category None Sample.single_entry
              Hnd Hin)
    as (card & _ & Hid & Hscore).
  exists card. split; assumption.
Defined.
End FurtherInstances.
